(** * astroNN: the [NeuralNetMaster] base class

    A shallow embedding of [astroNN/models/NeuralNetMaster.py]: the
    pre-training checklist, the hyperparameter file written by [save], and
    the [jacobian] routine.

    Conventions of the embedding.
    - A Python [int] is a [Z]; array dimensions and indices are [nat].
    - A Python [float] used as a fraction ([val_size]) is the rational it
      denotes; the rounding of a floating-point product is the parameter
      [fround].
    - Numeric arrays hold floating-point numbers; their elements are an
      abstract type [elt] with the arithmetic of class [Scalar], and nothing
      below depends on how that arithmetic rounds.
    - numpy arrays are references ([buf]) into a store of flat row-major
      buffers, together with a [shape]; views share the buffer of their base.
    - A method is a function on the state it can touch that returns the new
      state and either a value or the exception raised; the state reached
      when an exception is raised is kept, as in Python.
    - TensorFlow and Keras are an interface ([Backend]); the file system used
      by [save] is a finite map from paths to nodes. *)

From Stdlib Require Import QArith Qround.
From stdpp Require Import base list strings gmap.

Local Open Scope string_scope.
Local Open Scope Z_scope.
Local Open Scope nat_scope.
Local Open Scope list_scope.

(* ===================================================================== *)
(** * Part I. Definitions                                                *)
(* ===================================================================== *)

(** ** Python values *)

(** Exceptions that the modelled code raises or lets through. *)
Inductive exn :=
| ValueError (msg : string)
| TypeError
| IndexError
| AttributeError
| OSError
| ImportError
| BackendError.

Inductive result (A : Type) :=
| Ok (a : A)
| Raise (e : exn).
Arguments Ok {A} a.
Arguments Raise {A} e.

(** A number held in an attribute: [int] or [float]. A float is a finite
    value, given as a rational; the infinities and nan are not represented. *)
Inductive pynum :=
| PyInt (z : Z)
| PyFloat (q : Q).

(** [labels_shape] is an [int] for flat labels and a tuple otherwise. *)
Inductive pyshape :=
| ShapeInt (n : Z)
| ShapeTuple (t : list nat).

(** A numpy array object: a reference to its buffer, and its shape. *)
Record ndarray := NDArray { buf : nat; shape : list nat }.

Definition ndim (a : ndarray) : nat := length (shape a).

(** [a.shape[k]]: [IndexError] when the tuple is too short. *)
Definition shape_at (a : ndarray) (k : nat) : result nat :=
  match shape a !! k with
  | Some d => Ok d
  | None => Raise IndexError
  end.

(** The right operand of the in-place normalisation: what [input_mean] and
    [input_std] may hold. *)
Inductive operand (elt : Type) :=
| OpNone
| OpScalar (c : elt)
| OpArray (a : ndarray).
Arguments OpNone {elt}.
Arguments OpScalar {elt} c.
Arguments OpArray {elt} a.

(** ** Keras objects *)

(** A symbolic tensor is a node of the computation graph. *)
Definition tensor := nat.

(** A layer: the attributes [input], [input_shape] and [output] that
    [jacobian] reads. [input_shape] is a tuple whose batch entry is [None]. *)
Record Layer := MkLayer {
  l_input : tensor;
  l_input_shape : list (option nat);
  l_output : tensor
}.

(** A Keras model: its layers by name, in order. *)
Record Model := MkModel { layers : list (string * Layer) }.

(** ** The attributes of a [NeuralNetMaster] instance

    Only the attributes read or written by the three modelled methods. *)
Record NeuralNetMaster (elt : Type) := MkNN {
  currentdir : string;
  folder_name : option string;
  fullfilepath : option string;
  hyper_txt : option string;
  val_size : option pynum;
  val_num : option Z;
  keras_model : option Model;
  keras_model_predict : option Model;
  input_mean : operand elt;
  input_std : operand elt;
  input_shape : option (list nat);
  labels_shape : option pyshape;
  num_train : option Z
}.
Arguments MkNN {elt}.
Arguments currentdir {elt}.
Arguments folder_name {elt}.
Arguments fullfilepath {elt}.
Arguments hyper_txt {elt}.
Arguments val_size {elt}.
Arguments val_num {elt}.
Arguments keras_model {elt}.
Arguments keras_model_predict {elt}.
Arguments input_mean {elt}.
Arguments input_std {elt}.
Arguments input_shape {elt}.
Arguments labels_shape {elt}.
Arguments num_train {elt}.

(** The state [__init__] leaves, for a given working directory. *)
Definition init {elt} (cwd : string) : NeuralNetMaster elt :=
  MkNN cwd None None None None None None None OpNone OpNone None None None.

Definition set_folder_name {elt} (v : option string) (s : NeuralNetMaster elt) :=
  MkNN (currentdir s) v (fullfilepath s) (hyper_txt s) (val_size s) (val_num s)
       (keras_model s) (keras_model_predict s) (input_mean s) (input_std s)
       (input_shape s) (labels_shape s) (num_train s).

Definition set_fullfilepath {elt} (v : option string) (s : NeuralNetMaster elt) :=
  MkNN (currentdir s) (folder_name s) v (hyper_txt s) (val_size s) (val_num s)
       (keras_model s) (keras_model_predict s) (input_mean s) (input_std s)
       (input_shape s) (labels_shape s) (num_train s).

Definition set_hyper_txt {elt} (v : option string) (s : NeuralNetMaster elt) :=
  MkNN (currentdir s) (folder_name s) (fullfilepath s) v (val_size s) (val_num s)
       (keras_model s) (keras_model_predict s) (input_mean s) (input_std s)
       (input_shape s) (labels_shape s) (num_train s).

Definition set_val_size {elt} (v : option pynum) (s : NeuralNetMaster elt) :=
  MkNN (currentdir s) (folder_name s) (fullfilepath s) (hyper_txt s) v (val_num s)
       (keras_model s) (keras_model_predict s) (input_mean s) (input_std s)
       (input_shape s) (labels_shape s) (num_train s).

Definition set_val_num {elt} (v : option Z) (s : NeuralNetMaster elt) :=
  MkNN (currentdir s) (folder_name s) (fullfilepath s) (hyper_txt s) (val_size s) v
       (keras_model s) (keras_model_predict s) (input_mean s) (input_std s)
       (input_shape s) (labels_shape s) (num_train s).

Definition set_input_shape {elt} (v : option (list nat)) (s : NeuralNetMaster elt) :=
  MkNN (currentdir s) (folder_name s) (fullfilepath s) (hyper_txt s) (val_size s)
       (val_num s) (keras_model s) (keras_model_predict s) (input_mean s)
       (input_std s) v (labels_shape s) (num_train s).

Definition set_labels_shape {elt} (v : option pyshape) (s : NeuralNetMaster elt) :=
  MkNN (currentdir s) (folder_name s) (fullfilepath s) (hyper_txt s) (val_size s)
       (val_num s) (keras_model s) (keras_model_predict s) (input_mean s)
       (input_std s) (input_shape s) v (num_train s).

Definition set_num_train {elt} (v : option Z) (s : NeuralNetMaster elt) :=
  MkNN (currentdir s) (folder_name s) (fullfilepath s) (hyper_txt s) (val_size s)
       (val_num s) (keras_model s) (keras_model_predict s) (input_mean s)
       (input_std s) (input_shape s) (labels_shape s) v.

(** ** [pre_training_checklist_master] *)

(** [int(x)] of a float truncates toward zero. *)
Definition int_of_float (q : Q) : Z := Z.quot (Qnum q) (Z.pos (Qden q)).

Section Checklist.
Context {elt : Type}.
(** Rounding of a real product to the float the interpreter stores. *)
Variable fround : Q -> Q.

(** [n * v] for an [int] n, and [int(...)] of the product. The product of
    floats is the rounded real product, taken to be finite: see
    [finite_product] for the range. *)
Definition int_times (n : Z) (v : pynum) : pynum :=
  match v with
  | PyInt z => PyInt (n * z)
  | PyFloat q => PyFloat (fround (inject_Z n * q)%Q)
  end.

Definition py_int (v : pynum) : Z :=
  match v with
  | PyInt z => z
  | PyFloat q => int_of_float q
  end.

(** The [if]/[elif] chain over [input_data.ndim]; no branch for other ranks,
    so the attribute keeps its value. *)
Definition infer_input_shape (input_data : ndarray) (old : option (list nat))
  : option (list nat) :=
  match shape input_data with
  | [_] => Some [1; 1]
  | [_; c] => Some [c; 1]
  | [_; d1; d2] => Some [d1; d2; 1]
  | [_; d1; d2; d3] => Some [d1; d2; d3]
  | _ => old
  end.

(** The [if]/[elif] chain over [labels.ndim]. *)
Definition infer_labels_shape (labels : ndarray) (old : option pyshape)
  : option pyshape :=
  match shape labels with
  | [_] => Some (ShapeInt 1)
  | [_; c] => Some (ShapeInt (Z.of_nat c))
  | [_; d1; d2] => Some (ShapeTuple [d1; d2])
  | [_; d1; d2; d3] => Some (ShapeTuple [d1; d2; d3])
  | _ => old
  end.

(** The method, statement by statement. The final [print] only reads
    [num_train] and [val_num]. *)
Definition pre_training_checklist_master (self : NeuralNetMaster elt)
    (input_data labels : ndarray) : NeuralNetMaster elt * result unit :=
  let vs := match val_size self with None => PyInt 0 | Some v => v end in
  let self := set_val_size (Some vs) self in
  match shape_at input_data 0 with
  | Raise e => (self, Raise e)
  | Ok rows =>
      let vn := py_int (int_times (Z.of_nat rows) vs) in
      let self := set_val_num (Some vn) self in
      let self := set_num_train (Some (Z.of_nat rows - vn)%Z) self in
      let self :=
        match input_shape self with
        | None =>
            let self :=
              set_input_shape (infer_input_shape input_data (input_shape self)) self in
            set_labels_shape (infer_labels_shape labels (labels_shape self)) self
        | Some _ => self
        end in
      (self, Ok tt)
  end.

End Checklist.

(** ** A state and exception monad

    [M St A]: a computation over a state [St] that returns an [A] or raises;
    the state reached at the raise is kept. *)
Definition M (St A : Type) : Type := St -> St * result A.

Definition ret {St A} (a : A) : M St A := fun s => (s, Ok a).
Definition raise {St A} (e : exn) : M St A := fun s => (s, Raise e).
Definition bind {St A B} (m : M St A) (f : A -> M St B) : M St B :=
  fun s =>
    match m s with
    | (s', Ok a) => f a s'
    | (s', Raise e) => (s', Raise e)
    end.
Definition lift {St A} (r : result A) : M St A := fun s => (s, r).
Definition get {St} : M St St := fun s => (s, Ok s).
Definition modify {St} (f : St -> St) : M St unit := fun s => (f s, Ok tt).

Notation "x <- m ;; k" := (bind m (fun x => k))
  (at level 100, m at next level, right associativity).
Notation "m ;;; k" := (bind m (fun _ => k))
  (at level 100, right associativity).

(** [for a in l: body(a)] *)
Fixpoint for_each {St A} (l : list A) (body : A -> M St unit) : M St unit :=
  match l with
  | [] => ret tt
  | a :: l' => body a ;;; for_each l' body
  end.

(** [try: m except e: h], for one exception class. *)
Definition try_except {St A} (m : M St A) (caught : exn -> bool) (h : M St A)
  : M St A :=
  fun s =>
    match m s with
    | (s', Raise e) => if caught e then h s' else (s', Raise e)
    | r => r
    end.

Definition is_AttributeError (e : exn) : bool :=
  match e with AttributeError => true | _ => false end.
Definition is_ImportError (e : exn) : bool :=
  match e with ImportError => true | _ => false end.

(** ** The file system seen by [save] *)

Inductive fsnode :=
| Dir
| File (content : string).

Abbreviation filesystem := (gmap string fsnode).

Definition starts_with_sep (s : string) : bool :=
  match s with
  | String c _ => Ascii.eqb c (Ascii.ascii_of_nat 47)
  | EmptyString => false
  end.

Fixpoint ends_with_sep (s : string) : bool :=
  match s with
  | EmptyString => false
  | String c EmptyString => Ascii.eqb c (Ascii.ascii_of_nat 47)
  | String _ r => ends_with_sep r
  end.

(** [os.path.join(a, b)] on POSIX. *)
Definition os_path_join (a b : string) : string :=
  if starts_with_sep b then b
  else match a with
       | EmptyString => b
       | _ => if ends_with_sep a then a +:+ b else a +:+ "/" +:+ b
       end.

(** The components of a path: the texts between separators. *)
Fixpoint split_sep (s : string) : list string :=
  match s with
  | EmptyString => [EmptyString]
  | String c r =>
      if Ascii.eqb c (Ascii.ascii_of_nat 47) then EmptyString :: split_sep r
      else match split_sep r with
           | h :: t => String c h :: t
           | [] => [String c EmptyString]
           end
  end.

(** The name of a directory entry: not empty, and neither [.] nor [..]. *)
Definition is_entry_name (c : string) : bool :=
  negb (String.eqb c "") && negb (String.eqb c ".") && negb (String.eqb c "..").

(** An absolute path in the form [os.getcwd] and [os.path.normpath] give:
    the root, or entry names each preceded by one separator. Two such paths
    that differ name different entries (symbolic links apart). *)
Definition normal_path (p : string) : bool :=
  match split_sep p with
  | EmptyString :: [EmptyString] => true
  | EmptyString :: c :: cs => forallb is_entry_name (c :: cs)
  | _ => false
  end.

(** A folder name that is one entry name. *)
Definition simple_name (s : string) : bool :=
  match split_sep s with
  | [c] => is_entry_name c
  | _ => false
  end.

(** The file system maps a path, as it is spelled, to what is there. It is
    exact for paths in normal form in a tree where the parent of every path
    used is a directory; the properties that depend on more than that say so
    ([plain_setting] below). *)
Definition os_path_exists (fs : filesystem) (p : string) : bool :=
  match fs !! p with Some _ => true | None => false end.

Definition os_path_isfile (fs : filesystem) (p : string) : bool :=
  match fs !! p with Some (File _) => true | _ => false end.

(** [os.makedirs(p)] for a path whose parent is a directory: the leaf is
    made. Intermediate directories to create, or a regular file in the way,
    occur only outside [plain_setting]. *)
Definition os_makedirs (p : string) (fs : filesystem) : filesystem :=
  <[p := Dir]> fs.

(** [open(p, 'w')]: creates or truncates; a directory cannot be opened. The
    parent of [p] is taken to be a directory: where a completed open is
    claimed, a regular file in the place of the parent is ruled out by
    hypothesis. *)
Definition open_w (p : string) (fs : filesystem) : result filesystem :=
  match fs !! p with
  | Some Dir => Raise OSError
  | _ => Ok (<[p := File ""]> fs)
  end.

(** [open(p, 'a')]: creates when absent, keeps the content otherwise. *)
Definition open_a (p : string) (fs : filesystem) : result filesystem :=
  match fs !! p with
  | Some Dir => Raise OSError
  | Some (File _) => Ok fs
  | None => Ok (<[p := File ""]> fs)
  end.

(** [h.write(s)] on a handle opened on [p]: the text goes to the end. The
    content of a file is the text written to it through its handles, which
    the disk shows once they are flushed or closed; [save] does neither. *)
Definition file_write (p : string) (s : string) (fs : filesystem) : filesystem :=
  match fs !! p with
  | Some (File c) => <[p := File (c +:+ s)]> fs
  | _ => fs
  end.

Definition read_file (fs : filesystem) (p : string) : option string :=
  match fs !! p with
  | Some (File c) => Some c
  | _ => None
  end.

(** ** [save] *)

(** The values interpolated into the hyperparameter file, in source order. *)
Inductive hfield :=
| HName | HModelType | HIdentifier | HPythonInfo | HAstroNNVer | HKerasVer
| HTfVer | HFolderName | HBatchSize | HOptimizer | HMaxEpochs | HLr
| HValSize | HInputShape | HLabelsShape | HNumTrain | HValNum.

Definition hyper_fields : list (string * hfield) :=
  [ ("Model: ", HName);
    ("Model Type: ", HModelType);
    ("astroNN identifier: ", HIdentifier);
    ("Python Version: ", HPythonInfo);
    ("astroNN Version: ", HAstroNNVer);
    ("Keras Version: ", HKerasVer);
    ("Tensorflow Version: ", HTfVer);
    ("Folder Name: ", HFolderName);
    ("Batch size: ", HBatchSize);
    ("Optimizer: ", HOptimizer);
    ("Maximum Epochs: ", HMaxEpochs);
    ("Learning Rate: ", HLr);
    ("Validation Size: ", HValSize);
    ("Input Shape: ", HInputShape);
    ("Label Shape: ", HLabelsShape);
    ("Number of Training Data: ", HNumTrain);
    ("Number of Validation Data: ", HValNum) ].

Definition newline : string := String (Ascii.ascii_of_nat 10) EmptyString.
Definition another_run : string := "======Another Run======".

Section Persistence.
Context {elt : Type}.
(** [str()] of the attribute a line interpolates. *)
Variable fmt : NeuralNetMaster elt -> hfield -> string.
(** [astroNN.shared.nn_tools.folder_runnum], which looks at the disk. *)
Variable folder_runnum : filesystem -> string.
(** [keras.utils.plot_model(..., to_file=p)]. *)
Variable keras_plot_model : string -> M (NeuralNetMaster elt * filesystem) unit.
(** The subclass hook and the logger's [savefile(folder_name=...)]. *)
Variable post_training_checklist_child : M (NeuralNetMaster elt * filesystem) unit.
Variable virtual_cvslogger_savefile : string -> M (NeuralNetMaster elt * filesystem) unit.

Abbreviation St := (NeuralNetMaster elt * filesystem)%type.

Definition on_self (f : NeuralNetMaster elt -> NeuralNetMaster elt) : M St unit :=
  modify (fun s => (f (fst s), snd s)).
Definition on_fs (f : filesystem -> filesystem) : M St unit :=
  modify (fun s => (fst s, f (snd s))).
Definition try_fs (f : filesystem -> result filesystem) : M St unit :=
  fun s =>
    match f (snd s) with
    | Ok fs' => ((fst s, fs'), Ok tt)
    | Raise e => (s, Raise e)
    end.

(** One [self.hyper_txt.write(f"<key>{value} \n")]. *)
Definition hyper_line (self : NeuralNetMaster elt) (kf : string * hfield) : string :=
  fst kf +:+ fmt self (snd kf) +:+ " " +:+ newline.

(** The key/value text of one run: the lines in source order. *)
Definition hyper_text (self : NeuralNetMaster elt) : string :=
  foldr (fun kf acc => hyper_line self kf +:+ acc) "" hyper_fields.

Definition write_hyper_line (p : string) (kf : string * hfield) : M St unit :=
  s <- get ;; on_fs (file_write p (hyper_line (fst s) kf)).

Definition plot_model : M St unit :=
  s <- get ;;
  try_except
    (match fullfilepath (fst s) with
     | Some p => keras_plot_model (p +:+ "model.png")
     | None => keras_plot_model "model.png"
     end)
    is_ImportError
    (ret tt).

(** The folder a call resolves to, and the path of its hyperparameter
    file. *)
Definition resolve_folder (self : NeuralNetMaster elt) (fs : filesystem)
    (name : option string) : string :=
  match folder_name self, name with
  | None, None => folder_runnum fs
  | _, Some n => n
  | Some f, None => f
  end.

Definition hyper_file (self : NeuralNetMaster elt) (fname : string) : string :=
  os_path_join (currentdir self) (fname +:+ "/") +:+ "hyperparameter.txt".

(** Lines 141-176: resolve and create the folder, open the file, write the
    separator when the file was there, write the key/value lines. *)
Definition save_hyperparameters (name : option string) : M St unit :=
  s <- get ;;
  let fname := resolve_folder (fst s) (snd s) name in
  on_self (set_folder_name (Some fname)) ;;;
  let dir := os_path_join (currentdir (fst s)) fname in
  (if os_path_exists (snd s) dir then ret tt else on_fs (os_makedirs dir)) ;;;
  let full := os_path_join (currentdir (fst s)) (fname +:+ "/") in
  on_self (set_fullfilepath (Some full)) ;;;
  let txt_file_path := full +:+ "hyperparameter.txt" in
  s <- get ;;
  (if os_path_isfile (snd s) txt_file_path then
     try_fs (open_a txt_file_path) ;;;
     on_self (set_hyper_txt (Some txt_file_path)) ;;;
     on_fs (file_write txt_file_path newline) ;;;
     on_fs (file_write txt_file_path another_run)
   else
     try_fs (open_w txt_file_path) ;;;
     on_self (set_hyper_txt (Some txt_file_path))) ;;;
  for_each hyper_fields (write_hyper_line txt_file_path).

Definition save (name : option string) (model_plot : bool) : M St unit :=
  save_hyperparameters name ;;;
  (if model_plot then plot_model else ret tt) ;;;
  post_training_checklist_child ;;;
  s <- get ;;
  virtual_cvslogger_savefile (default "" (folder_name (fst s))).

End Persistence.

(** ** Arrays: arithmetic, store and numpy operations *)

(** The arithmetic of array elements. [ediv_count s n] divides a sum by the
    number of terms. *)
Class Scalar (elt : Type) := {
  esub : elt -> elt -> elt;
  ediv : elt -> elt -> elt;
  eadd : elt -> elt -> elt;
  ezero : elt;
  eone : elt;
  ediv_count : elt -> nat -> elt
}.

(** An array handed to or received from the session, by value. *)
Record value (elt : Type) := Value { vshape : list nat; vdata : list elt }.
Arguments Value {elt}.
Arguments vshape {elt}.
Arguments vdata {elt}.

(** What the framework does, for the three calls [jacobian] makes:
    [tf.gradients(output[0, j], input_tens)], [tf.stack(tf.squeeze(grads))]
    and [get_session().run(fetch, feed_dict={placeholder: value})]. *)
Class Backend (elt : Type) := {
  tf_gradients : tensor -> nat -> tensor -> result tensor;
  tf_stack_squeeze : list tensor -> result tensor;
  session_run : tensor -> tensor -> value elt -> result (value elt)
}.

(** What a call does, in order. *)
Inductive event :=
| EvArray (b : nat)
| EvInplace (b : nat)
| EvGetLayer (name : string)
| EvGradients (j : nat)
| EvStack
| EvOnes (b : nat) (shp : list nat)
| EvRun (feed_shape : list nat)
| EvSetitem (b : nat) (tail_idx : list nat)
| EvMean (b : nat)
| EvPrint.

(** The store of array buffers and the log of events. *)
Record world (elt : Type) := World { heap : list (list elt); trace : list event }.
Arguments World {elt}.
Arguments heap {elt}.
Arguments trace {elt}.

Definition product (s : list nat) : nat := foldr Nat.mul 1 s.

(** Row-major position of a multi-index. *)
Definition ravel (dims idx : list nat) : nat :=
  fold_left (fun acc di => acc * fst di + snd di) (zip dims idx) 0.

(** [np.atleast_3d]: a view of the same buffer, with the shape promoted to
    three axes. *)
Definition atleast_3d_shape (s : list nat) : list nat :=
  match s with
  | [] => [1; 1; 1]
  | [n] => [1; n; 1]
  | [m; n] => [m; n; 1]
  | _ => s
  end.

Definition np_atleast_3d (a : ndarray) : ndarray :=
  NDArray (buf a) (atleast_3d_shape (shape a)).

(** [a[:, :, :, np.newaxis]]: three slices need three axes; the new axis
    comes fourth. *)
Definition newaxis3_shape (s : list nat) : list nat :=
  take 3 s ++ 1 :: drop 3 s.

Definition getitem_newaxis3 (a : ndarray) : result ndarray :=
  if ndim a <? 3 then Raise IndexError
  else Ok (NDArray (buf a) (newaxis3_shape (shape a))).

(** Leading axes of length 1 that an assignment drops from its source. *)
Fixpoint strip_ones (n : nat) (s : list nat) : list nat :=
  match s with
  | d :: s' => if (d =? 1) && (n <? length s) then strip_ones n s' else s
  | [] => []
  end.

Definition pad_shape (n : nat) (s : list nat) : list nat :=
  replicate (n - length s) 1 ++ s.

Fixpoint compatible (s t : list nat) : bool :=
  match s, t with
  | [], [] => true
  | n :: s', m :: t' => ((n =? m) || (n =? 1)) && compatible s' t'
  | _, _ => false
  end.

Section Numpy.
Context {elt : Type} `{Scalar elt}.

Fixpoint chunks (k n : nat) (d : list elt) : list (list elt) :=
  match n with
  | 0 => []
  | S n' => take k d :: chunks k n' (drop k d)
  end.

(** Data of shape [s] repeated along the axes where [s] has 1 and [t] not. *)
Fixpoint stretch (s t : list nat) (d : list elt) : list elt :=
  match s, t with
  | n :: s', m :: t' =>
      if n =? m then concat (map (stretch s' t') (chunks (product s') n d))
      else concat (replicate m (stretch s' t' d))
  | _, _ => d
  end.

(** numpy broadcasting of data of shape [s] to the shape [t]. *)
Definition broadcast_to (s : list nat) (d : list elt) (t : list nat)
  : option (list elt) :=
  if length s <=? length t then
    let s' := pad_shape (length t) s in
    if compatible s' t then Some (stretch s' t d) else None
  else None.

Definition load (b : nat) : M (world elt) (list elt) :=
  fun w => (w, Ok (default [] (heap w !! b))).
Definition store (b : nat) (d : list elt) : M (world elt) unit :=
  modify (fun w => World (<[b := d]> (heap w)) (trace w)).
Definition alloc (d : list elt) : M (world elt) nat :=
  fun w => (World (heap w ++ [d]) (trace w), Ok (length (heap w))).
Definition log (ev : event) : M (world elt) unit :=
  modify (fun w => World (heap w) (trace w ++ [ev])).

(** [np.array(x)]: a fresh buffer holding a copy. *)
Definition np_array (x : ndarray) : M (world elt) ndarray :=
  d <- load (buf x) ;;
  b <- alloc d ;;
  log (EvArray b) ;;;
  ret (NDArray b (shape x)).

(** [a op= m]: the result is written into the buffer of [a]; the operand
    must broadcast to the shape of [a]. *)
Definition inplace (f : elt -> elt -> elt) (a : ndarray) (m : operand elt)
  : M (world elt) unit :=
  match m with
  | OpNone => raise TypeError
  | OpScalar c =>
      d <- load (buf a) ;;
      store (buf a) (map (fun v => f v c) d) ;;;
      log (EvInplace (buf a))
  | OpArray r =>
      d <- load (buf a) ;;
      dm <- load (buf r) ;;
      match broadcast_to (shape r) dm (shape a) with
      | Some db =>
          store (buf a) (zip_with f d db) ;;;
          log (EvInplace (buf a))
      | None => raise (ValueError "operands could not be broadcast together")
      end
  end.

(** [np.ones(dims, dtype=np.float32)] *)
Definition np_ones (dims : list Z) : M (world elt) ndarray :=
  if forallb (fun d => 0 <=? d)%Z dims then
    let s := map Z.to_nat dims in
    b <- alloc (replicate (product s) eone) ;;
    log (EvOnes b s) ;;;
    ret (NDArray b s)
  else raise (ValueError "negative dimensions are not allowed").

(** [a[i:i + 1]] for [i] in [range(a.shape[0])], read out for the feed. *)
Definition getitem_row (a : ndarray) (i : nat) : M (world elt) (value elt) :=
  match shape a with
  | [] => raise IndexError
  | _ :: rest =>
      d <- load (buf a) ;;
      ret (Value (1 :: rest) (take (product rest) (drop (i * product rest) d)))
  end.

(** The data of [a[:, ..., :, t1, ..., tk] = v]. With [T] the size of the
    trailing axes and [t] the row-major position of (t1, ..., tk) in them,
    the element at position [p] belongs to the target when [p mod T = t],
    and it takes the element [p / T] of the broadcast source. *)
Definition write_tail (T t : nat) (vb d : list elt) : list elt :=
  imap (fun p old => if p mod T =? t then default old (vb !! (p / T)) else old) d.

(** [write_tail] for the last [length tail_idx] axes of [a]. *)
Definition write_at (a : ndarray) (tail_idx : list nat) (vb d : list elt)
  : list elt :=
  let tdims := drop (ndim a - length tail_idx) (shape a) in
  write_tail (product tdims) (ravel tdims tail_idx) vb d.

(** [a[:, ..., :, t1, ..., tk] = v]: the leading axes are full slices, the
    last [k] axes are indexed by [tail_idx]; [v] is broadcast to the shape of
    the leading axes. *)
Definition setitem_tail (a : ndarray) (tail_idx : list nat) (v : value elt)
  : M (world elt) unit :=
  let k := ndim a - length tail_idx in
  let lead := take k (shape a) in
  let tdims := drop k (shape a) in
  if forallb (fun di => snd di <? fst di) (zip tdims tail_idx) then
    match broadcast_to (strip_ones (length lead) (vshape v)) (vdata v) lead with
    | Some vb =>
        d <- load (buf a) ;;
        store (buf a) (write_at a tail_idx vb d) ;;;
        log (EvSetitem (buf a) tail_idx)
    | None => raise (ValueError "could not broadcast input array")
    end
  else raise IndexError.

(** Arithmetic mean of one lane. *)
Definition amean (l : list elt) : elt :=
  ediv_count (fold_left eadd l ezero) (length l).

(** [np.mean(a, axis=-1)]: a new array, one mean per lane of the last axis. *)
Definition np_mean_last (a : ndarray) : M (world elt) ndarray :=
  match last (shape a) with
  | None => raise (ValueError "axis -1 is out of bounds")
  | Some n =>
      let lead := removelast (shape a) in
      d <- load (buf a) ;;
      b <- alloc (map (fun k => amean (take n (drop (k * n) d)))
                      (seq 0 (product lead))) ;;
      log (EvMean b) ;;;
      ret (NDArray b lead)
  end.

End Numpy.

(** ** [jacobian] *)

Fixpoint assoc (name : string) (l : list (string * Layer)) : option Layer :=
  match l with
  | [] => None
  | (n, v) :: l' => if String.eqb n name then Some v else assoc name l'
  end.

(** [range(self.labels_shape)] and the use of [labels_shape] as a dimension:
    both need an [int]. *)
Definition range_of (ls : option pyshape) : result (list nat) :=
  match ls with
  | Some (ShapeInt n) => Ok (seq 0 (Z.to_nat n))
  | _ => Raise TypeError
  end.

Definition dim_of (ls : option pyshape) : result Z :=
  match ls with
  | Some (ShapeInt n) => Ok n
  | _ => Raise TypeError
  end.

Definition no_data : string := "Please provide data to calculate the jacobian".
Definition shape_mismatch : string :=
  "Input data shape do not match neural network expectation".

Section Jacobian.
Context {elt : Type} `{Scalar elt} `{Backend elt}.

(** [model.get_layer(name)]; [None] has no such attribute. *)
Definition get_layer (m : option Model) (name : string) : M (world elt) Layer :=
  match m with
  | None => raise AttributeError
  | Some km =>
      log (EvGetLayer name) ;;;
      match assoc name (layers km) with
      | Some l => ret l
      | None => raise (ValueError ("No such layer: " +:+ name))
      end
  end.

Definition input_of (m : option Model) : M (world elt) (tensor * list (option nat)) :=
  l1 <- get_layer m "input" ;;
  l2 <- get_layer m "input" ;;
  ret (l_input l1, l_input_shape l2).

(** Lines 216-221: the prediction model first, the training model when that
    raises [AttributeError]. *)
Definition lookup_input (self : NeuralNetMaster elt)
  : M (world elt) (tensor * list (option nat)) :=
  try_except (input_of (keras_model_predict self)) is_AttributeError
             (input_of (keras_model self)).

(** The loop that fills [grad_list]. *)
Fixpoint build_grad_list (self : NeuralNetMaster elt) (input_tens : tensor)
    (js : list nat) : M (world elt) (list tensor) :=
  match js with
  | [] => ret []
  | j :: js' =>
      out <- get_layer (keras_model self) "output" ;;
      g <- lift (tf_gradients (l_output out) j input_tens) ;;
      log (EvGradients j) ;;;
      rest <- build_grad_list self input_tens js' ;;
      ret (g :: rest)
  end.

Definition stacked_gradients (self : NeuralNetMaster elt) (input_tens : tensor)
  : M (world elt) tensor :=
  js <- lift (range_of (labels_shape self)) ;;
  grad_list <- build_grad_list self input_tens js ;;
  final_stack <- lift (tf_stack_squeeze grad_list) ;;
  log EvStack ;;;
  ret final_stack.

(** One iteration of the loop over samples: evaluate the stacked gradient
    on sample [i] and store it at [tail_idx]. *)
Definition eval_sample (x_data jac : ndarray) (final_stack input_tens : tensor)
    (tail_idx : list nat) (i : nat) : M (world elt) unit :=
  x_in <- getitem_row x_data i ;;
  log (EvRun (vshape x_in)) ;;;
  g <- lift (session_run final_stack input_tens x_in) ;;
  setitem_tail jac tail_idx g.

(** Lines 226-237. *)
Definition jacobian_rank3 (self : NeuralNetMaster elt) (x_data : ndarray)
    (input_tens : tensor) : M (world elt) ndarray :=
  let x_data := np_atleast_3d x_data in
  final_stack <- stacked_gradients self input_tens ;;
  n <- lift (dim_of (labels_shape self)) ;;
  s1 <- lift (shape_at x_data 1) ;;
  s0 <- lift (shape_at x_data 0) ;;
  jac <- np_ones [n; Z.of_nat s1; Z.of_nat s0] ;;
  for_each (seq 0 s0)
    (fun i => eval_sample x_data jac final_stack input_tens [i] i) ;;;
  ret jac.

(** Lines 240-259. *)
Definition jacobian_rank4 (self : NeuralNetMaster elt) (x_data : ndarray)
    (input_tens : tensor) : M (world elt) ndarray :=
  let monoflag := ndim x_data <? 4 in
  x_data <- (if monoflag then lift (getitem_newaxis3 x_data) else ret x_data) ;;
  n <- lift (dim_of (labels_shape self)) ;;
  s1 <- lift (shape_at x_data 1) ;;
  s2 <- lift (shape_at x_data 2) ;;
  s3 <- lift (shape_at x_data 3) ;;
  s0 <- lift (shape_at x_data 0) ;;
  jac <- np_ones [n; Z.of_nat s1; Z.of_nat s2; Z.of_nat s3; Z.of_nat s0] ;;
  final_stack <- stacked_gradients self input_tens ;;
  for_each (seq 0 s0)
    (fun i =>
       eval_sample x_data jac final_stack input_tens
         (if monoflag then [0; i] else [i]) i) ;;;
  ret jac.

(** Lines 212-221: copy, normalise, look the input layer up. *)
Definition jacobian_prepare (self : NeuralNetMaster elt) (x : ndarray)
  : M (world elt) (ndarray * (tensor * list (option nat))) :=
  x_data <- np_array x ;;
  inplace esub x_data (input_mean self) ;;;
  inplace ediv x_data (input_std self) ;;;
  looked <- lookup_input self ;;
  ret (x_data, looked).

(** Lines 225-262: the dispatch on the declared rank. *)
Definition jacobian_dispatch (self : NeuralNetMaster elt) (x_data : ndarray)
    (input_tens : tensor) (input_shape_expectation : list (option nat))
  : M (world elt) ndarray :=
  match length input_shape_expectation with
  | 3 => jacobian_rank3 self x_data input_tens
  | 4 => jacobian_rank4 self x_data input_tens
  | _ => raise (ValueError shape_mismatch)
  end.

Definition jacobian (self : NeuralNetMaster elt) (x : option ndarray)
    (mean_output : bool) : M (world elt) ndarray :=
  match x with
  | None => raise (ValueError no_data)
  | Some x =>
      p <- jacobian_prepare self x ;;
      jac <- jacobian_dispatch self (fst p) (fst (snd p)) (snd (snd p)) ;;
      jac <- (if mean_output then np_mean_last jac else ret jac) ;;
      log EvPrint ;;;
      ret jac
  end.

End Jacobian.

(** ** The rank-to-shape mapping, as the specification words it *)



(** A validation fraction in [0, 1); an unset one counts as 0. *)
(** The largest finite double, and the values of [val_size] whose product
    with the number of rows stays in the range of finite floats. A float is
    a rational here: a product that overflows, on which [int] raises, is
    not represented, and the properties about any [val_size] whatever are
    stated within this range. *)
Definition float_max : Q := inject_Z ((2 ^ 53 - 1) * 2 ^ 971).

Definition finite_product (rows : nat) (v : option pynum) : Prop :=
  match v with
  | Some (PyFloat q) =>
      (- float_max <= inject_Z (Z.of_nat rows) * q)%Q /\
      (inject_Z (Z.of_nat rows) * q <= float_max)%Q
  | _ => True
  end.

Definition in_unit_interval (v : option pynum) : Prop :=
  match v with
  | None => True
  | Some (PyInt z) => (0 <= z < 1)%Z
  | Some (PyFloat q) => (0 <= q)%Q /\ (q < 1)%Q
  end.

(** floor(val_size * row_count), the product being the one the interpreter
    forms. *)
Definition floor_of_product (fround : Q -> Q) (rows : Z) (v : option pynum) : Z :=
  match v with
  | None => 0
  | Some (PyInt z) => rows * z
  | Some (PyFloat q) => Qfloor (fround (inject_Z rows * q)%Q)
  end.

(** ** Assertions about a computation over the array store

    [frames base w w']: the buffers below [base] are the same in [w'] as in
    [w], and no buffer disappeared. [emits P w w']: the log of [w'] is the
    log of [w] followed by events that satisfy [P]. [sound base P m Q]: run
    from any store with at least [base] buffers, [m] frames the buffers
    below [base], emits only [P] events, and a returned value satisfies
    [Q]. *)

Section Assertions.
Context {elt : Type}.

Definition frames (base : nat) (w w' : world elt) : Prop :=
  length (heap w) <= length (heap w') /\ take base (heap w') = take base (heap w).

Definition emits (P : event -> Prop) (w w' : world elt) : Prop :=
  exists evs, trace w' = trace w ++ evs /\ Forall P evs.

Definition sound (base : nat) (P : event -> Prop) {A : Type}
    (m : M (world elt) A) (Q : A -> Prop) : Prop :=
  forall w, base <= length (heap w) ->
    frames base w (fst (m w)) /\ emits P w (fst (m w)) /\
    forall a, snd (m w) = Ok a -> Q a.

(** The array the rank-4 branch evaluates: the data itself, or the data with
    a channel axis appended when it has fewer than four axes. *)
Definition rank4_data (x_data : ndarray) : result ndarray :=
  if ndim x_data <? 4 then getitem_newaxis3 x_data else Ok x_data.

(** The index the rank-4 branch writes sample [i] at. *)
Definition rank4_index (x_data : ndarray) (i : nat) : list nat :=
  if ndim x_data <? 4 then [0; i] else [i].

(** The result of the rank-3 branch: owned by the call, of shape
    (labels_shape, x_data.shape[1], x_data.shape[0]) for the input promoted
    to three axes. *)
Definition rank3_result (self : NeuralNetMaster elt) (x_data jac : ndarray) : Prop :=
  exists n s0 s1,
    labels_shape self = Some (ShapeInt n) /\ (0 <= n)%Z /\
    shape (np_atleast_3d x_data) !! 0 = Some s0 /\
    shape (np_atleast_3d x_data) !! 1 = Some s1 /\
    shape jac = [Z.to_nat n; s1; s0].

Definition rank4_result (self : NeuralNetMaster elt) (x_data jac : ndarray) : Prop :=
  exists n x' s0 s1 s2 s3,
    labels_shape self = Some (ShapeInt n) /\ (0 <= n)%Z /\
    rank4_data x_data = Ok x' /\
    shape x' !! 0 = Some s0 /\ shape x' !! 1 = Some s1 /\
    shape x' !! 2 = Some s2 /\ shape x' !! 3 = Some s3 /\
    shape jac = [Z.to_nat n; s1; s2; s3; s0].

(** [stable m]: [m] leaves the store of buffers as it is. *)
Definition stable {A : Type} (m : M (world elt) A) : Prop :=
  forall w, heap (fst (m w)) = heap w.

(** [triple Pre m Post]: from a store satisfying [Pre], a value returned by
    [m] and the store reached satisfy [Post]. *)
Definition triple {A : Type} (Pre : list (list elt) -> Prop)
    (m : M (world elt) A) (Post : A -> list (list elt) -> Prop) : Prop :=
  forall w, Pre (heap w) ->
    forall a, snd (m w) = Ok a -> Post a (heap (fst (m w))).

(** The buffer of [a] is in the store and as long as the shape of [a]
    asks. *)
Definition full_buffer (a : ndarray) (h : list (list elt)) : Prop :=
  exists d, h !! buf a = Some d /\ length d = product (shape a).

(** The element of [a] at a multi-index. *)
Definition read (w : world elt) (a : ndarray) (idx : list nat) : option elt :=
  match heap w !! buf a with
  | Some d => d !! ravel (shape a) idx
  | None => None
  end.

(** A multi-index within a shape. *)
Definition valid_index (dims idx : list nat) : Prop := Forall2 lt idx dims.

End Assertions.

(** ** Reading the model the way [jacobian] does *)

(** The input tensor and declared input shape that lines 216-221 find: the
    prediction model when there is one, the training model otherwise. *)
Definition input_layer_of (m : Model) : option (tensor * list (option nat)) :=
  match assoc "input" (layers m) with
  | Some l => Some (l_input l, l_input_shape l)
  | None => None
  end.

Definition declared_input {elt} (self : NeuralNetMaster elt)
  : option (tensor * list (option nat)) :=
  match keras_model_predict self with
  | Some km => input_layer_of km
  | None =>
      match keras_model self with
      | Some km => input_layer_of km
      | None => None
      end
  end.

(** The rank the model declares for its input. *)
Definition declared_rank {elt} (self : NeuralNetMaster elt) : option nat :=
  match declared_input self with
  | Some p => Some (length (snd p))
  | None => None
  end.

(** Events other than a graph evaluation or a write into the result. *)
Definition benign (ev : event) : Prop :=
  match ev with
  | EvRun _ | EvSetitem _ _ => False
  | _ => True
  end.

(** Events of lines 212-221: the copy, the normalisation, the lookup. *)
Definition prepare_event (ev : event) : Prop :=
  match ev with
  | EvArray _ | EvInplace _ | EvGetLayer _ => True
  | _ => False
  end.

(** ** The shapes [jacobian] works at, from the shape of the data *)

(** The shape the rank-4 branch evaluates the data at: three axes get a
    channel axis, fewer cannot be indexed, four or more stay. *)
Definition rank4_shape (s : list nat) : option (list nat) :=
  if length s <? 4 then
    if length s <? 3 then None else Some (newaxis3_shape s)
  else Some s.

(** The shape of the array lines 225-262 allocate, from the declared rank,
    the number of output units and the shape of the data. *)
Definition jacobian_shape (rank L : nat) (xs : list nat) : option (list nat) :=
  match rank with
  | 3 =>
      match atleast_3d_shape xs with
      | s0 :: s1 :: _ => Some [L; s1; s0]
      | _ => None
      end
  | 4 =>
      match rank4_shape xs with
      | Some (s0 :: s1 :: s2 :: s3 :: _) => Some [L; s1; s2; s3; s0]
      | _ => None
      end
  | _ => None
  end.

(** The shape of one fed sample. *)
Definition feed_shape (rank : nat) (xs : list nat) : option (list nat) :=
  match rank with
  | 3 => Some (1 :: tail (atleast_3d_shape xs))
  | 4 => (fun s => 1 :: tail s) <$> rank4_shape xs
  | _ => None
  end.

(** The trailing index sample [i] is written at. *)
Definition write_index (rank : nat) (xs : list nat) (i : nat) : list nat :=
  match rank with
  | 4 => if length xs <? 4 then [0; i] else [i]
  | _ => [i]
  end.

(** What [jacobian] returns for the data [x]: an array whose shape is
    [jacobian_shape], less the sample axis when the mean was asked for. *)
Definition jacobian_result {elt} (self : NeuralNetMaster elt) (x : ndarray)
    (mean_output : bool) (J : ndarray) : Prop :=
  exists n r js,
    labels_shape self = Some (ShapeInt n) /\ (0 <= n)%Z /\
    declared_rank self = Some r /\
    jacobian_shape r (Z.to_nat n) (shape x) = Some js /\
    shape J = if mean_output then removelast js else js.

(** ** A concrete instance: rational arithmetic and a linear network

    Used to run the definitions on explicit inputs. *)

#[export] Instance Q_scalar : Scalar Q := {|
  esub a b := Qred (a - b);
  ediv a b := Qred (a / b);
  eadd a b := Qred (a + b);
  ezero := 0%Q;
  eone := 1%Q;
  ediv_count s n := Qred (s / inject_Z (Z.of_nat n))
|}.

(** [tf.squeeze] drops every axis of length 1. *)
Definition squeeze (s : list nat) : list nat :=
  List.filter (fun d => negb (d =? 1)) s.

(** A network with [units] outputs, linear in an input of shape
    [sample_shape]: the gradient of each output is a constant, the session
    accepts one sample of that shape at a time, and the stacked gradients
    come back squeezed. *)
Definition linear_backend (units : nat) (sample_shape : list nat) : Backend Q := {|
  tf_gradients _ j _ := if j <? units then Ok j else Raise BackendError;
  tf_stack_squeeze gs := Ok (length gs);
  session_run _ _ feed :=
    if decide (vshape feed = 1 :: sample_shape) then
      Ok (Value (squeeze (units :: 1 :: 1 :: sample_shape))
                (map (fun k => inject_Z (Z.of_nat k))
                     (seq 1 (units * product sample_shape))))
    else Raise BackendError
|}.

(** A Keras model whose input layer declares [(None,) + sample_shape]. *)
Definition linear_model (sample_shape : list nat) : Model :=
  MkModel [ ("input", MkLayer 0 (None :: map Some sample_shape) 0);
            ("output", MkLayer 1 (None :: map Some sample_shape) 1) ].

(** A trained instance: two output units, inputs normalised with mean 0 and
    standard deviation 1. *)
Definition linear_net (sample_shape : list nat) : NeuralNetMaster Q :=
  MkNN "/work" None None None None None (Some (linear_model sample_shape)) None
       (OpScalar 0%Q) (OpScalar 1%Q) None (Some (ShapeInt 2)) None.

(** A store holding one flat buffer of the integers 1..n, and no log. *)
Definition store_of (n : nat) : world Q :=
  World [map (fun k => inject_Z (Z.of_nat k)) (seq 1 n)] [].

(** The same instance with a prediction model that has no layers. *)
Definition headless_net (sample_shape : list nat) : NeuralNetMaster Q :=
  MkNN "/work" None None None None None (Some (linear_model sample_shape))
       (Some (MkModel [])) (OpScalar 0%Q) (OpScalar 1%Q) None (Some (ShapeInt 2)) None.

(** The events allowed to a call on data of shape (rows, d1, d2) against a
    model that declares rank 4: every evaluation is fed one sample with a
    channel axis of length 1 appended, and every write into the result is at
    channel 0 of some sample. *)
Definition mono_event (d1 d2 : nat) (ev : event) : Prop :=
  match ev with
  | EvRun s => s = [1; d1; d2; 1]
  | EvSetitem _ tl => exists i, tl = [0; i]
  | _ => True
  end.

(** The runs used as explicit inputs: the linear network on a sequence
    model with three features, and on an image model of 2 x 2 pixels and one
    channel. *)
Abbreviation run_sequence xs mean_output :=
  (jacobian (H := Q_scalar) (H0 := linear_backend 2 [3; 1]) (linear_net [3; 1])
            (Some (NDArray 0 xs)) mean_output (store_of (product xs))).

Abbreviation run_image xs mean_output :=
  (jacobian (H := Q_scalar) (H0 := linear_backend 2 [2; 2; 1]) (linear_net [2; 2; 1])
            (Some (NDArray 0 xs)) mean_output (store_of (product xs))).

(** ** Lines of a text file, and an explicit pair of saves *)

(** The lines of a text, as [str.splitlines] gives them for line feeds. *)
Fixpoint lines (s : string) : list string :=
  match s with
  | EmptyString => []
  | String c r =>
      if Ascii.eqb c (Ascii.ascii_of_nat 10) then "" :: lines r
      else match lines r with
           | [] => [String c ""]
           | l :: ls => String c l :: ls
           end
  end.

(** A model named "net" whose other hyperparameters are unset; the hooks do
    nothing. *)
Definition plain_fmt (self : NeuralNetMaster Q) (f : hfield) : string :=
  match f with
  | HName => "net"
  | HFolderName => default "None" (folder_name self)
  | _ => "None"
  end.

Definition no_hook : M (NeuralNetMaster Q * filesystem) unit := ret tt.

Definition save_plain (name : option string) (model_plot : bool)
  : M (NeuralNetMaster Q * filesystem) unit :=
  save plain_fmt (fun _ => "astroNN_run001") (fun _ => no_hook) no_hook
       (fun _ => no_hook) name model_plot.

(** [save(name="run")] on a fresh instance in an empty directory tree, and
    [save()] after it. *)
Definition after_first_save : (NeuralNetMaster Q * filesystem) * result unit :=
  save_plain (Some "run") false (init "/work", ∅).

Definition after_second_save : (NeuralNetMaster Q * filesystem) * result unit :=
  save_plain None false (fst after_first_save).

Definition hyper_path : string := "/work/run/hyperparameter.txt".

(** [l] is one of the lines of [s]. *)
Definition is_line (l s : string) : bool := existsb (String.eqb l) (lines s).

(** Lines 141-176 and the whole of [save] for that model, with a fixed name
    for the run folder and hooks that do nothing. *)
Abbreviation write_plain :=
  (save_hyperparameters plain_fmt (fun _ : filesystem => "astroNN_run001")).

Abbreviation save_with child :=
  (save plain_fmt (fun _ : filesystem => "astroNN_run001") (fun _ : string => no_hook)
        child (fun _ : string => no_hook)).

(** The working directory, empty, and the same holding one file that is
    not of the run. *)
Definition work_only : filesystem := {[ "/work" := Dir ]}.

Definition notes_only : filesystem :=
  {[ "/work" := Dir; "/work/notes.txt" := File "keep" ]}.

(** A directory tree where a directory is in the place of the
    hyperparameter file of the folder "run". *)
Definition blocked : filesystem :=
  {[ "/work/run" := Dir; "/work/run/hyperparameter.txt" := Dir ]}.

(** ** Assertions about [save] *)

Section PersistenceAssertions.
Context {elt : Type}.

(** The file system after lines 148-149: the folder is created when nothing
    is at its path. *)
Definition folder_step (fs : filesystem) (dir : string) : filesystem :=
  if os_path_exists fs dir then fs else os_makedirs dir fs.

(** The setting in which the file system is exact for a call that resolves
    to the folder [fname]: the working directory of the instance is a
    directory of the tree, given in normal form as [os.getcwd] gives it, and
    the folder name is one entry name. The folder is then a child of the
    working directory: [os.makedirs] has no intermediate directory to
    create and no regular file in its way. *)
Definition plain_setting (self : NeuralNetMaster elt) (fs : filesystem)
    (fname : string) : Prop :=
  normal_path (currentdir self) = true /\
  fs !! currentdir self = Some Dir /\
  simple_name fname = true.

(** The instance as lines 141-160 leave it for the folder [fname]: the
    folder name, the path of the folder and the handle are set. It is the
    instance whose attributes the key/value lines are written from. *)
Definition run_instance (self : NeuralNetMaster elt) (fname : string)
  : NeuralNetMaster elt :=
  set_hyper_txt (Some (hyper_file self fname))
    (set_fullfilepath (Some (os_path_join (currentdir self) (fname +:+ "/")))
       (set_folder_name (Some fname) self)).

(** [fs_keeps q m]: whatever [m] does, the node at path [q] is as before. *)
Definition fs_keeps {A : Type} (q : string)
    (m : M (NeuralNetMaster elt * filesystem) A) : Prop :=
  forall s, snd (fst (m s)) !! q = snd s !! q.

(** [cwd_kept m]: whatever [m] does, the working directory recorded in the
    instance is as before. *)
Definition cwd_kept {A : Type} (m : M (NeuralNetMaster elt * filesystem) A) : Prop :=
  forall s, currentdir (fst (fst (m s))) = currentdir (fst s).

(** A hook that leaves alone what decides where [save] writes (the working
    directory and the folder name of the instance) and the text of every
    file that is there. *)
Definition quiet (h : M (NeuralNetMaster elt * filesystem) unit) : Prop :=
  forall s,
    currentdir (fst (fst (h s))) = currentdir (fst s) /\
    folder_name (fst (fst (h s))) = folder_name (fst s) /\
    forall p c, read_file (snd s) p = Some c ->
                read_file (snd (fst (h s))) p = Some c.

End PersistenceAssertions.

(** ** The evaluation loop of [jacobian], as a specification of its result *)

Section Samples.
Context {elt : Type} `{Backend elt}.

(** Sample [i] of data [dx] whose samples have shape [rest], as it is fed:
    a batch of one. *)
Definition sample_feed (rest : list nat) (dx : list elt) (i : nat) : value elt :=
  Value (1 :: rest) (take (product rest) (drop (i * product rest) dx)).

(** What the session gives for sample [i], broadcast to the leading axes
    [lead] of the result. *)
Definition sample_gradient (fs t : tensor) (rest lead : list nat) (dx : list elt)
    (i : nat) : option (list elt) :=
  match session_run fs t (sample_feed rest dx i) with
  | Ok g => broadcast_to (strip_ones (length lead) (vshape g)) (vdata g) lead
  | Raise _ => None
  end.

(** [g] is the symbolic gradient of output unit [j] of the training model
    with respect to [t]. *)
Definition unit_gradient (self : NeuralNetMaster elt) (t : tensor) (j : nat)
    (g : tensor) : Prop :=
  exists km out,
    keras_model self = Some km /\ assoc "output" (layers km) = Some out /\
    tf_gradients (l_output out) j t = Ok g.

(** [fs] is the stack of the gradients of all [units] output units. *)
Definition stacked_of (self : NeuralNetMaster elt) (t : tensor) (units : nat)
    (fs : tensor) : Prop :=
  exists grads,
    Forall2 (unit_gradient self t) (seq 0 units) grads /\
    tf_stack_squeeze grads = Ok fs.

End Samples.

(** The events of building the graph for [units] output units, and of the
    loop over [n] samples writing into buffer [b]. *)
Definition graph_events (units : nat) : list event :=
  flat_map (fun j => [EvGetLayer "output"; EvGradients j]) (seq 0 units) ++ [EvStack].

Definition loop_events (rest : list nat) (b : nat) (idx : nat -> list nat)
    (first n : nat) : list event :=
  flat_map (fun i => [EvRun (1 :: rest); EvSetitem b (idx i)]) (seq first n).

Definition prepare_events (b : nat) : list event :=
  [EvArray b; EvInplace b; EvInplace b; EvGetLayer "input"; EvGetLayer "input"].

(** The leading axes of the result, those a write of one sample spans in
    full: all axes but the ones [write_index] fixes. *)
Definition lead_axes (rank : nat) (xs js : list nat) : list nat :=
  take (length js - length (write_index rank xs 0)) js.

(** What lines 225-262 leave when they return, run from the store [h] and
    the log [tr] on data whose buffer holds [dx]: the result is a new buffer
    after [h]; the log grew by the graph construction, the allocation and
    one evaluation and one write per sample, in order; and the slice of
    sample [i] holds what the session gave for sample [i]. *)
Definition filled {elt} `{Scalar elt} `{Backend elt} (self : NeuralNetMaster elt)
    (t : tensor) (rank : nat) (xs : list nat) (dx : list elt)
    (h : list (list elt)) (tr : list event) (w' : world elt) (jac : ndarray) : Prop :=
  exists n fs js fshape samples d,
    let L := Z.to_nat n in
    let lead := lead_axes rank xs js in
    let b := length h in
    labels_shape self = Some (ShapeInt n) /\ (0 <= n)%Z /\
    stacked_of self t L fs /\
    jacobian_shape rank L xs = Some js /\
    feed_shape rank xs = Some fshape /\
    last js = Some samples /\
    jac = NDArray b js /\
    w' = World (h ++ [d])
               (tr ++ (if rank =? 3 then graph_events L ++ [EvOnes b js]
                       else EvOnes b js :: graph_events L)
                   ++ loop_events (tail fshape) b (write_index rank xs) 0 samples) /\
    length d = product js /\
    product js = product lead * samples /\
    forall k i, k < product lead -> i < samples ->
      exists vb,
        sample_gradient fs t (tail fshape) lead dx i = Some vb /\
        d !! (k * samples + i) = Some (default eone (vb !! k)).

(* ===================================================================== *)
(** * Part II. Properties                                                *)
(* ===================================================================== *)

(** ** The pre-training checklist *)

Section ChecklistFacts.
Context {elt : Type}.
Variable fround : Q -> Q.







Hypothesis fround_nonneg : forall q : Q, (0 <= q)%Q -> (0 <= fround q)%Q.

Lemma int_of_float_floor (q : Q) : (0 <= q)%Q -> int_of_float q = Qfloor q.
Proof.
  destruct q as [n d]. unfold Qle, int_of_float, Qfloor. simpl. intros Hn.
  apply Z.quot_div_nonneg; lia.
Qed.

(** C8. With [val_size] in [0, 1) (unset counting as 0) and an input that has
    rows, the call leaves [val_num] = floor(val_size * row_count) and
    [num_train] + [val_num] = the row count. *)
Theorem checklist_split_counts (self : NeuralNetMaster elt) (input_data labels : ndarray)
    (rows : nat) (rest : list nat) :
  shape input_data = rows :: rest ->
  in_unit_interval (val_size self) ->
  exists self' vn nt,
    pre_training_checklist_master fround self input_data labels = (self', Ok tt) /\
    val_num self' = Some vn /\ num_train self' = Some nt /\
    vn = floor_of_product fround (Z.of_nat rows) (val_size self) /\
    (nt + vn = Z.of_nat rows)%Z.
Proof.
  intros Hs Hv. unfold pre_training_checklist_master, shape_at. rewrite Hs. simpl.
  assert (Hvn : py_int (int_times fround (Z.of_nat rows)
                 match val_size self with None => PyInt 0 | Some v => v end)
               = floor_of_product fround (Z.of_nat rows) (val_size self)).
  { destruct (val_size self) as [[z|q]|]; simpl in *.
    - reflexivity.
    - apply int_of_float_floor, fround_nonneg.
      destruct Hv as [Hq _]. apply Qmult_le_0_compat; [|exact Hq].
      unfold Qle. simpl. lia.
    - lia. }
  destruct (input_shape self); eexists _, _, _;
    (split; [reflexivity|]); simpl; repeat split; try exact Hvn; lia.
Qed.

End ChecklistFacts.




Lemma checklist_split_counts_witness :
  shape (NDArray 0 [10; 7]) = [10; 7] /\
  in_unit_interval (Some (PyFloat (3 # 10))) /\
  exists self' vn nt,
    pre_training_checklist_master (fun q => q)
      (set_val_size (Some (PyFloat (3 # 10))) (init (elt:=Q) "/work"))
      (NDArray 0 [10; 7]) (NDArray 1 [10; 3]) = (self', Ok tt) /\
    val_num self' = Some vn /\ num_train self' = Some nt /\
    vn = floor_of_product (fun q => q) 10 (Some (PyFloat (3 # 10))) /\
    (nt + vn = 10)%Z.
Proof.
  split; [reflexivity|]. split; [split; [discriminate | reflexivity]|].
  apply (checklist_split_counts (fun q => q) (fun q Hq => Hq)
           (set_val_size (Some (PyFloat (3 # 10))) (init (elt:=Q) "/work"))
           (NDArray 0 [10; 7]) (NDArray 1 [10; 3]) 10 [7]);
    [reflexivity | split; [discriminate | reflexivity]].
Defined.

(** ** Rules for [sound] *)

Section Sound.
Context {elt : Type} `{Scalar elt} `{Backend elt}.

Variable base : nat.
Variable P : event -> Prop.

Lemma frames_refl (w : world elt) : frames base w w.
Proof. split; auto. Qed.

Lemma frames_trans (w1 w2 w3 : world elt) : frames base w1 w2 -> frames base w2 w3 -> frames base w1 w3.
Proof. intros [L1 T1] [L2 T2]. split; [lia | congruence]. Qed.

Lemma emits_refl (w : world elt) : emits P w w.
Proof. exists []. split; [by rewrite app_nil_r | constructor]. Qed.

Lemma emits_trans (w1 w2 w3 : world elt) : emits P w1 w2 -> emits P w2 w3 -> emits P w1 w3.
Proof.
  intros (e1 & T1 & F1) (e2 & T2 & F2). exists (e1 ++ e2). split.
  - rewrite T2, T1. by rewrite app_assoc.
  - by apply Forall_app.
Qed.

Lemma emits_same_trace (w w' : world elt) : trace w' = trace w -> emits P w w'.
Proof. intros E. exists []. split; [by rewrite app_nil_r | constructor]. Qed.

Lemma sound_ret {A} (a : A) (Q : A -> Prop) : Q a -> sound (elt:=elt) base P (ret a) Q.
Proof.
  intros HQ w _. simpl. split; [apply frames_refl|]. split; [apply emits_refl|].
  intros a' [= <-]. exact HQ.
Qed.

Lemma sound_raise {A} e (Q : A -> Prop) : sound (elt:=elt) base P (raise e) Q.
Proof.
  intros w _. simpl. split; [apply frames_refl|]. split; [apply emits_refl|].
  intros a' [=].
Qed.

Lemma sound_lift {A} (r : result A) (Q : A -> Prop) :
  (forall a, r = Ok a -> Q a) -> sound (elt:=elt) base P (lift r) Q.
Proof.
  intros HQ w _. simpl. split; [apply frames_refl|]. split; [apply emits_refl|].
  exact HQ.
Qed.

Lemma sound_lift_any {A} (r : result A) : sound (elt:=elt) base P (lift r) (fun _ => True).
Proof. by apply sound_lift. Qed.

Lemma sound_bind {A B} (m : M (world elt) A) (f : A -> M (world elt) B)
    (Q1 : A -> Prop) (Q2 : B -> Prop) :
  sound (elt:=elt) base P m Q1 ->
  (forall a, Q1 a -> sound (elt:=elt) base P (f a) Q2) ->
  sound (elt:=elt) base P (bind m f) Q2.
Proof.
  intros Hm Hf w Hb. unfold bind.
  destruct (Hm w Hb) as (Fm & Em & Qm).
  destruct (m w) as [w1 [a|e]]; simpl in *.
  - assert (Hb1 : base <= length (heap w1)) by (destruct Fm; lia).
    destruct (Hf a (Qm a eq_refl) w1 Hb1) as (Ff & Ef & Qf).
    split; [eapply frames_trans; eauto|]. split; [eapply emits_trans; eauto|].
    exact Qf.
  - split; [exact Fm|]. split; [exact Em|]. intros b [=].
Qed.

Lemma sound_weaken {A} (m : M (world elt) A) (Q Q' : A -> Prop) :
  sound (elt:=elt) base P m Q -> (forall a, Q a -> Q' a) -> sound (elt:=elt) base P m Q'.
Proof.
  intros Hm HQ w Hb. destruct (Hm w Hb) as (F & E & Qm).
  split; [exact F|]. split; [exact E|]. intros a Ha. apply HQ, Qm, Ha.
Qed.

Lemma sound_try_except {A} (m h : M (world elt) A) caught (Q : A -> Prop) :
  sound (elt:=elt) base P m Q -> sound (elt:=elt) base P h Q -> sound (elt:=elt) base P (try_except m caught h) Q.
Proof.
  intros Hm Hh w Hb. unfold try_except.
  destruct (Hm w Hb) as (Fm & Em & Qm).
  destruct (m w) as [w1 [a|e]]; simpl in *.
  - split; [exact Fm|]. split; [exact Em|]. exact Qm.
  - destruct (caught e); simpl.
    + assert (Hb1 : base <= length (heap w1)) by (destruct Fm; lia).
      destruct (Hh w1 Hb1) as (Fh & Eh & Qh).
      split; [eapply frames_trans; eauto|]. split; [eapply emits_trans; eauto|].
      exact Qh.
    + split; [exact Fm|]. split; [exact Em|]. intros b [=].
Qed.

Lemma sound_for_each {A} (l : list A) (body : A -> M (world elt) unit) :
  (forall a, a ∈ l -> sound (elt:=elt) base P (body a) (fun _ => True)) ->
  sound (elt:=elt) base P (for_each l body) (fun _ => True).
Proof.
  induction l as [|a l IH]; intros Hbody; simpl.
  - by apply sound_ret.
  - eapply sound_bind.
    + apply Hbody. by left.
    + intros _ _. apply IH. intros a' Ha'. apply Hbody. by right.
Qed.

Lemma sound_load b : sound (elt:=elt) base P (load b) (fun _ => True).
Proof.
  intros w _. simpl. split; [apply frames_refl|]. split; [apply emits_refl|]. done.
Qed.

Lemma sound_store b d : base <= b -> sound (elt:=elt) base P (store b d) (fun _ => True).
Proof.
  intros Hb w _. simpl. split; [|split; [by apply emits_same_trace | done]].
  split; simpl; [by rewrite length_insert | by apply take_insert_ge].
Qed.

Lemma sound_alloc d : sound (elt:=elt) base P (alloc d) (fun b => base <= b).
Proof.
  intros w Hb. simpl. split; [|split; [by apply emits_same_trace|]].
  - split; simpl; [rewrite length_app; lia | by apply take_app_le].
  - intros a [= <-]. exact Hb.
Qed.

Lemma sound_log ev : P ev -> sound (elt:=elt) base P (log ev) (fun _ => True).
Proof.
  intros HP w _. simpl. split; [by split|]. split; [|done].
  exists [ev]. split; [done | by constructor].
Qed.

End Sound.

(** ** The numpy operations and the phases of [jacobian] *)

Section SoundJacobian.
Context {elt : Type} `{Scalar elt} `{Backend elt}.
Variable base : nat.
Variable P : event -> Prop.

Lemma sound_np_array (x : ndarray) :
  (forall b, P (EvArray b)) ->
  sound (elt:=elt) base P (np_array x) (fun a => base <= buf a /\ shape a = shape x).
Proof.
  intros HP. unfold np_array.
  eapply sound_bind; [apply sound_load|]. intros d _.
  eapply sound_bind; [apply sound_alloc|]. intros b Hb.
  eapply sound_bind; [apply sound_log, HP|]. intros _ _.
  by apply sound_ret.
Qed.

Lemma sound_inplace f (a : ndarray) (m : operand elt) :
  base <= buf a -> P (EvInplace (buf a)) ->
  sound (elt:=elt) base P (inplace f a m) (fun _ => True).
Proof.
  intros Hb HP. unfold inplace. destruct m as [|c|r].
  - apply sound_raise.
  - eapply sound_bind; [apply sound_load|]. intros d _.
    eapply sound_bind; [by apply sound_store|]. intros _ _.
    by apply sound_log.
  - eapply sound_bind; [apply sound_load|]. intros d _.
    eapply sound_bind; [apply sound_load|]. intros dm _.
    destruct (broadcast_to _ _ _); [|apply sound_raise].
    eapply sound_bind; [by apply sound_store|]. intros _ _.
    by apply sound_log.
Qed.

Lemma sound_np_ones (dims : list Z) :
  (forall b, P (EvOnes b (map Z.to_nat dims))) ->
  sound (elt:=elt) base P (np_ones dims)
    (fun a => base <= buf a /\ shape a = map Z.to_nat dims /\
              forallb (fun d => 0 <=? d)%Z dims = true).
Proof.
  intros HP. unfold np_ones.
  destruct (forallb _ dims) eqn:Hd; [|apply sound_raise].
  eapply sound_bind; [apply sound_alloc|]. intros b Hb.
  eapply sound_bind; [apply sound_log, HP|]. intros _ _.
  by apply sound_ret.
Qed.

Lemma sound_getitem_row (a : ndarray) (i : nat) :
  sound (elt:=elt) base P (getitem_row a i) (fun v => vshape v = 1 :: tail (shape a)).
Proof.
  unfold getitem_row. destruct (shape a) as [|r rest]; [apply sound_raise|].
  eapply sound_bind; [apply sound_load|]. intros d _.
  by apply sound_ret.
Qed.

Lemma sound_setitem_tail (a : ndarray) (tl : list nat) (v : value elt) :
  base <= buf a -> P (EvSetitem (buf a) tl) ->
  sound (elt:=elt) base P (setitem_tail a tl v) (fun _ => True).
Proof.
  intros Hb HP. unfold setitem_tail.
  destruct (forallb _ _); [|apply sound_raise].
  destruct (broadcast_to _ _ _); [|apply sound_raise].
  eapply sound_bind; [apply sound_load|]. intros d _.
  eapply sound_bind; [by apply sound_store|]. intros _ _.
  by apply sound_log.
Qed.

Lemma sound_np_mean_last (a : ndarray) :
  (forall b, P (EvMean b)) ->
  sound (elt:=elt) base P (np_mean_last a)
    (fun a' => base <= buf a' /\ shape a' = removelast (shape a)).
Proof.
  intros HP. unfold np_mean_last. destruct (last (shape a)); [|apply sound_raise].
  eapply sound_bind; [apply sound_load|]. intros d _.
  eapply sound_bind; [apply sound_alloc|]. intros b Hb.
  eapply sound_bind; [apply sound_log, HP|]. intros _ _.
  by apply sound_ret.
Qed.

Lemma sound_get_layer (m : option Model) (name : string) :
  P (EvGetLayer name) ->
  sound (elt:=elt) base P (get_layer m name)
    (fun l => exists km, m = Some km /\ assoc name (layers km) = Some l).
Proof.
  intros HP. unfold get_layer. destruct m as [km|]; [|apply sound_raise].
  eapply sound_bind; [by apply sound_log|]. intros _ _.
  destruct (assoc name (layers km)) as [l|] eqn:Hl; [|apply sound_raise].
  apply sound_ret. eauto.
Qed.

Lemma sound_input_of (m : option Model) :
  P (EvGetLayer "input") ->
  sound (elt:=elt) base P (input_of m)
    (fun p => exists km, m = Some km /\ input_layer_of km = Some p).
Proof.
  intros HP. unfold input_of.
  eapply sound_bind; [by apply sound_get_layer|]. intros l1 (km & -> & Hl1).
  eapply sound_bind; [by apply sound_get_layer|]. intros l2 (km' & [= <-] & Hl2).
  apply sound_ret. exists km. split; [done|].
  unfold input_layer_of. rewrite Hl1. congruence.
Qed.

(** The handler of lines 219-221 runs exactly when there is no prediction
    model: a model that is there raises no [AttributeError]. *)
Lemma lookup_input_eq (self : NeuralNetMaster elt) (w : world elt) :
  lookup_input self w =
  match keras_model_predict self with
  | Some kp => input_of (Some kp) w
  | None => input_of (keras_model self) w
  end.
Proof.
  unfold lookup_input, try_except. destruct (keras_model_predict self) as [kp|].
  - unfold input_of, get_layer, bind, log, modify, ret, raise.
    destruct (assoc "input" (layers kp)); reflexivity.
  - reflexivity.
Qed.

Lemma sound_lookup_input (self : NeuralNetMaster elt) :
  P (EvGetLayer "input") ->
  sound (elt:=elt) base P (lookup_input self) (fun p => declared_input self = Some p).
Proof.
  intros HP w Hb. rewrite lookup_input_eq. unfold declared_input.
  destruct (keras_model_predict self) as [kp|].
  - destruct (sound_input_of (Some kp) HP w Hb) as (F & E & Q).
    split; [exact F|]. split; [exact E|].
    intros p Hp. destruct (Q p Hp) as (km & [= <-] & Hin). exact Hin.
  - destruct (sound_input_of (keras_model self) HP w Hb) as (F & E & Q).
    split; [exact F|]. split; [exact E|].
    intros p Hp. destruct (Q p Hp) as (km & -> & Hin). exact Hin.
Qed.

Lemma sound_jacobian_prepare (self : NeuralNetMaster elt) (x : ndarray) :
  (forall ev, prepare_event ev -> P ev) ->
  sound (elt:=elt) base P (jacobian_prepare self x)
    (fun p => base <= buf (fst p) /\ shape (fst p) = shape x /\
              declared_input self = Some (snd p)).
Proof.
  intros HP. unfold jacobian_prepare.
  eapply sound_bind; [apply sound_np_array; intros; by apply HP|].
  intros x_data [Hb Hs].
  eapply sound_bind; [apply sound_inplace; [done | by apply HP]|]. intros _ _.
  eapply sound_bind; [apply sound_inplace; [done | by apply HP]|]. intros _ _.
  eapply sound_bind; [apply sound_lookup_input; by apply HP|]. intros looked Hl.
  by apply sound_ret.
Qed.

Lemma sound_build_grad_list (self : NeuralNetMaster elt) (t : tensor) (js : list nat) :
  (forall ev, benign ev -> P ev) ->
  sound (elt:=elt) base P (build_grad_list self t js) (fun _ => True).
Proof.
  intros HP. induction js as [|j js IH]; simpl.
  - by apply sound_ret.
  - eapply sound_bind; [apply sound_get_layer; by apply HP|]. intros out _.
    eapply sound_bind; [apply sound_lift_any|]. intros g _.
    eapply sound_bind; [apply sound_log; by apply HP|]. intros _ _.
    eapply sound_bind; [apply IH|]. intros rest _.
    by apply sound_ret.
Qed.

Lemma sound_stacked_gradients (self : NeuralNetMaster elt) (t : tensor) :
  (forall ev, benign ev -> P ev) ->
  sound (elt:=elt) base P (stacked_gradients self t) (fun _ => True).
Proof.
  intros HP. unfold stacked_gradients.
  eapply sound_bind; [apply sound_lift_any|]. intros js _.
  eapply sound_bind; [by apply sound_build_grad_list|]. intros gl _.
  eapply sound_bind; [apply sound_lift_any|]. intros fs _.
  eapply sound_bind; [apply sound_log; by apply HP|]. intros _ _.
  by apply sound_ret.
Qed.

Lemma sound_eval_sample (x_data jac : ndarray) (fs t : tensor) (tl : list nat) (i : nat) :
  base <= buf jac ->
  P (EvRun (1 :: tail (shape x_data))) ->
  P (EvSetitem (buf jac) tl) ->
  sound (elt:=elt) base P (eval_sample x_data jac fs t tl i) (fun _ => True).
Proof.
  intros Hb HPr HPs. unfold eval_sample.
  eapply sound_bind; [apply sound_getitem_row|]. intros x_in Hx.
  eapply sound_bind; [apply sound_log; by rewrite Hx|]. intros _ _.
  eapply sound_bind; [apply sound_lift_any|]. intros g _.
  by apply sound_setitem_tail.
Qed.

Lemma dim_of_Ok (ls : option pyshape) (n : Z) :
  dim_of ls = Ok n -> ls = Some (ShapeInt n).
Proof. destruct ls as [[m|t]|]; simpl; congruence. Qed.

Lemma shape_at_Ok (a : ndarray) (k d : nat) : shape_at a k = Ok d -> shape a !! k = Some d.
Proof. unfold shape_at. destruct (shape a !! k); congruence. Qed.

Lemma sound_jacobian_rank3 (self : NeuralNetMaster elt) (x_data : ndarray) (t : tensor) :
  (forall ev, benign ev -> P ev) ->
  P (EvRun (1 :: tail (shape (np_atleast_3d x_data)))) ->
  (forall b i, P (EvSetitem b [i])) ->
  sound (elt:=elt) base P (jacobian_rank3 self x_data t)
    (fun jac => base <= buf jac /\ rank3_result self x_data jac).
Proof.
  intros HP HPr HPs. unfold jacobian_rank3.
  eapply sound_bind; [by apply sound_stacked_gradients|]. intros fs _.
  eapply sound_bind; [apply sound_lift; intros n Hn; exact (dim_of_Ok _ _ Hn)|].
  intros n Hn.
  eapply sound_bind; [apply sound_lift; intros d Hd; exact (shape_at_Ok _ _ _ Hd)|].
  intros s1 Hs1.
  eapply sound_bind; [apply sound_lift; intros d Hd; exact (shape_at_Ok _ _ _ Hd)|].
  intros s0 Hs0.
  eapply sound_bind; [apply sound_np_ones; intros; by apply HP|].
  intros jac (Hb & Hs & Hd).
  eapply sound_bind.
  - apply sound_for_each. intros i _. by apply sound_eval_sample.
  - intros _ _. apply sound_ret. split; [done|].
    exists n, s0, s1. simpl in Hd, Hs. rewrite !Nat2Z.id in Hs.
    repeat split; try done. apply andb_prop in Hd as [Hd _]. lia.
Qed.

Lemma sound_jacobian_rank4 (self : NeuralNetMaster elt) (x_data : ndarray) (t : tensor) :
  (forall ev, benign ev -> P ev) ->
  (forall x', rank4_data x_data = Ok x' -> P (EvRun (1 :: tail (shape x')))) ->
  (forall b i, P (EvSetitem b (rank4_index x_data i))) ->
  sound (elt:=elt) base P (jacobian_rank4 self x_data t)
    (fun jac => base <= buf jac /\ rank4_result self x_data jac).
Proof.
  intros HP HPr HPs. unfold jacobian_rank4.
  eapply sound_bind with (Q1 := fun x' => rank4_data x_data = Ok x').
  { unfold rank4_data. destruct (ndim x_data <? 4).
    - by apply sound_lift.
    - by apply sound_ret. }
  intros x' Hx'.
  eapply sound_bind; [apply sound_lift; intros n Hn; exact (dim_of_Ok _ _ Hn)|].
  intros n Hn.
  eapply sound_bind; [apply sound_lift; intros d Hd; exact (shape_at_Ok _ _ _ Hd)|].
  intros s1 Hs1.
  eapply sound_bind; [apply sound_lift; intros d Hd; exact (shape_at_Ok _ _ _ Hd)|].
  intros s2 Hs2.
  eapply sound_bind; [apply sound_lift; intros d Hd; exact (shape_at_Ok _ _ _ Hd)|].
  intros s3 Hs3.
  eapply sound_bind; [apply sound_lift; intros d Hd; exact (shape_at_Ok _ _ _ Hd)|].
  intros s0 Hs0.
  eapply sound_bind; [apply sound_np_ones; intros; by apply HP|].
  intros jac (Hb & Hs & Hd).
  eapply sound_bind; [by apply sound_stacked_gradients|]. intros fs _.
  eapply sound_bind.
  - apply sound_for_each. intros i _. apply sound_eval_sample; [done | by apply HPr |].
    apply HPs.
  - intros _ _. apply sound_ret. split; [done|].
    exists n, x', s0, s1, s2, s3. simpl in Hd, Hs. rewrite !Nat2Z.id in Hs.
    repeat split; try done. apply andb_prop in Hd as [Hd _]. lia.
Qed.

Lemma rank4_data_shape (a x' : ndarray) :
  rank4_data a = Ok x' -> rank4_shape (shape a) = Some (shape x').
Proof.
  unfold rank4_data, rank4_shape, getitem_newaxis3, ndim.
  destruct (length (shape a) <? 4); [destruct (length (shape a) <? 3)|];
    intros [= <-]; reflexivity.
Qed.

Lemma rank3_result_shape (self : NeuralNetMaster elt) (x_data jac : ndarray) :
  rank3_result self x_data jac ->
  exists n, labels_shape self = Some (ShapeInt n) /\ (0 <= n)%Z /\
            jacobian_shape 3 (Z.to_nat n) (shape x_data) = Some (shape jac).
Proof.
  intros (n & s0 & s1 & Hl & Hn & H0' & H1' & Hs). exists n. split; [done|].
  split; [done|]. simpl in *.
  destruct (atleast_3d_shape (shape x_data)) as [|a [|b l]]; simplify_eq/=.
  by rewrite Hs.
Qed.

Lemma rank4_result_shape (self : NeuralNetMaster elt) (x_data jac : ndarray) :
  rank4_result self x_data jac ->
  exists n, labels_shape self = Some (ShapeInt n) /\ (0 <= n)%Z /\
            jacobian_shape 4 (Z.to_nat n) (shape x_data) = Some (shape jac).
Proof.
  intros (n & x' & s0 & s1 & s2 & s3 & Hl & Hn & Hx & H0' & H1' & H2' & H3' & Hs).
  exists n. split; [done|]. split; [done|]. simpl.
  rewrite (rank4_data_shape _ _ Hx).
  destruct (shape x') as [|a [|b [|c [|d l]]]]; simplify_eq/=.
  by rewrite Hs.
Qed.

Lemma sound_jacobian_dispatch (self : NeuralNetMaster elt) (x_data : ndarray)
    (t : tensor) (e : list (option nat)) :
  (forall ev, benign ev -> P ev) ->
  (forall s, feed_shape (length e) (shape x_data) = Some s -> P (EvRun s)) ->
  (forall b i, P (EvSetitem b (write_index (length e) (shape x_data) i))) ->
  sound (elt:=elt) base P (jacobian_dispatch self x_data t e)
    (fun jac => base <= buf jac /\
       exists n, labels_shape self = Some (ShapeInt n) /\ (0 <= n)%Z /\
         jacobian_shape (length e) (Z.to_nat n) (shape x_data) = Some (shape jac)).
Proof.
  intros HP HPr HPs. unfold jacobian_dispatch.
  destruct (length e) as [|[|[|[|[|r]]]]]; try apply sound_raise.
  - eapply sound_weaken.
    + apply sound_jacobian_rank3; [done| by apply HPr | apply HPs].
    + intros jac [Hb Hr]. split; [done|]. by apply rank3_result_shape.
  - eapply sound_weaken.
    + apply sound_jacobian_rank4; [done| |apply HPs].
      intros x' Hx'. apply HPr. simpl. by rewrite (rank4_data_shape _ _ Hx').
    + intros jac [Hb Hr]. split; [done|]. by apply rank4_result_shape.
Qed.

Lemma sound_jacobian (self : NeuralNetMaster elt) (x : ndarray) (mean_output : bool) :
  (forall ev, benign ev -> P ev) ->
  (forall r s, declared_rank self = Some r ->
               feed_shape r (shape x) = Some s -> P (EvRun s)) ->
  (forall r b i, declared_rank self = Some r ->
                 P (EvSetitem b (write_index r (shape x) i))) ->
  sound (elt:=elt) base P (jacobian self (Some x) mean_output)
    (fun J => base <= buf J /\ jacobian_result self x mean_output J).
Proof.
  intros HP HPr HPs. unfold jacobian.
  eapply sound_bind.
  { apply sound_jacobian_prepare. intros ev Hev. apply HP. by destruct ev. }
  intros [x_data [t e]] (Hb & Hs & Hd). simpl in *.
  assert (Hr : declared_rank self = Some (length e)).
  { unfold declared_rank. by rewrite Hd. }
  eapply sound_bind.
  { apply sound_jacobian_dispatch; [done| |]; rewrite Hs.
    - intros s. by apply HPr.
    - intros b i. by apply HPs. }
  intros jac (Hbj & n & Hl & Hn & Hjs). rewrite Hs in Hjs.
  eapply sound_bind with
    (Q1 := fun J => base <= buf J /\ jacobian_result self x mean_output J).
  { destruct mean_output.
    - eapply sound_weaken; [apply sound_np_mean_last; intros; by apply HP|].
      intros J [HbJ HsJ]. split; [done|].
      exists n, (length e), (shape jac). by rewrite HsJ.
    - apply sound_ret. split; [done|]. by exists n, (length e), (shape jac). }
  intros J HJ.
  eapply sound_bind; [apply sound_log; by apply HP|]. intros _ _.
  by apply sound_ret.
Qed.

End SoundJacobian.

(** ** [jacobian]: errors, frame and shape *)

Section JacobianClaims.
Context {elt : Type} `{Scalar elt} `{Backend elt}.

Lemma frames_lookup (w w' : world elt) (b : nat) (d : list elt) :
  frames (length (heap w)) w w' -> heap w !! b = Some d -> heap w' !! b = Some d.
Proof.
  intros [_ Ht] Hb. pose proof (lookup_lt_Some _ _ _ Hb) as Hlt.
  rewrite <- (lookup_take_lt (heap w') (length (heap w)) b Hlt), Ht.
  by rewrite lookup_take_lt.
Qed.

(** C3. Without input the call raises the value error at once: the store of
    arrays and the log of operations are those before the call, so nothing
    was normalised, looked up or allocated. *)
Theorem jacobian_without_input (self : NeuralNetMaster elt) (mean_output : bool)
    (w : world elt) :
  jacobian self None mean_output w = (w, Raise (ValueError no_data)).
Proof. reflexivity. Qed.

(** C10. Whatever a call does, returning or raising, every buffer that was
    in the store before it holds the same values after it; the buffer of
    the caller's [x] is one of them. The copy made by [np.array] is a new
    buffer, and the in-place subtraction and division write that one. *)
Theorem jacobian_keeps_input (self : NeuralNetMaster elt) (x : option ndarray)
    (mean_output : bool) (w w' : world elt) (r : result ndarray) :
  jacobian self x mean_output w = (w', r) ->
  forall b d, heap w !! b = Some d -> heap w' !! b = Some d.
Proof.
  intros Hrun b d Hb. destruct x as [x|].
  - destruct (sound_jacobian (length (heap w)) (fun _ => True) self x mean_output)
      with (w := w) as (F & _ & _); try done.
    rewrite Hrun in F. simpl in F. by eapply frames_lookup.
  - by injection Hrun as <- _.
Qed.

(** C4, as the code has it. When the copy, the normalisation and the lookup
    of the input layer went through and the rank the model declares (not
    the rank of the data, which is not looked at) is neither 3 nor 4, the
    call raises the shape-mismatch value error. The events since the call
    began are those of the copy, the normalisation and the lookup only: no
    array was allocated for the result, nothing was evaluated or written;
    and the buffers that existed before the call are untouched. *)
Theorem jacobian_unsupported_rank (self : NeuralNetMaster elt) (x : ndarray)
    (mean_output : bool) (w w1 : world elt) (x_data : ndarray) (t : tensor)
    (e : list (option nat)) :
  jacobian_prepare self x w = (w1, Ok (x_data, (t, e))) ->
  length e <> 3 -> length e <> 4 ->
  declared_rank self = Some (length e) /\
  jacobian self (Some x) mean_output w = (w1, Raise (ValueError shape_mismatch)) /\
  emits prepare_event w w1 /\
  frames (length (heap w)) w w1.
Proof.
  intros Hp H3 H4.
  destruct (sound_jacobian_prepare (length (heap w)) prepare_event self x)
    with (w := w) as (F & E & Q); try done.
  rewrite Hp in F, E, Q. simpl in *.
  destruct (Q _ eq_refl) as (_ & _ & Hd).
  split; [unfold declared_rank; by rewrite Hd|].
  split; [|done].
  unfold jacobian, bind. rewrite Hp. simpl. unfold jacobian_dispatch.
  destruct (length e) as [|[|[|[|[|n]]]]]; try reflexivity; congruence.
Qed.

(** C1, as the code has it. A call with [mean_output=False] that returns
    gives an array whose first axis is [labels_shape] and whose last axis is
    the number of samples evaluated. For a declared rank 3 the data is first
    promoted to three axes: data with two or more axes gives
    (labels_shape, x.shape[1], x.shape[0]), while one-axis data is a single
    sample and gives (labels_shape, len(x), 1). For a declared rank 4, data
    with three axes gets a channel axis and gives
    (labels_shape, d1, d2, 1, rows) and data with four or more axes gives
    (labels_shape, d1, d2, d3, rows). *)
Theorem jacobian_result_shape (self : NeuralNetMaster elt) (x : ndarray)
    (w w' : world elt) (J : ndarray) :
  jacobian self (Some x) false w = (w', Ok J) ->
  exists n rank,
    labels_shape self = Some (ShapeInt n) /\ (0 <= n)%Z /\
    declared_rank self = Some rank /\
    ((rank = 3 /\
      (forall rows c rest, shape x = rows :: c :: rest ->
         shape J = [Z.to_nat n; c; rows]) /\
      (forall c, shape x = [c] -> shape J = [Z.to_nat n; c; 1]) /\
      (shape x = [] -> shape J = [Z.to_nat n; 1; 1]))
     \/
     (rank = 4 /\ 3 <= ndim x /\
      (forall rows d1 d2, shape x = [rows; d1; d2] ->
         shape J = [Z.to_nat n; d1; d2; 1; rows]) /\
      (forall rows d1 d2 d3 rest, shape x = rows :: d1 :: d2 :: d3 :: rest ->
         shape J = [Z.to_nat n; d1; d2; d3; rows]))).
Proof.
  intros Hrun.
  destruct (sound_jacobian 0 (fun _ => True) self x false)
    with (w := w) as (_ & _ & Q); try done; [lia|].
  rewrite Hrun in Q. destruct (Q J eq_refl) as (_ & n & rank & js & Hl & Hn & Hr & Hjs & Hs).
  exists n, rank. do 3 (split; [done|]). subst js.
  unfold jacobian_shape in Hjs.
  destruct rank as [|[|[|[|[|rank]]]]]; try discriminate.
  - left. split; [done|].
    destruct (shape x) as [|a [|b l]] eqn:Hx; simpl in Hjs.
    + repeat split; intros; simplify_eq; done.
    + repeat split; intros; simplify_eq; done.
    + assert (Hjs' : shape J = [Z.to_nat n; b; a]).
      { destruct l; simpl in Hjs; by simplify_eq. }
      repeat split; intros; simplify_eq; done.
  - right. split; [done|]. unfold rank4_shape, ndim in *.
    destruct (shape x) as [|a [|b [|c [|d l]]]] eqn:Hx; simpl in *; try discriminate.
    + split; [lia|]. split; intros; simplify_eq; done.
    + split; [lia|]. split; intros; simplify_eq; done.
Qed.

End JacobianClaims.

(** ** The buffer of the result *)

Section Buffers.
Context {elt : Type} `{Scalar elt} `{Backend elt}.

Lemma stable_ret {A} (a : A) : stable (elt:=elt) (ret a).
Proof. by intros w. Qed.

Lemma stable_raise {A} e : stable (elt:=elt) (A:=A) (raise e).
Proof. by intros w. Qed.

Lemma stable_lift {A} (r : result A) : stable (elt:=elt) (lift r).
Proof. by intros w. Qed.

Lemma stable_log ev : stable (elt:=elt) (log ev).
Proof. by intros w. Qed.

Lemma stable_load b : stable (elt:=elt) (load b).
Proof. by intros w. Qed.

Lemma stable_bind {A B} (m : M (world elt) A) (f : A -> M (world elt) B) :
  stable m -> (forall a, stable (f a)) -> stable (bind m f).
Proof.
  intros Hm Hf w. unfold bind. specialize (Hm w).
  destruct (m w) as [w1 [a|e]]; simpl in *; [|done].
  by rewrite Hf.
Qed.

Lemma stable_get_layer (m : option Model) (name : string) :
  stable (elt:=elt) (get_layer m name).
Proof.
  unfold get_layer. destruct m as [km|]; [|apply stable_raise].
  apply stable_bind; [apply stable_log|]. intros _.
  destruct (assoc name (layers km)); [apply stable_ret | apply stable_raise].
Qed.

Lemma stable_build_grad_list (self : NeuralNetMaster elt) (t : tensor) (js : list nat) :
  stable (build_grad_list self t js).
Proof.
  induction js as [|j js IH]; simpl; [apply stable_ret|].
  apply stable_bind; [apply stable_get_layer|]. intros out.
  apply stable_bind; [apply stable_lift|]. intros g.
  apply stable_bind; [apply stable_log|]. intros _.
  apply stable_bind; [apply IH|]. intros rest. apply stable_ret.
Qed.

Lemma stable_stacked_gradients (self : NeuralNetMaster elt) (t : tensor) :
  stable (stacked_gradients self t).
Proof.
  unfold stacked_gradients.
  apply stable_bind; [apply stable_lift|]. intros js.
  apply stable_bind; [apply stable_build_grad_list|]. intros gl.
  apply stable_bind; [apply stable_lift|]. intros fs.
  apply stable_bind; [apply stable_log|]. intros _. apply stable_ret.
Qed.

Lemma stable_getitem_row (a : ndarray) (i : nat) : stable (elt:=elt) (getitem_row a i).
Proof.
  unfold getitem_row. destruct (shape a); [apply stable_raise|].
  apply stable_bind; [apply stable_load|]. intros d. apply stable_ret.
Qed.

Lemma triple_stable {A} (m : M (world elt) A) (Pre : list (list elt) -> Prop) :
  stable m -> triple Pre m (fun _ => Pre).
Proof. intros Hm w Hpre a _. by rewrite Hm. Qed.

Lemma triple_bind {A B} (m : M (world elt) A) (f : A -> M (world elt) B)
    (Pre : list (list elt) -> Prop) Mid Post :
  triple Pre m Mid -> (forall a, triple (Mid a) (f a) Post) ->
  triple Pre (bind m f) Post.
Proof.
  intros Hm Hf w Hpre b. unfold bind. specialize (Hm w Hpre).
  destruct (m w) as [w1 [a|e]]; simpl in *; [|done].
  apply Hf. by apply Hm.
Qed.

Lemma triple_ret {A} (a : A) (Pre : list (list elt) -> Prop) (Post : A -> _ -> Prop) :
  (forall h, Pre h -> Post a h) -> triple (elt:=elt) Pre (ret a) Post.
Proof. intros HP w Hpre b [= <-]. by apply HP. Qed.

Lemma triple_for_each {A} (l : list A) (body : A -> M (world elt) unit)
    (Inv : list (list elt) -> Prop) :
  (forall a, triple Inv (body a) (fun _ => Inv)) ->
  triple Inv (for_each l body) (fun _ => Inv).
Proof.
  intros Hbody. induction l as [|a l IH]; simpl.
  - by apply triple_ret.
  - eapply triple_bind; [apply Hbody|]. intros u. apply IH.
Qed.

Lemma length_write_tail (T t : nat) (vb d : list elt) :
  length (write_tail T t vb d) = length d.
Proof. unfold write_tail. by rewrite length_imap. Qed.

Lemma triple_setitem_tail (a : ndarray) (tl : list nat) (v : value elt) :
  triple (full_buffer a) (setitem_tail a tl v) (fun _ => full_buffer a).
Proof.
  intros w (d & Hd & Hlen) u. unfold setitem_tail.
  destruct (forallb _ _); [|done].
  destruct (broadcast_to _ _ _) as [vb|]; [|done].
  intros _. simpl. rewrite Hd. simpl.
  eexists. split.
  - apply list_lookup_insert_eq. by eapply lookup_lt_Some.
  - unfold write_at. by rewrite length_write_tail.
Qed.

Lemma triple_eval_sample (x_data jac : ndarray) (fs t : tensor) (tl : list nat) (i : nat) :
  triple (full_buffer jac) (eval_sample x_data jac fs t tl i) (fun _ => full_buffer jac).
Proof.
  unfold eval_sample.
  eapply triple_bind; [apply triple_stable, stable_getitem_row|]. intros x_in.
  eapply triple_bind; [apply triple_stable, stable_log|]. intros u.
  eapply triple_bind; [apply triple_stable, stable_lift|]. intros g.
  apply triple_setitem_tail.
Qed.

Lemma triple_np_ones (dims : list Z) :
  triple (elt:=elt) (fun _ => True) (np_ones dims) full_buffer.
Proof.
  intros w _ a. unfold np_ones. destruct (forallb _ dims); [|done].
  simpl. intros [= <-]. simpl. eexists. split.
  - rewrite lookup_app_r by done. by rewrite Nat.sub_diag.
  - by rewrite length_replicate.
Qed.

Lemma triple_loop_ret (jac : ndarray) (l : list nat) (body : nat -> M (world elt) unit) :
  (forall i, triple (full_buffer jac) (body i) (fun _ => full_buffer jac)) ->
  triple (full_buffer jac) (for_each l body ;;; ret jac) full_buffer.
Proof.
  intros Hbody.
  eapply triple_bind; [by apply triple_for_each|]. intros u.
  by apply triple_ret.
Qed.

Lemma triple_any {A} (m : M (world elt) A) : triple (fun _ => True) m (fun _ _ => True).
Proof. by intros w _ a _. Qed.

Lemma triple_jacobian_rank3 (self : NeuralNetMaster elt) (x_data : ndarray) (t : tensor) :
  triple (fun _ => True) (jacobian_rank3 self x_data t) full_buffer.
Proof.
  unfold jacobian_rank3.
  eapply triple_bind; [apply triple_any|]. intros fs.
  eapply triple_bind; [apply triple_any|]. intros n.
  eapply triple_bind; [apply triple_any|]. intros s1.
  eapply triple_bind; [apply triple_any|]. intros s0. simpl.
  eapply triple_bind; [apply triple_np_ones|]. intros jac.
  apply triple_loop_ret. intros i. apply triple_eval_sample.
Qed.

Lemma triple_jacobian_rank4 (self : NeuralNetMaster elt) (x_data : ndarray) (t : tensor) :
  triple (fun _ => True) (jacobian_rank4 self x_data t) full_buffer.
Proof.
  unfold jacobian_rank4.
  eapply triple_bind; [apply triple_any|]. intros x'.
  eapply triple_bind; [apply triple_any|]. intros n.
  eapply triple_bind; [apply triple_any|]. intros s1.
  eapply triple_bind; [apply triple_any|]. intros s2.
  eapply triple_bind; [apply triple_any|]. intros s3.
  eapply triple_bind; [apply triple_any|]. intros s0. simpl.
  eapply triple_bind; [apply triple_np_ones|]. intros jac.
  eapply triple_bind; [apply triple_stable, stable_stacked_gradients|]. intros fs.
  apply triple_loop_ret. intros i. apply triple_eval_sample.
Qed.

Lemma triple_jacobian_dispatch (self : NeuralNetMaster elt) (x_data : ndarray)
    (t : tensor) (e : list (option nat)) :
  triple (fun _ => True) (jacobian_dispatch self x_data t e) full_buffer.
Proof.
  unfold jacobian_dispatch.
  destruct (length e) as [|[|[|[|[|n]]]]]; try (by intros w _ a).
  - apply triple_jacobian_rank3.
  - apply triple_jacobian_rank4.
Qed.

Lemma product_snoc (dims : list nat) (n : nat) :
  product (dims ++ [n]) = product dims * n.
Proof.
  unfold product. induction dims as [|d dims IH]; simpl; [lia|]. rewrite IH. lia.
Qed.

Lemma ravel_snoc (dims idx : list nat) (n i : nat) :
  length idx = length dims ->
  ravel (dims ++ [n]) (idx ++ [i]) = ravel dims idx * n + i.
Proof.
  intros Hlen. unfold ravel.
  rewrite zip_with_app by done. by rewrite fold_left_app.
Qed.

Lemma ravel_bound (dims idx : list nat) :
  valid_index dims idx -> ravel dims idx < product dims.
Proof.
  unfold valid_index. revert idx.
  induction dims as [|n dims IH] using rev_ind; intros idx Hv.
  - apply Forall2_nil_inv_r in Hv as ->. compute. lia.
  - apply Forall2_app_inv_r in Hv as (idx' & k & Hv' & Hk & ->).
    apply Forall2_cons_inv_r in Hk as (i & k' & Hi & Hk' & ->).
    apply Forall2_nil_inv_r in Hk' as ->.
    rewrite ravel_snoc by (by eapply Forall2_length).
    rewrite product_snoc. specialize (IH _ Hv'). nia.
Qed.

Lemma jacobian_shape_snoc (rank L : nat) (xs js : list nat) :
  jacobian_shape rank L xs = Some js -> exists lead n, js = lead ++ [n].
Proof.
  unfold jacobian_shape. destruct rank as [|[|[|[|[|rank]]]]]; try discriminate.
  - destruct (atleast_3d_shape xs) as [|s0 [|s1 l]]; try discriminate.
    intros [= <-]. by exists [L; s1], s0.
  - destruct (rank4_shape xs) as [[|s0 [|s1 [|s2 [|s3 l]]]]|]; try discriminate.
    intros [= <-]. by exists [L; s1; s2; s3], s0.
Qed.

(** A returned call with [mean_output=False], taken apart: the array comes
    from the dispatch, and only the final [print] follows. *)
Lemma jacobian_false_inv (self : NeuralNetMaster elt) (x : ndarray)
    (w wF : world elt) (JF : ndarray) :
  jacobian self (Some x) false w = (wF, Ok JF) ->
  exists w1 p w2,
    jacobian_prepare self x w = (w1, Ok p) /\
    jacobian_dispatch self (fst p) (fst (snd p)) (snd (snd p)) w1 = (w2, Ok JF) /\
    wF = World (heap w2) (trace w2 ++ [EvPrint]).
Proof.
  unfold jacobian, bind.
  destruct (jacobian_prepare self x w) as [w1 [p|e]] eqn:Hp; simpl; [|discriminate].
  destruct (jacobian_dispatch self _ _ _ w1) as [w2 [jac|e]] eqn:Hd; simpl;
    [|discriminate].
  intros [= <- <-]. by exists w1, p, w2.
Qed.

(** C2. When the call with [mean_output=False] returns the array JF, the
    call with [mean_output=True] on the same input returns an array JT whose
    shape is that of JF without the last (sample) axis, and each element of JT
    is the arithmetic mean of the lane of JF along that axis: the lane at a
    multi-index has one element per sample, and JT holds their sum divided
    by their number. *)
Theorem jacobian_mean_output (self : NeuralNetMaster elt) (x : ndarray)
    (w wF : world elt) (JF : ndarray) :
  jacobian self (Some x) false w = (wF, Ok JF) ->
  exists wT JT lead n,
    jacobian self (Some x) true w = (wT, Ok JT) /\
    shape JF = lead ++ [n] /\ shape JT = lead /\
    forall idx, valid_index lead idx ->
      exists lane,
        length lane = n /\
        (forall i, i < n -> read wF JF (idx ++ [i]) = lane !! i) /\
        read wT JT idx = Some (amean lane).
Proof.
  intros Hrun.
  destruct (sound_jacobian 0 (fun _ => True) self x false)
    with (w := w) as (_ & _ & Q); try done; [lia|].
  rewrite Hrun in Q.
  destruct (Q JF eq_refl) as (_ & n0 & rank & js & _ & _ & _ & Hjs & Hs).
  simpl in Hs. subst js.
  destruct (jacobian_shape_snoc _ _ _ _ Hjs) as (lead & n & Hshape).
  destruct (jacobian_false_inv _ _ _ _ _ Hrun) as (w1 & p & w2 & Hp & Hd & ->).
  pose proof (triple_jacobian_dispatch self (fst p) (fst (snd p)) (snd (snd p)) w1 I JF)
    as Hfull.
  rewrite Hd in Hfull. destruct (Hfull eq_refl) as (d & Hbuf & Hlen). simpl in Hbuf.
  rewrite Hshape, product_snoc in Hlen.
  eexists _, _, lead, n. split.
  { unfold jacobian, bind. rewrite Hp, Hd. unfold np_mean_last.
    rewrite Hshape, last_snoc. simpl. rewrite Hbuf. simpl.
    rewrite removelast_last. reflexivity. }
  split; [done|]. split; [done|].
  intros idx Hv.
  pose proof (ravel_bound _ _ Hv) as Hk.
  exists (take n (drop (ravel lead idx * n) d)). split; [|split].
  - rewrite length_take, length_drop. nia.
  - intros i Hi. unfold read. simpl. rewrite Hbuf, Hshape.
    rewrite ravel_snoc by (by eapply Forall2_length).
    rewrite lookup_take_lt by done. by rewrite lookup_drop.
  - unfold read. simpl. rewrite lookup_app_r by done. rewrite Nat.sub_diag. simpl.
    rewrite list_lookup_fmap, lookup_seq_lt by done. reflexivity.
Qed.

End Buffers.

(** ** The channel axis of the rank-4 branch *)

Section Channel.
Context {elt : Type} `{Scalar elt} `{Backend elt}.

(** Writing sample [i] at channel 0 of an array of shape
    (L, d1, d2, d3, N) leaves every element of another channel as it was. *)
Lemma write_at_other_channels (jac : ndarray) (L d1 d2 d3 N i p : nat)
    (vb d : list elt) :
  shape jac = [L; d1; d2; d3; N] -> i < N ->
  (p / N) mod d3 <> 0 ->
  write_at jac [0; i] vb d !! p = d !! p.
Proof.
  intros Hs Hi Hc. unfold write_at, write_tail, ndim. rewrite Hs. simpl.
  rewrite list_lookup_imap. destruct (d !! p) as [old|]; [|done]. simpl.
  replace (d3 * (N * 1)) with (N * d3) by lia.
  destruct (Nat.eqb_spec (p mod (N * d3)) (ravel [d3; N] [0; i])) as [Heq|]; [|done].
  exfalso. unfold ravel in Heq. simpl in Heq.
  rewrite Nat.Div0.mod_mul_r in Heq.
  assert (p mod N < N) by (apply Nat.mod_upper_bound; lia). nia.
Qed.

(** C5, as the code has it. When the model declares rank 4 and the data has
    exactly three axes (rows, d1, d2), every evaluation is fed a sample of
    shape (1, d1, d2, 1), the channel axis appended, and every write into the
    result is at channel index 0 of a sample. The result has shape
    (labels_shape, d1, d2, 1, rows): its channel axis has length 1, so no
    element lies at another channel index. *)
Theorem jacobian_mono_channel (self : NeuralNetMaster elt) (x : ndarray)
    (rows d1 d2 : nat) (mean_output : bool) (w w' : world elt)
    (r : result ndarray) :
  declared_rank self = Some 4 ->
  shape x = [rows; d1; d2] ->
  jacobian self (Some x) mean_output w = (w', r) ->
  emits (mono_event d1 d2) w w' /\
  forall J, r = Ok J -> mean_output = false ->
    exists n, labels_shape self = Some (ShapeInt n) /\
      shape J = [Z.to_nat n; d1; d2; 1; rows] /\
      forall idx, valid_index (shape J) idx -> idx !! 3 <> Some 0 ->
        read w' J idx = Some eone.
Proof.
  intros Hrank Hx Hrun.
  destruct (sound_jacobian 0 (mono_event d1 d2) self x mean_output)
    with (w := w) as (_ & E & Q).
  - intros ev Hev. by destruct ev.
  - intros rk s Hrk. rewrite Hrank in Hrk. injection Hrk as <-.
    rewrite Hx. simpl. by intros [= <-].
  - intros rk b i Hrk. rewrite Hrank in Hrk. injection Hrk as <-.
    rewrite Hx. simpl. by exists i.
  - lia.
  - rewrite Hrun in E, Q. simpl in *. split; [exact E|].
    intros J -> ->.
    destruct (Q J eq_refl) as (_ & n & rk & js & Hl & Hn & Hrk & Hjs & Hs).
    rewrite Hrank in Hrk. injection Hrk as <-.
    rewrite Hx in Hjs. simpl in Hjs. injection Hjs as <-.
    exists n. split; [done|]. split; [done|].
    intros idx Hv Hc. exfalso. rewrite Hs in Hv. unfold valid_index in Hv.
    repeat (apply Forall2_cons_inv_r in Hv as (? & ? & ? & Hv & ->)).
    simpl in Hc. apply Hc. f_equal. lia.
Qed.

End Channel.

(** ** Explicit runs *)

Lemma jacobian_result_shape_witness :
  run_sequence [2; 3] false
  = (fst (run_sequence [2; 3] false), Ok (NDArray 2 [2; 3; 2])) /\
  exists n rank,
    labels_shape (linear_net [3; 1]) = Some (ShapeInt n) /\
    declared_rank (linear_net [3; 1]) = Some rank.
Proof.
  assert (Hrun : run_sequence [2; 3] false
                 = (fst (run_sequence [2; 3] false), Ok (NDArray 2 [2; 3; 2])))
    by (vm_compute; reflexivity).
  split; [exact Hrun|].
  destruct (jacobian_result_shape _ _ _ _ _ Hrun) as (n & rank & Hl & _ & Hr & _).
  exists n, rank. split; assumption.
Defined.

(** C1 as stated fails: against a model that declares rank 3, data with one
    axis of length 3 is returned as one sample of three features, shape
    (2, 3, 1); the last axis is not the number of rows of [x], which is 3. *)
Lemma jacobian_one_axis_is_one_sample :
  declared_rank (linear_net [3; 1]) = Some 3 /\
  shape (NDArray 0 [3]) !! 0 = Some 3 /\
  exists J, snd (run_sequence [3] false) = Ok J /\
    shape J = [2; 3; 1] /\
    ~ (exists feature_dim, shape J = [2; feature_dim; 3]).
Proof.
  split; [reflexivity|]. split; [reflexivity|].
  exists (NDArray 2 [2; 3; 1]). split; [vm_compute; reflexivity|].
  split; [reflexivity|]. intros [f Hf]. discriminate.
Qed.

Lemma jacobian_mean_output_witness :
  run_sequence [2; 3] false
  = (fst (run_sequence [2; 3] false), Ok (NDArray 2 [2; 3; 2])) /\
  exists wT JT lead n,
    run_sequence [2; 3] true = (wT, Ok JT) /\
    [2; 3; 2] = lead ++ [n] /\ shape JT = lead.
Proof.
  assert (Hrun : run_sequence [2; 3] false
                 = (fst (run_sequence [2; 3] false), Ok (NDArray 2 [2; 3; 2])))
    by (vm_compute; reflexivity).
  split; [exact Hrun|].
  destruct (jacobian_mean_output _ _ _ _ _ Hrun) as (wT & JT & lead & n & HT & Hs & HsT & _).
  exists wT, JT, lead, n. split; [exact HT|]. split; assumption.
Defined.

(** C4 as stated fails: the rank of the data is not what decides. Against a
    model that declares rank 3, data with five axes does not get the
    shape-mismatch error: the result array is allocated and the first sample
    is evaluated, and the call ends with the error of the session, which
    does not take a feed of that shape. Data with two axes, another rank
    that is neither 3 nor 4, is promoted and the call returns. *)
Lemma jacobian_data_rank_unchecked :
  declared_rank (linear_net [3; 1]) = Some 3 /\
  ndim (NDArray 0 [2; 3; 1; 1; 1]) = 5 /\
  snd (run_sequence [2; 3; 1; 1; 1] false) = Raise BackendError /\
  snd (run_sequence [2; 3; 1; 1; 1] false) <> Raise (ValueError shape_mismatch) /\
  In (EvOnes 2 [2; 3; 2]) (trace (fst (run_sequence [2; 3; 1; 1; 1] false))) /\
  In (EvRun [1; 3; 1; 1; 1]) (trace (fst (run_sequence [2; 3; 1; 1; 1] false))) /\
  ndim (NDArray 0 [2; 3]) = 2 /\
  snd (run_sequence [2; 3] false) = Ok (NDArray 2 [2; 3; 2]).
Proof.
  split; [reflexivity|]. split; [reflexivity|].
  split; [vm_compute; reflexivity|].
  split; [vm_compute; discriminate|].
  split; [vm_compute; tauto|]. split; [vm_compute; tauto|].
  split; [reflexivity|]. vm_compute; reflexivity.
Qed.

Lemma jacobian_unsupported_rank_witness :
  jacobian_prepare (H := Q_scalar) (linear_net [2; 2; 1; 1]) (NDArray 0 [8]) (store_of 8)
  = (fst (jacobian_prepare (H := Q_scalar) (linear_net [2; 2; 1; 1]) (NDArray 0 [8])
            (store_of 8)),
     Ok (NDArray 1 [8], (0, [None; Some 2; Some 2; Some 1; Some 1]))) /\
  jacobian (H0 := linear_backend 2 [2; 2; 1; 1]) (linear_net [2; 2; 1; 1])
    (Some (NDArray 0 [8])) false (store_of 8)
  = (fst (jacobian_prepare (H := Q_scalar) (linear_net [2; 2; 1; 1]) (NDArray 0 [8])
            (store_of 8)),
     Raise (ValueError shape_mismatch)).
Proof.
  assert (Hp : jacobian_prepare (H := Q_scalar) (linear_net [2; 2; 1; 1])
                 (NDArray 0 [8]) (store_of 8)
               = (fst (jacobian_prepare (H := Q_scalar) (linear_net [2; 2; 1; 1])
                         (NDArray 0 [8]) (store_of 8)),
                  Ok (NDArray 1 [8], (0, [None; Some 2; Some 2; Some 1; Some 1]))))
    by (vm_compute; reflexivity).
  split; [exact Hp|].
  apply (jacobian_unsupported_rank (H0 := linear_backend 2 [2; 2; 1; 1])
           (linear_net [2; 2; 1; 1]) (NDArray 0 [8]) false _ _ _ _ _ Hp);
    unfold ndim; simpl; lia.
Defined.

Lemma jacobian_mono_channel_witness :
  declared_rank (linear_net [2; 2; 1]) = Some 4 /\
  shape (NDArray 0 [2; 2; 2]) = [2; 2; 2] /\
  emits (mono_event 2 2) (store_of 8) (fst (run_image [2; 2; 2] false)).
Proof.
  split; [reflexivity|]. split; [reflexivity|].
  apply (jacobian_mono_channel (H0 := linear_backend 2 [2; 2; 1])
           (linear_net [2; 2; 1]) (NDArray 0 [2; 2; 2]) 2 2 2 false (store_of 8)
           (fst (run_image [2; 2; 2] false)) (snd (run_image [2; 2; 2] false)));
    [reflexivity | reflexivity | apply surjective_pairing].
Defined.

(** C5 as stated fails: against a model that declares rank 4, data with two
    axes (rank below 4) gets no channel axis: the indexing raises, and
    nothing is evaluated. *)
Lemma jacobian_two_axis_data_raises :
  declared_rank (linear_net [2; 2; 1]) = Some 4 /\
  ndim (NDArray 0 [2; 2]) < 4 /\
  snd (run_image [2; 2] false) = Raise IndexError /\
  Forall prepare_event (trace (fst (run_image [2; 2] false))).
Proof.
  split; [reflexivity|]. split; [unfold ndim; simpl; lia|].
  split; [vm_compute; reflexivity|].
  vm_compute. repeat constructor.
Qed.

Lemma jacobian_keeps_input_witness :
  heap (store_of 6) !! 0 = Some (map (fun k => inject_Z (Z.of_nat k)) (seq 1 6)) /\
  heap (fst (run_sequence [2; 3] true)) !! 0
  = Some (map (fun k => inject_Z (Z.of_nat k)) (seq 1 6)).
Proof.
  split; [reflexivity|].
  apply (jacobian_keeps_input (H0 := linear_backend 2 [3; 1]) (linear_net [3; 1])
           (Some (NDArray 0 [2; 3])) true (store_of 6)
           (fst (run_sequence [2; 3] true)) (snd (run_sequence [2; 3] true)));
    [apply surjective_pairing | reflexivity].
Defined.

(** ** Two saves into the same folder *)

Section PersistenceFacts.
Context {elt : Type}.
Variable fmt : NeuralNetMaster elt -> hfield -> string.
Variable folder_runnum : filesystem -> string.

Lemma append_assoc (a b c : string) : (a +:+ b) +:+ c = a +:+ (b +:+ c).
Proof.
  induction a as [|ch a IH]; [reflexivity|].
  change (String ch ((a +:+ b) +:+ c) = String ch (a +:+ (b +:+ c))). by f_equal.
Qed.

Lemma append_empty_r (a : string) : a +:+ "" = a.
Proof.
  induction a as [|ch a IH]; [reflexivity|].
  change (String ch (a +:+ "") = String ch a). by f_equal.
Qed.

Lemma read_file_write (fs : filesystem) (p c t : string) :
  read_file fs p = Some c -> read_file (file_write p t fs) p = Some (c +:+ t).
Proof.
  unfold read_file, file_write. destruct (fs !! p) as [[|c']|] eqn:Hp; try done.
  intros [= ->]. by rewrite lookup_insert_eq.
Qed.

(** The loop of writes appends the lines, in order, and changes nothing
    else of the instance. *)
Lemma write_hyper_lines (l : list (string * hfield)) (self : NeuralNetMaster elt)
    (fs : filesystem) (p c : string) :
  read_file fs p = Some c ->
  exists fs',
    for_each l (write_hyper_line fmt p) (self, fs) = ((self, fs'), Ok tt) /\
    read_file fs' p
    = Some (c +:+ foldr (fun kf acc => hyper_line fmt self kf +:+ acc) "" l).
Proof.
  revert fs c. induction l as [|kf l IH]; intros fs c Hc; simpl.
  - exists fs. split; [done|]. by rewrite append_empty_r.
  - destruct (IH (file_write p (hyper_line fmt self kf) fs) (c +:+ hyper_line fmt self kf))
      as (fs' & Hrun & Hread); [by apply read_file_write|].
    exists fs'. split.
    + unfold bind, write_hyper_line, get, on_fs, modify in *. simpl. exact Hrun.
    + by rewrite Hread, append_assoc.
Qed.

Lemma bind_Ok {St A B} (m : M St A) (f : A -> M St B) (s s' : St) (a : A) :
  m s = (s', Ok a) -> bind m f s = f a s'.
Proof. intros Hm. unfold bind. by rewrite Hm. Qed.

Lemma existing_file_is_file (fs : filesystem) (p c : string) :
  read_file fs p = Some c ->
  os_path_isfile fs p = true /\ open_a p fs = Ok fs.
Proof.
  unfold read_file, os_path_isfile, open_a.
  by destruct (fs !! p) as [[|c']|].
Qed.

(** Creating the folder, when it is not there, leaves a file that is there
    as it is. *)
Lemma folder_step_keeps_file (fs : filesystem) (dir p c : string) :
  read_file fs p = Some c ->
  read_file (if os_path_exists fs dir then fs else os_makedirs dir fs) p = Some c.
Proof.
  intros Hc. unfold os_path_exists.
  destruct (fs !! dir) eqn:Hdir; [done|].
  unfold read_file, os_makedirs in *. rewrite lookup_insert_ne; [done|].
  intros ->. by rewrite Hdir in Hc.
Qed.

(** When the hyperparameter file of the folder a call resolves to is
    already there, lines 141-176 complete and leave in it the old text, a
    line feed, the marker, and the key/value text of this run: the file is
    appended to, not overwritten, and nothing separates the marker from the
    first key. *)
Lemma save_hyperparameters_appends (self : NeuralNetMaster elt) (fs : filesystem)
    (name : option string) (c : string) :
  let fname := resolve_folder folder_runnum self fs name in
  read_file fs (hyper_file self fname) = Some c ->
  exists self' fs',
    save_hyperparameters fmt folder_runnum name (self, fs) = ((self', fs'), Ok tt) /\
    folder_name self' = Some fname /\
    read_file fs' (hyper_file self fname)
    = Some (c +:+ newline +:+ another_run +:+ hyper_text fmt self').
Proof.
  intros fname Hc.
  set (dir := os_path_join (currentdir self) fname).
  set (full := os_path_join (currentdir self) (fname +:+ "/")).
  set (txt := hyper_file self fname) in *.
  set (fs1 := if os_path_exists fs dir then fs else os_makedirs dir fs).
  set (self1 := set_hyper_txt (Some txt)
                  (set_fullfilepath (Some full) (set_folder_name (Some fname) self))).
  pose proof (folder_step_keeps_file fs dir txt c Hc) as Hc1. fold fs1 in Hc1.
  destruct (existing_file_is_file fs1 txt c Hc1) as [Hisfile Hopen].
  destruct (write_hyper_lines hyper_fields self1
              (file_write txt another_run (file_write txt newline fs1)) txt
              ((c +:+ newline) +:+ another_run))
    as (fs' & Hrun & Hread); [by do 2 apply read_file_write|].
  exists self1, fs'. split; [|split; [done|]].
  - unfold save_hyperparameters.
    rewrite (bind_Ok get _ (self, fs) (self, fs) (self, fs)); [|reflexivity].
    cbn beta zeta iota delta [fst snd].
    fold fname. fold dir. fold full.
    rewrite (bind_Ok _ _ _ (set_folder_name (Some fname) self, fs) tt); [|reflexivity].
    cbv beta.
    rewrite (bind_Ok _ _ _ (set_folder_name (Some fname) self, fs1) tt).
    2: { unfold fs1. destruct (os_path_exists fs dir); reflexivity. }
    cbv beta.
    rewrite (bind_Ok _ _ _
               (set_fullfilepath (Some full) (set_folder_name (Some fname) self), fs1)
               tt); [|reflexivity].
    cbv beta.
    rewrite (bind_Ok get _ _ _ _ eq_refl).
    cbn beta zeta iota delta [fst snd].
    change (full +:+ "hyperparameter.txt") with txt.
    rewrite Hisfile.
    rewrite (bind_Ok _ _ _ (self1, file_write txt another_run (file_write txt newline fs1)) tt).
    2: { unfold bind, try_fs, on_self, on_fs, modify.
         cbn beta zeta iota delta [fst snd]. rewrite Hopen. reflexivity. }
    cbv beta.
    exact Hrun.
  - rewrite Hread. unfold hyper_text. by rewrite !append_assoc.
Qed.

End PersistenceFacts.

(** C9, on the explicit pair of saves. Both complete; the second leaves the
    text of the first in place and writes after it a line feed, the marker
    and its own key/value text. No line feed follows the marker: the marker
    is not a line of the file, it heads the line of the second run's
    [Model] entry. *)
Theorem save_twice_marker_shares_line :
  snd after_first_save = Ok tt /\
  snd after_second_save = Ok tt /\
  exists c1 c2,
    read_file (snd (fst after_first_save)) hyper_path = Some c1 /\
    read_file (snd (fst after_second_save)) hyper_path = Some c2 /\
    c2 = c1 +:+ newline +:+ another_run
            +:+ hyper_text plain_fmt (fst (fst after_second_save)) /\
    is_line another_run c2 = false /\
    is_line (another_run +:+ "Model: net ") c2 = true.
Proof.
  split; [vm_compute; reflexivity|]. split; [vm_compute; reflexivity|].
  eexists _, _.
  split; [vm_compute; reflexivity|]. split; [vm_compute; reflexivity|].
  repeat split; vm_compute; reflexivity.
Qed.

(* ===================================================================== *)
(** * Part III. Further properties of the code                            *)
(* ===================================================================== *)

(** ** More on the pre-training checklist *)

Section ChecklistMore.
Context {elt : Type}.
Variable fround : Q -> Q.

(** X1. The two counts add up to the number of rows whether or not
    [val_size] is a fraction, which nothing checks: for an unset
    [val_size], for every [int], and for every float whose product with the
    number of rows is in the range of finite floats (beyond it [int] raises on
    the infinite product). *)
Theorem checklist_counts_add_up (self : NeuralNetMaster elt) (input_data labels : ndarray)
    (rows : nat) (rest : list nat) :
  shape input_data = rows :: rest ->
  finite_product rows (val_size self) ->
  exists self' vn nt,
    pre_training_checklist_master fround self input_data labels = (self', Ok tt) /\
    val_num self' = Some vn /\ num_train self' = Some nt /\
    (nt + vn = Z.of_nat rows)%Z.
Proof.
  intros Hs _. unfold pre_training_checklist_master, shape_at. rewrite Hs. simpl.
  destruct (input_shape self); eexists _, _, _;
    (split; [reflexivity|]); simpl; repeat split; lia.
Qed.

(** X2. A fraction of 1 or more is taken as it is: with an [int] [val_size] of
    2 or more and at least one row, [num_train] comes out negative. *)
Theorem checklist_oversized_fraction (self : NeuralNetMaster elt)
    (input_data labels : ndarray) (rows : nat) (rest : list nat) (z : Z) :
  shape input_data = rows :: rest -> 0 < rows -> (2 <= z)%Z ->
  val_size self = Some (PyInt z) ->
  exists nt,
    num_train (fst (pre_training_checklist_master fround self input_data labels))
    = Some nt /\ (nt < 0)%Z.
Proof.
  intros Hs Hr Hz Hv. unfold pre_training_checklist_master, shape_at.
  rewrite Hs, Hv. simpl.
  destruct (input_shape self); eexists; (split; [reflexivity|]); nia.
Qed.

(** X3. Once [input_shape] is set, a call infers nothing: [input_shape] and
    [labels_shape] are kept, whatever the ranks of the arrays, also when
    [labels_shape] itself is unset. *)
Theorem checklist_keeps_set_shapes (self : NeuralNetMaster elt)
    (input_data labels : ndarray) (s : list nat) :
  input_shape self = Some s ->
  let self' := fst (pre_training_checklist_master fround self input_data labels) in
  input_shape self' = Some s /\ labels_shape self' = labels_shape self.
Proof.
  intros Hs. unfold pre_training_checklist_master, shape_at.
  destruct (shape input_data !! 0); simpl; rewrite ?Hs; simpl; auto.
Qed.

(** X4. A call on an input without axes raises [IndexError] after [val_size]
    was defaulted: an unset [val_size] is 0 afterwards, and every other
    attribute is as before. *)
Theorem checklist_rank0_state (self : NeuralNetMaster elt) (input_data labels : ndarray) :
  shape input_data = [] ->
  pre_training_checklist_master fround self input_data labels
  = (set_val_size (Some (default (PyInt 0) (val_size self))) self, Raise IndexError).
Proof.
  intros Hs. unfold pre_training_checklist_master, shape_at. rewrite Hs. simpl.
  by destruct (val_size self).
Qed.

(** X5. Calling the checklist again on the same arrays changes nothing: the
    state and the outcome of the second call are those of the first. *)
Theorem checklist_idempotent (self : NeuralNetMaster elt) (input_data labels : ndarray) :
  let first := pre_training_checklist_master fround self input_data labels in
  pre_training_checklist_master fround (fst first) input_data labels = first.
Proof.
  unfold pre_training_checklist_master, shape_at, infer_input_shape, infer_labels_shape.
  destruct self as [cd fn ffp ht vs vn km kmp im sd ishape lshape nt]. simpl.
  destruct (shape input_data) as [|r [|c [|d2 [|d3 [|d4 l]]]]];
    destruct vs as [v|]; simpl;
    destruct ishape as [s|]; simpl; try reflexivity;
    destruct (shape labels) as [|r' [|c' [|e2 [|e3 [|e4 l']]]]]; reflexivity.
Qed.

Hypothesis fround_nonneg : forall q : Q, (0 <= q)%Q -> (0 <= fround q)%Q.
Hypothesis fround_below : forall (q : Q) (n : Z),
  (q <= inject_Z n)%Q -> (fround q <= inject_Z n)%Q.

(** X6. With [val_size] in [0, 1) both counts lie between 0 and the number of
    rows, for a rounding that keeps signs and does not cross an integer. *)
Theorem checklist_counts_in_range (self : NeuralNetMaster elt)
    (input_data labels : ndarray) (rows : nat) (rest : list nat) :
  shape input_data = rows :: rest ->
  in_unit_interval (val_size self) ->
  exists self' vn nt,
    pre_training_checklist_master fround self input_data labels = (self', Ok tt) /\
    val_num self' = Some vn /\ num_train self' = Some nt /\
    (0 <= vn <= Z.of_nat rows)%Z /\ (0 <= nt <= Z.of_nat rows)%Z.
Proof.
  intros Hs Hv. unfold pre_training_checklist_master, shape_at. rewrite Hs. simpl.
  assert (Hrange : (0 <= py_int (int_times fround (Z.of_nat rows)
                     match val_size self with None => PyInt 0 | Some v => v end)
                    <= Z.of_nat rows)%Z).
  { destruct (val_size self) as [[z|q]|]; simpl in *; [nia| |lia].
    destruct Hv as [Hq0 Hq1].
    assert (Hprod0 : (0 <= inject_Z (Z.of_nat rows) * q)%Q).
    { apply Qmult_le_0_compat; [|done]. unfold Qle. simpl. lia. }
    assert (Hprod1 : (inject_Z (Z.of_nat rows) * q <= inject_Z (Z.of_nat rows))%Q).
    { clear -Hq1. destruct q as [a b]. unfold Qle, Qlt in *. simpl in *. nia. }
    rewrite int_of_float_floor by (by apply fround_nonneg).
    pose proof (Qfloor_resp_le _ _ (fround_nonneg _ Hprod0)) as Hlo.
    pose proof (Qfloor_resp_le _ _ (fround_below _ _ Hprod1)) as Hhi.
    rewrite Qfloor_Z in Hhi. change (Qfloor 0) with 0%Z in Hlo. lia. }
  destruct (input_shape self); eexists _, _, _;
    (split; [reflexivity|]); simpl; repeat split; lia.
Qed.

End ChecklistMore.

Lemma checklist_counts_add_up_witness :
  shape (NDArray 0 [10; 7]) = [10; 7] /\
  finite_product 10 (Some (PyFloat (3 # 2))) /\
  exists self' vn nt,
    pre_training_checklist_master (fun q => q)
      (set_val_size (Some (PyFloat (3 # 2))) (init (elt:=Q) "/work"))
      (NDArray 0 [10; 7]) (NDArray 1 [10; 3]) = (self', Ok tt) /\
    val_num self' = Some vn /\ num_train self' = Some nt /\
    (nt + vn = Z.of_nat 10)%Z.
Proof.
  split; [reflexivity|].
  split; [split; vm_compute; discriminate|].
  apply (checklist_counts_add_up (fun q => q)
           (set_val_size (Some (PyFloat (3 # 2))) (init (elt:=Q) "/work"))
           (NDArray 0 [10; 7]) (NDArray 1 [10; 3]) 10 [7]);
    [reflexivity | split; vm_compute; discriminate].
Defined.

Lemma checklist_oversized_fraction_witness :
  shape (NDArray 0 [10; 7]) = [10; 7] /\ 0 < 10 /\ (2 <= 3)%Z /\
  exists nt,
    num_train (fst (pre_training_checklist_master (fun q => q)
                      (set_val_size (Some (PyInt 3)) (init (elt:=Q) "/work"))
                      (NDArray 0 [10; 7]) (NDArray 1 [10; 3])))
    = Some nt /\ (nt < 0)%Z.
Proof.
  split; [reflexivity|]. split; [lia|]. split; [lia|].
  apply (checklist_oversized_fraction (fun q => q)
           (set_val_size (Some (PyInt 3)) (init (elt:=Q) "/work"))
           (NDArray 0 [10; 7]) (NDArray 1 [10; 3]) 10 [7] 3);
    [reflexivity | lia | lia | reflexivity].
Defined.

Lemma checklist_keeps_set_shapes_witness :
  input_shape (set_input_shape (Some [7; 1]) (init (elt:=Q) "/work")) = Some [7; 1] /\
  input_shape (fst (pre_training_checklist_master (fun q => q)
                      (set_input_shape (Some [7; 1]) (init (elt:=Q) "/work"))
                      (NDArray 0 [10; 4; 4]) (NDArray 1 [10; 3])))
  = Some [7; 1] /\
  labels_shape (fst (pre_training_checklist_master (fun q => q)
                       (set_input_shape (Some [7; 1]) (init (elt:=Q) "/work"))
                       (NDArray 0 [10; 4; 4]) (NDArray 1 [10; 3])))
  = None.
Proof.
  split; [reflexivity|].
  apply (checklist_keeps_set_shapes (fun q => q)
           (set_input_shape (Some [7; 1]) (init (elt:=Q) "/work"))
           (NDArray 0 [10; 4; 4]) (NDArray 1 [10; 3]) [7; 1]).
  reflexivity.
Defined.

Lemma checklist_rank0_state_witness :
  shape (NDArray 0 []) = [] /\
  pre_training_checklist_master (fun q => q) (init (elt:=Q) "/work")
    (NDArray 0 []) (NDArray 1 [10; 3])
  = (set_val_size (Some (PyInt 0)) (init (elt:=Q) "/work"), Raise IndexError).
Proof.
  split; [reflexivity|].
  apply (checklist_rank0_state (fun q => q) (init (elt:=Q) "/work")
           (NDArray 0 []) (NDArray 1 [10; 3])).
  reflexivity.
Defined.

Lemma checklist_counts_in_range_witness :
  shape (NDArray 0 [10; 7]) = [10; 7] /\
  in_unit_interval (Some (PyFloat (3 # 10))) /\
  exists self' vn nt,
    pre_training_checklist_master (fun q => q)
      (set_val_size (Some (PyFloat (3 # 10))) (init (elt:=Q) "/work"))
      (NDArray 0 [10; 7]) (NDArray 1 [10; 3]) = (self', Ok tt) /\
    val_num self' = Some vn /\ num_train self' = Some nt /\
    (0 <= vn <= Z.of_nat 10)%Z /\ (0 <= nt <= Z.of_nat 10)%Z.
Proof.
  split; [reflexivity|]. split; [split; [discriminate | reflexivity]|].
  apply (checklist_counts_in_range (fun q => q) (fun q Hq => Hq) (fun q n Hq => Hq)
           (set_val_size (Some (PyFloat (3 # 10))) (init (elt:=Q) "/work"))
           (NDArray 0 [10; 7]) (NDArray 1 [10; 3]) 10 [7]);
    [reflexivity | split; [discriminate | reflexivity]].
Defined.

(** ** More on [save] and [plot_model] *)

Section SaveMore.
Context {elt : Type}.
Variable fmt : NeuralNetMaster elt -> hfield -> string.
Variable folder_runnum : filesystem -> string.
Variable keras_plot_model : string -> M (NeuralNetMaster elt * filesystem) unit.
Variable post_training_checklist_child : M (NeuralNetMaster elt * filesystem) unit.
Variable virtual_cvslogger_savefile : string -> M (NeuralNetMaster elt * filesystem) unit.

Lemma append_same_inv (a b : string) : a +:+ b = a -> b = "".
Proof.
  induction a as [|ch a IH]; [done|].
  change (String ch (a +:+ b) = String ch a -> b = ""). intros [= Heq]. by apply IH.
Qed.

Lemma ends_with_sep_snoc (a : string) : ends_with_sep (a +:+ "/") = true.
Proof.
  induction a as [|ch a IH]; [reflexivity|].
  change (ends_with_sep (String ch (a +:+ "/")) = true).
  destruct a as [|ch' a]; [reflexivity|]. exact IH.
Qed.

Lemma starts_with_sep_snoc (ch : Ascii.ascii) (r t : string) :
  starts_with_sep (String ch r +:+ t) = starts_with_sep (String ch r).
Proof. reflexivity. Qed.

(** For a folder name that is not empty, the hyperparameter file lies
    directly in the folder the call creates. *)
Lemma hyper_file_in_folder (self : NeuralNetMaster elt) (fname : string) :
  fname <> "" ->
  hyper_file self fname
  = os_path_join (currentdir self) fname +:+ "/hyperparameter.txt".
Proof.
  intros Hne. unfold hyper_file, os_path_join.
  destruct fname as [|ch r]; [done|].
  rewrite starts_with_sep_snoc.
  destruct (starts_with_sep (String ch r)).
  - by rewrite append_assoc.
  - destruct (currentdir self) as [|c0 cwd]; [by rewrite append_assoc|].
    destruct (ends_with_sep (String c0 cwd)); by rewrite !append_assoc.
Qed.

(** The path of the hyperparameter file is never the path of the folder. *)
Lemma hyper_file_not_folder (self : NeuralNetMaster elt) (fname : string) :
  hyper_file self fname <> os_path_join (currentdir self) fname.
Proof.
  destruct fname as [|ch r].
  - unfold hyper_file, os_path_join. simpl.
    destruct (currentdir self) as [|c0 cwd]; [done|].
    intros Heq. assert (Hends : ends_with_sep "/hyperparameter.txt" = true); [|done].
    change (("" +:+ "/") +:+ "hyperparameter.txt") with "/hyperparameter.txt" in Heq.
    rewrite Heq. destruct (ends_with_sep (String c0 cwd)) eqn:He.
    + by rewrite append_empty_r.
    + rewrite <- append_assoc, append_empty_r. apply ends_with_sep_snoc.
  - rewrite hyper_file_in_folder by done. intros Heq.
    by apply append_same_inv in Heq.
Qed.

Lemma folder_step_other (fs : filesystem) (dir q : string) :
  q <> dir -> folder_step fs dir !! q = fs !! q.
Proof.
  intros Hq. unfold folder_step, os_makedirs.
  destruct (os_path_exists fs dir); [done|]. by rewrite lookup_insert_ne.
Qed.

Lemma file_write_other (fs : filesystem) (p t q : string) :
  q <> p -> file_write p t fs !! q = fs !! q.
Proof.
  intros Hq. unfold file_write. destruct (fs !! p) as [[|c]|]; try done.
  by rewrite lookup_insert_ne.
Qed.

Lemma fs_keeps_bind {A B} (q : string) (m : M (NeuralNetMaster elt * filesystem) A)
    (f : A -> M (NeuralNetMaster elt * filesystem) B) :
  fs_keeps q m -> (forall a, fs_keeps q (f a)) -> fs_keeps q (bind m f).
Proof.
  intros Hm Hf s. unfold bind. specialize (Hm s).
  destruct (m s) as [s1 [a|e]]; simpl in *; [|done].
  by rewrite Hf.
Qed.

Lemma fs_keeps_ret {A} (q : string) (a : A) : fs_keeps (elt:=elt) q (ret a).
Proof. by intros s. Qed.

Lemma fs_keeps_get (q : string) : fs_keeps (elt:=elt) q get.
Proof. by intros s. Qed.

Lemma fs_keeps_on_self (q : string) f : fs_keeps (elt:=elt) q (on_self f).
Proof. by intros s. Qed.

Lemma fs_keeps_on_fs (q : string) (f : filesystem -> filesystem) :
  (forall fs, f fs !! q = fs !! q) -> fs_keeps (elt:=elt) q (on_fs f).
Proof. intros Hf s. simpl. apply Hf. Qed.

Lemma fs_keeps_try_fs (q : string) (f : filesystem -> result filesystem) :
  (forall fs fs', f fs = Ok fs' -> fs' !! q = fs !! q) ->
  fs_keeps (elt:=elt) q (try_fs f).
Proof.
  intros Hf s. unfold try_fs. destruct (f (snd s)) as [fs'|e] eqn:Hfs; simpl; [|done].
  by apply Hf.
Qed.

Lemma fs_keeps_for_each {A} (q : string) (l : list A)
    (body : A -> M (NeuralNetMaster elt * filesystem) unit) :
  (forall a, fs_keeps q (body a)) -> fs_keeps q (for_each l body).
Proof.
  intros Hbody. induction l as [|a l IH]; simpl; [apply fs_keeps_ret|].
  apply fs_keeps_bind; [apply Hbody | intros _; apply IH].
Qed.

Lemma open_other (p q : string) (fs fs' : filesystem) :
  q <> p -> (open_a p fs = Ok fs' \/ open_w p fs = Ok fs') -> fs' !! q = fs !! q.
Proof.
  intros Hq. unfold open_a, open_w.
  destruct (fs !! p) as [[|c]|]; intros [[= <-]|[= <-]]; try done;
    by rewrite lookup_insert_ne.
Qed.

(** ** Paths in the plain setting *)

Lemma split_sep_cons (s : string) : exists h t, split_sep s = h :: t.
Proof.
  destruct s as [|c r]; simpl; [by eauto|].
  destruct (Ascii.eqb c _); [by eauto|]. destruct (split_sep r); eauto.
Qed.

Lemma split_sep_app (a b : string) :
  split_sep (a +:+ "/" +:+ b) = split_sep a ++ split_sep b.
Proof.
  induction a as [|c r IH]; [reflexivity|].
  change (split_sep (String c (r +:+ "/" +:+ b)) = split_sep (String c r) ++ split_sep b).
  simpl. rewrite IH. destruct (Ascii.eqb c _); [reflexivity|].
  destruct (split_sep_cons r) as (h & t & ->). reflexivity.
Qed.

Lemma split_sep_one (s c : string) : split_sep s = [c] -> c = s.
Proof.
  revert c. induction s as [|ch r IH]; intros c; simpl; [by intros [= <-]|].
  destruct (Ascii.eqb ch _).
  - destruct (split_sep_cons r) as (h & t & ->). discriminate.
  - destruct (split_sep_cons r) as (h & t & Hr). rewrite Hr in *.
    destruct t; intros [= <-]. by rewrite (IH h).
Qed.

Lemma split_sep_no_lead (s c : string) :
  split_sep s = [c] -> starts_with_sep s = false.
Proof.
  destruct s as [|ch r]; simpl; [done|].
  destruct (Ascii.eqb ch _); [|done].
  destruct (split_sep_cons r) as (h & t & ->). discriminate.
Qed.

Lemma ends_with_sep_split (s : string) :
  ends_with_sep s = true -> exists l, split_sep s = l ++ [""].
Proof.
  induction s as [|ch r IH]; [done|].
  destruct r as [|ch' r'].
  - simpl. destruct (Ascii.eqb ch _); [|done]. by exists [""].
  - change (ends_with_sep (String ch (String ch' r'))) with (ends_with_sep (String ch' r')).
    intros He. destruct (IH He) as [l Hl].
    change (split_sep (String ch (String ch' r')))
      with (if Ascii.eqb ch (Ascii.ascii_of_nat 47) then "" :: split_sep (String ch' r')
            else match split_sep (String ch' r') with
                 | h :: t => String ch h :: t
                 | [] => [String ch ""]
                 end).
    rewrite Hl. destruct (Ascii.eqb ch _); [by exists ("" :: l)|].
    destruct l as [|h l]; [by apply split_sep_one in Hl|].
    by exists (String ch h :: l).
Qed.

Lemma split_sep_root (p : string) : split_sep p = [""; ""] -> p = "/".
Proof.
  destruct p as [|c r]; simpl; [done|].
  destruct (Ascii.eqb c (Ascii.ascii_of_nat 47)) eqn:Hc.
  - intros [= Hr]. apply split_sep_one in Hr as <-.
    by apply Ascii.eqb_eq in Hc as ->.
  - by destruct (split_sep r).
Qed.

Lemma normal_path_intro (p c : string) (l : list string) :
  split_sep p = "" :: c :: l -> forallb is_entry_name (c :: l) = true ->
  normal_path p = true.
Proof.
  intros Hs Hall. unfold normal_path. rewrite Hs.
  destruct c as [|x y]; [done|]. exact Hall.
Qed.

Lemma normal_path_split (p : string) :
  normal_path p = true ->
  p = "/" \/ exists c l, split_sep p = "" :: c :: l /\ forallb is_entry_name (c :: l) = true.
Proof.
  unfold normal_path. destruct (split_sep p) as [|e [|c l]] eqn:Hs; try done.
  { by destruct e. }
  destruct e; [|done]. destruct c as [|x y].
  - destruct l; [|done]. intros _. left. by apply split_sep_root.
  - intros Hall. right. by exists (String x y), l.
Qed.

Lemma normal_path_no_trail (p c : string) (l : list string) :
  split_sep p = "" :: c :: l -> forallb is_entry_name (c :: l) = true ->
  ends_with_sep p = false.
Proof.
  intros Hs Hall. destruct (ends_with_sep p) eqn:He; [|done].
  apply ends_with_sep_split in He as [l' Hl]. rewrite Hs in Hl.
  destruct l' as [|x l']; [done|]. injection Hl as _ Hl.
  rewrite Hl, forallb_app in Hall. simpl in Hall. by rewrite andb_false_r in Hall.
Qed.

(** In the plain setting the folder is a child of the working directory and
    the hyperparameter file a child of the folder, both in normal form. *)
Lemma plain_paths_normal (self : NeuralNetMaster elt) (fs : filesystem) (fname : string) :
  plain_setting self fs fname ->
  normal_path (os_path_join (currentdir self) fname) = true /\
  normal_path (hyper_file self fname) = true.
Proof.
  intros (Hcwd & _ & Hname). unfold simple_name in Hname.
  destruct (split_sep fname) as [|c [|c' t]] eqn:Hf; try done.
  pose proof (split_sep_one _ _ Hf) as ->.
  pose proof (split_sep_no_lead _ _ Hf) as Hlead.
  assert (Hlead' : starts_with_sep (fname +:+ "/") = false).
  { destruct fname; [done|exact Hlead]. }
  assert (Hfile : is_entry_name "hyperparameter.txt" = true) by reflexivity.
  unfold hyper_file, os_path_join. rewrite Hlead, Hlead'.
  apply normal_path_split in Hcwd as [Hroot|(c & l & Hs & Hall)].
  - rewrite Hroot.
    change (ends_with_sep "/") with true. cbv iota.
    change ("/" +:+ fname) with ("" +:+ "/" +:+ fname).
    change ("/" +:+ fname +:+ "/") with ("" +:+ "/" +:+ fname +:+ "/").
    rewrite !append_assoc.
    split.
    + apply (normal_path_intro _ fname []); [by rewrite split_sep_app, Hf|].
      simpl. by rewrite Hname.
    + apply (normal_path_intro _ fname ["hyperparameter.txt"]).
      * rewrite split_sep_app. change (split_sep "") with [""].
        by rewrite split_sep_app, Hf.
      * simpl. by rewrite Hname.
  - rewrite (normal_path_no_trail _ _ _ Hs Hall).
    destruct (currentdir self) as [|ch0 cwd0] eqn:Hcd; [done|]. rewrite <- Hcd in *.
    rewrite !append_assoc.
    split.
    + apply (normal_path_intro _ c (l ++ [fname])); [by rewrite split_sep_app, Hs, Hf|].
      rewrite app_comm_cons, forallb_app, Hall. simpl. by rewrite Hname.
    + apply (normal_path_intro _ c (l ++ [fname; "hyperparameter.txt"])).
      * by rewrite !split_sep_app, Hs, Hf.
      * rewrite app_comm_cons, forallb_app, Hall. simpl. by rewrite Hname.
Qed.
(** X7. For a folder name that is one entry name, under a working directory
    that is there, the folder and the hyperparameter file are paths in
    normal form, and lines 141-176 touch these two entries only: what is at
    any other path in normal form is as before, whether the call completes
    or raises. *)
Theorem save_hyperparameters_frame (self : NeuralNetMaster elt) (fs : filesystem)
    (name : option string) (q : string) :
  let fname := resolve_folder folder_runnum self fs name in
  let dir := os_path_join (currentdir self) fname in
  let txt := hyper_file self fname in
  plain_setting self fs fname ->
  normal_path q = true ->
  q <> dir -> q <> txt ->
  normal_path dir = true /\ normal_path txt = true /\
  snd (fst (save_hyperparameters fmt folder_runnum name (self, fs))) !! q = fs !! q.
Proof.
  intros fname dir0 txt0 Hplain _ Hdir Htxt. subst dir0 txt0.
  destruct (plain_paths_normal self fs fname Hplain) as [Hnd Hnt].
  split; [exact Hnd|]. split; [exact Hnt|]. clear Hplain Hnd Hnt.
  unfold save_hyperparameters.
  rewrite (bind_Ok get _ (self, fs) (self, fs) (self, fs)); [|reflexivity].
  cbn beta zeta iota delta [fst snd]. fold fname.
  change (os_path_join (currentdir self) (fname +:+ "/") +:+ "hyperparameter.txt")
    with (hyper_file self fname).
  set (txt := hyper_file self fname) in *.
  set (dir := os_path_join (currentdir self) fname) in *.
  match goal with |- snd (fst (?m (self, fs))) !! q = _ =>
    assert (Hk : fs_keeps q m); [|exact (Hk (self, fs))] end.
  apply fs_keeps_bind; [apply fs_keeps_on_self|]. intros _.
  apply fs_keeps_bind.
  { destruct (os_path_exists fs dir); [apply fs_keeps_ret|].
    apply fs_keeps_on_fs. intros fs0. unfold os_makedirs. by rewrite lookup_insert_ne. }
  intros _. apply fs_keeps_bind; [apply fs_keeps_on_self|]. intros _.
  apply fs_keeps_bind; [apply fs_keeps_get|]. intros s.
  apply fs_keeps_bind.
  { destruct (os_path_isfile (snd s) txt).
    - apply fs_keeps_bind.
      { apply fs_keeps_try_fs. intros fs0 fs' Ho. apply (open_other txt); auto. }
      intros _. apply fs_keeps_bind; [apply fs_keeps_on_self|]. intros _.
      apply fs_keeps_bind;
        [|intros _]; apply fs_keeps_on_fs; intros fs0; by apply file_write_other.
    - apply fs_keeps_bind.
      { apply fs_keeps_try_fs. intros fs0 fs' Ho. apply (open_other txt); auto. }
      intros _. apply fs_keeps_on_self. }
  intros _. apply fs_keeps_for_each. intros kf.
  unfold write_hyper_line. apply fs_keeps_bind; [apply fs_keeps_get|]. intros s'.
  apply fs_keeps_on_fs. intros fs0. by apply file_write_other.
Qed.

(** Runs lines 141-152 of [save_hyperparameters] on the state [(self, fs)]:
    the folder name and path are set, and the folder step is taken. *)
Ltac run_save_prefix self fs fname dir full :=
  unfold save_hyperparameters;
  rewrite (bind_Ok get _ (self, fs) (self, fs) (self, fs)); [|reflexivity];
  cbn beta zeta iota delta [fst snd];
  fold fname; fold dir; fold full;
  rewrite (bind_Ok _ _ _ (set_folder_name (Some fname) self, fs) tt); [|reflexivity];
  cbv beta;
  rewrite (bind_Ok _ _ _ (set_folder_name (Some fname) self, folder_step fs dir) tt);
    [|unfold folder_step; destruct (os_path_exists fs dir); reflexivity];
  cbv beta;
  rewrite (bind_Ok _ _ _
             (set_fullfilepath (Some full) (set_folder_name (Some fname) self),
              folder_step fs dir) tt); [|reflexivity];
  cbv beta.

(** Lines 141-176 run step by step when nothing is at the path of the
    hyperparameter file. *)
Lemma first_save_run (self : NeuralNetMaster elt) (fs : filesystem)
    (name : option string) :
  let fname := resolve_folder folder_runnum self fs name in
  let dir := os_path_join (currentdir self) fname in
  let txt := hyper_file self fname in
  fs !! txt = None ->
  exists fs',
    save_hyperparameters fmt folder_runnum name (self, fs)
    = ((run_instance self fname, fs'), Ok tt) /\
    read_file fs' txt = Some (hyper_text fmt (run_instance self fname)) /\
    fs' !! dir = folder_step fs dir !! dir.
Proof.
  intros fname dir0 txt Hnone. subst dir0.
  set (dir := os_path_join (currentdir self) fname).
  set (full := os_path_join (currentdir self) (fname +:+ "/")).
  set (self1 := set_fullfilepath (Some full) (set_folder_name (Some fname) self)).
  set (self2 := set_hyper_txt (Some txt) self1).
  set (fs1 := folder_step fs dir).
  assert (Hne : txt <> dir) by apply hyper_file_not_folder.
  assert (H1 : fs1 !! txt = None) by (unfold fs1; by rewrite folder_step_other).
  assert (Hdir : os_path_exists fs1 dir = true).
  { unfold fs1, folder_step, os_path_exists, os_makedirs.
    destruct (fs !! dir) eqn:Hd; [by rewrite Hd | by rewrite lookup_insert_eq]. }
  destruct (write_hyper_lines fmt hyper_fields self2 (<[txt := File ""]> fs1) txt "")
    as (fs' & Hrun & Hread).
  { unfold read_file. by rewrite lookup_insert_eq. }
  exists fs'. change (run_instance self fname) with self2.
  split; [|split; [exact Hread|]].
  - run_save_prefix self fs fname dir full. fold self1 fs1.
    rewrite (bind_Ok get _ _ _ _ eq_refl).
    cbn beta zeta iota delta [fst snd].
    change (full +:+ "hyperparameter.txt") with txt.
    assert (Hisfile : os_path_isfile fs1 txt = false)
      by (unfold os_path_isfile; by rewrite H1).
    rewrite Hisfile.
    rewrite (bind_Ok _ _ _ (self2, <[txt := File ""]> fs1) tt).
    2: { unfold bind, try_fs, on_self, modify, open_w.
         cbn beta zeta iota delta [fst snd]. rewrite H1. reflexivity. }
    exact Hrun.
  - assert (Hk : fs_keeps dir (for_each hyper_fields (write_hyper_line fmt txt))).
    { apply fs_keeps_for_each. intros kf. unfold write_hyper_line.
      apply fs_keeps_bind; [apply fs_keeps_get|]. intros s'.
      apply fs_keeps_on_fs. intros fs0. apply file_write_other. congruence. }
    specialize (Hk (self2, <[txt := File ""]> fs1)). rewrite Hrun in Hk. simpl in Hk.
    by rewrite Hk, lookup_insert_ne.
Qed.

(** X8. A first save. For a folder name that is one entry name, under a
    working directory that is there: when no regular file is in the place of
    the folder and nothing is at the path of the hyperparameter file, lines
    141-176 complete; they leave the instance with the folder name, the
    folder path and the handle set and nothing else changed, the folder a
    directory, and as the text written to the file exactly the key/value
    lines of that instance, with no marker. *)
Theorem save_creates_file (self : NeuralNetMaster elt) (fs : filesystem)
    (name : option string) :
  let fname := resolve_folder folder_runnum self fs name in
  let dir := os_path_join (currentdir self) fname in
  let txt := hyper_file self fname in
  plain_setting self fs fname ->
  os_path_isfile fs dir = false ->
  fs !! txt = None ->
  exists fs',
    save_hyperparameters fmt folder_runnum name (self, fs)
    = ((run_instance self fname, fs'), Ok tt) /\
    read_file fs' txt = Some (hyper_text fmt (run_instance self fname)) /\
    fs' !! dir = Some Dir.
Proof.
  intros fname dir txt _ Hfolder Hnone.
  destruct (first_save_run self fs name Hnone) as (fs' & Hrun & Hread & Hdir).
  exists fs'. split; [exact Hrun|]. split; [exact Hread|].
  fold fname dir in Hdir. rewrite Hdir.
  unfold folder_step, os_path_exists, os_path_isfile, os_makedirs in *.
  destruct (fs !! dir) as [[|c]|] eqn:Hd; rewrite ?Hd; try done.
  by rewrite lookup_insert_eq.
Qed.

(** Lines 141-176 run step by step when the hyperparameter file is there:
    the instance they leave, and the text they leave in the file. *)
Lemma appending_save_run (self : NeuralNetMaster elt) (fs : filesystem)
    (name : option string) (c : string) :
  let fname := resolve_folder folder_runnum self fs name in
  read_file fs (hyper_file self fname) = Some c ->
  exists fs',
    save_hyperparameters fmt folder_runnum name (self, fs)
    = ((run_instance self fname, fs'), Ok tt) /\
    read_file fs' (hyper_file self fname)
    = Some (c +:+ newline +:+ another_run +:+ hyper_text fmt (run_instance self fname)).
Proof.
  intros fname Hc.
  set (dir := os_path_join (currentdir self) fname).
  set (full := os_path_join (currentdir self) (fname +:+ "/")).
  set (txt := hyper_file self fname) in *.
  set (self1 := run_instance self fname).
  pose proof (folder_step_keeps_file fs dir txt c Hc) as Hc1.
  fold (folder_step fs dir) in Hc1.
  destruct (existing_file_is_file (folder_step fs dir) txt c Hc1) as [Hisfile Hopen].
  destruct (write_hyper_lines fmt hyper_fields self1
              (file_write txt another_run (file_write txt newline (folder_step fs dir)))
              txt ((c +:+ newline) +:+ another_run))
    as (fs' & Hrun & Hread); [by do 2 apply read_file_write|].
  exists fs'. split.
  - run_save_prefix self fs fname dir full.
    rewrite (bind_Ok get _ _ _ _ eq_refl).
    cbn beta zeta iota delta [fst snd].
    change (full +:+ "hyperparameter.txt") with txt.
    rewrite Hisfile.
    rewrite (bind_Ok _ _ _
               (self1, file_write txt another_run
                         (file_write txt newline (folder_step fs dir))) tt).
    2: { unfold bind, try_fs, on_self, on_fs, modify.
         cbn beta zeta iota delta [fst snd]. rewrite Hopen. reflexivity. }
    cbv beta. exact Hrun.
  - rewrite Hread. unfold hyper_text. by rewrite !append_assoc.
Qed.

(** Lines 141-176 run step by step when a directory is at the path of the
    hyperparameter file. *)
Lemma open_on_directory_run (self : NeuralNetMaster elt) (fs : filesystem)
    (name : option string) :
  let fname := resolve_folder folder_runnum self fs name in
  let dir := os_path_join (currentdir self) fname in
  let full := os_path_join (currentdir self) (fname +:+ "/") in
  fs !! hyper_file self fname = Some Dir ->
  save_hyperparameters fmt folder_runnum name (self, fs)
  = ((set_fullfilepath (Some full) (set_folder_name (Some fname) self),
      folder_step fs dir), Raise OSError).
Proof.
  intros fname dir full Hd.
  assert (H1 : folder_step fs dir !! hyper_file self fname = Some Dir).
  { rewrite folder_step_other; [done | apply hyper_file_not_folder]. }
  run_save_prefix self fs fname dir full.
  rewrite (bind_Ok get _ _ _ _ eq_refl).
  cbn beta zeta iota delta [fst snd].
  change (full +:+ "hyperparameter.txt") with (hyper_file self fname).
  assert (Hisfile : os_path_isfile (folder_step fs dir) (hyper_file self fname) = false)
    by (unfold os_path_isfile; by rewrite H1).
  rewrite Hisfile. unfold bind at 1. unfold bind at 1. unfold try_fs, open_w.
  cbn beta zeta iota delta [fst snd]. rewrite H1. reflexivity.
Qed.

(** X9. When a directory is at the path of the hyperparameter file, the open
    fails: the call raises after the folder was created and the folder
    attributes were set, no handle is stored and no file is written. *)
Theorem save_onto_directory (self : NeuralNetMaster elt) (fs : filesystem)
    (name : option string) :
  let fname := resolve_folder folder_runnum self fs name in
  let dir := os_path_join (currentdir self) fname in
  let full := os_path_join (currentdir self) (fname +:+ "/") in
  fs !! hyper_file self fname = Some Dir ->
  save_hyperparameters fmt folder_runnum name (self, fs)
  = ((set_fullfilepath (Some full) (set_folder_name (Some fname) self),
      folder_step fs dir), Raise OSError).
Proof. exact (open_on_directory_run self fs name). Qed.

(** [plot_model] in terms of the one call of the plotter. *)
Lemma plot_model_run (s : NeuralNetMaster elt * filesystem) :
  let target := match fullfilepath (fst s) with
                | Some p => p +:+ "model.png"
                | None => "model.png"
                end in
  plot_model keras_plot_model s
  = (fst (keras_plot_model target s),
     match snd (keras_plot_model target s) with
     | Raise ImportError => Ok tt
     | r => r
     end).
Proof.
  unfold plot_model, bind, get, try_except. simpl.
  destruct (fullfilepath (fst s)) as [p|];
    (match goal with |- context [keras_plot_model ?t s] =>
       destruct (keras_plot_model t s) as [s' [[]|e]] end);
    simpl; try reflexivity; by destruct e.
Qed.

(** X10. A missing plotting dependency does not stop [save]: when the plotter
    fails with [ImportError] before doing anything, [save] with [model_plot]
    set does what it does without it: the subclass hook and the logger run
    all the same, from the same state. *)
Theorem save_survives_missing_plotter (name : option string)
    (s : NeuralNetMaster elt * filesystem) :
  (forall p s', keras_plot_model p s' = (s', Raise ImportError)) ->
  save fmt folder_runnum keras_plot_model post_training_checklist_child
       virtual_cvslogger_savefile name true s
  = save fmt folder_runnum keras_plot_model post_training_checklist_child
         virtual_cvslogger_savefile name false s.
Proof.
  intros Hplot. unfold save. unfold bind at 1 5.
  destruct (save_hyperparameters fmt folder_runnum name s) as [s1 [[]|e]]; [|done].
  unfold bind at 1 4. rewrite plot_model_run. cbv zeta. rewrite !Hplot. reflexivity.
Qed.

(** X11. A failure of the plotter other than [ImportError] stops [save]: the
    exception is raised from the state the plotter reached, after the
    hyperparameter file was written, and neither the subclass hook nor the
    logger runs. *)
Theorem save_stops_at_failing_plotter (name : option string)
    (s s1 s2 : NeuralNetMaster elt * filesystem) (full : string) (e : exn) :
  save_hyperparameters fmt folder_runnum name s = (s1, Ok tt) ->
  fullfilepath (fst s1) = Some full ->
  keras_plot_model (full +:+ "model.png") s1 = (s2, Raise e) ->
  e <> ImportError ->
  save fmt folder_runnum keras_plot_model post_training_checklist_child
       virtual_cvslogger_savefile name true s
  = (s2, Raise e).
Proof.
  intros Hsh Hfull Hplot He. unfold save.
  rewrite (bind_Ok _ _ _ _ _ Hsh). cbv beta.
  unfold bind at 1. rewrite plot_model_run. cbv zeta. rewrite Hfull, Hplot. simpl.
  by destruct e.
Qed.

(** X12. The steps of [save] run in order and nothing is rolled back: when the
    subclass hook raises after the hyperparameter file was written, [save]
    raises the same exception from the state the hook reached, and the
    logger is not run. *)
Theorem save_stops_at_failing_hook (name : option string)
    (s s1 s2 : NeuralNetMaster elt * filesystem) (e : exn) :
  save_hyperparameters fmt folder_runnum name s = (s1, Ok tt) ->
  post_training_checklist_child s1 = (s2, Raise e) ->
  save fmt folder_runnum keras_plot_model post_training_checklist_child
       virtual_cvslogger_savefile name false s
  = (s2, Raise e).
Proof.
  intros Hsh Hchild. unfold save.
  rewrite (bind_Ok _ _ _ _ _ Hsh). cbv beta.
  rewrite (bind_Ok _ _ s1 s1 tt eq_refl). cbv beta.
  unfold bind at 1. by rewrite Hchild.
Qed.

End SaveMore.

Lemma save_hyperparameters_frame_witness :
  plain_setting (init (elt:=Q) "/work") notes_only "run" /\
  normal_path "/work/notes.txt" = true /\
  "/work/notes.txt" <> "/work/run" /\
  "/work/notes.txt" <> "/work/run/hyperparameter.txt" /\
  normal_path "/work/run" = true /\
  normal_path "/work/run/hyperparameter.txt" = true /\
  snd (fst (write_plain (Some "run") (init "/work", notes_only))) !! "/work/notes.txt"
  = notes_only !! "/work/notes.txt".
Proof.
  split; [repeat split; vm_compute; reflexivity|].
  split; [reflexivity|]. split; [discriminate|]. split; [discriminate|].
  apply (save_hyperparameters_frame plain_fmt (fun _ => "astroNN_run001")
           (init "/work") notes_only (Some "run") "/work/notes.txt");
    [repeat split; vm_compute; reflexivity | reflexivity | discriminate | discriminate].
Defined.

Lemma save_creates_file_witness :
  plain_setting (init (elt:=Q) "/work") work_only "run" /\
  os_path_isfile work_only "/work/run" = false /\
  work_only !! "/work/run/hyperparameter.txt" = None /\
  exists fs',
    write_plain (Some "run") (init "/work", work_only)
    = ((run_instance (init "/work") "run", fs'), Ok tt) /\
    read_file fs' "/work/run/hyperparameter.txt"
    = Some (hyper_text plain_fmt (run_instance (init "/work") "run")) /\
    fs' !! "/work/run" = Some Dir.
Proof.
  split; [repeat split; vm_compute; reflexivity|].
  split; [vm_compute; reflexivity|]. split; [vm_compute; reflexivity|].
  apply (save_creates_file plain_fmt (fun _ => "astroNN_run001")
           (init "/work") work_only (Some "run"));
    [repeat split; vm_compute; reflexivity | vm_compute; reflexivity
    | vm_compute; reflexivity].
Defined.

Lemma save_onto_directory_witness :
  blocked !! "/work/run/hyperparameter.txt" = Some Dir /\
  write_plain (Some "run") (init "/work", blocked)
  = ((set_fullfilepath (Some "/work/run/") (set_folder_name (Some "run") (init "/work")),
      folder_step blocked "/work/run"), Raise OSError).
Proof.
  split; [vm_compute; reflexivity|].
  apply (save_onto_directory plain_fmt (fun _ => "astroNN_run001")
           (init "/work") blocked (Some "run")).
  vm_compute; reflexivity.
Defined.

Lemma save_survives_missing_plotter_witness :
  (forall (p : string) (s' : NeuralNetMaster Q * filesystem),
     raise ImportError s' = (s', Raise ImportError (A := unit))) /\
  save plain_fmt (fun _ => "astroNN_run001") (fun _ => raise ImportError) no_hook
       (fun _ => no_hook) (Some "run") true (init "/work", ∅)
  = save plain_fmt (fun _ => "astroNN_run001") (fun _ => raise ImportError) no_hook
         (fun _ => no_hook) (Some "run") false (init "/work", ∅).
Proof.
  split; [reflexivity|].
  apply (save_survives_missing_plotter plain_fmt (fun _ => "astroNN_run001")
           (fun _ => raise ImportError) no_hook (fun _ => no_hook) (Some "run")
           (init "/work", ∅)).
  reflexivity.
Defined.

Lemma save_stops_at_failing_plotter_witness :
  write_plain (Some "run") (init "/work", ∅)
  = (fst (write_plain (Some "run") (init "/work", ∅)), Ok tt) /\
  fullfilepath (fst (fst (write_plain (Some "run") (init "/work", ∅))))
  = Some "/work/run/" /\
  OSError <> ImportError /\
  save plain_fmt (fun _ => "astroNN_run001") (fun _ => raise OSError) no_hook
       (fun _ => no_hook) (Some "run") true (init "/work", ∅)
  = (fst (write_plain (Some "run") (init "/work", ∅)), Raise OSError).
Proof.
  assert (Hrun : write_plain (Some "run") (init "/work", ∅)
                 = (fst (write_plain (Some "run") (init "/work", ∅)), Ok tt))
    by (vm_compute; reflexivity).
  assert (Hfull : fullfilepath (fst (fst (write_plain (Some "run") (init "/work", ∅))))
                  = Some "/work/run/")
    by (vm_compute; reflexivity).
  split; [exact Hrun|]. split; [exact Hfull|]. split; [discriminate|].
  apply (save_stops_at_failing_plotter plain_fmt (fun _ => "astroNN_run001")
           (fun _ => raise OSError) no_hook (fun _ => no_hook) (Some "run")
           (init "/work", ∅) _ _ "/work/run/" OSError Hrun Hfull);
    [reflexivity | discriminate].
Defined.

Lemma save_stops_at_failing_hook_witness :
  write_plain (Some "run") (init "/work", ∅)
  = (fst (write_plain (Some "run") (init "/work", ∅)), Ok tt) /\
  save_with (raise OSError) (Some "run") false (init "/work", ∅)
  = (fst (write_plain (Some "run") (init "/work", ∅)), Raise OSError).
Proof.
  assert (Hrun : write_plain (Some "run") (init "/work", ∅)
                 = (fst (write_plain (Some "run") (init "/work", ∅)), Ok tt))
    by (vm_compute; reflexivity).
  split; [exact Hrun|].
  apply (save_stops_at_failing_hook plain_fmt (fun _ => "astroNN_run001")
           (fun _ => no_hook) (raise OSError) (fun _ => no_hook) (Some "run")
           (init "/work", ∅) _ _ OSError Hrun).
  reflexivity.
Defined.

(** ** Consecutive saves, for hooks that keep out of the way *)

Section SaveTwice.
Context {elt : Type}.
Variable fmt : NeuralNetMaster elt -> hfield -> string.
Variable folder_runnum : filesystem -> string.
Variable keras_plot_model : string -> M (NeuralNetMaster elt * filesystem) unit.
Variable post_training_checklist_child : M (NeuralNetMaster elt * filesystem) unit.
Variable virtual_cvslogger_savefile : string -> M (NeuralNetMaster elt * filesystem) unit.

Hypothesis plot_quiet : forall p, quiet (keras_plot_model p).
Hypothesis child_quiet : quiet post_training_checklist_child.
Hypothesis logger_quiet : forall f, quiet (virtual_cvslogger_savefile f).

Lemma quiet_ret : quiet (elt:=elt) (ret tt).
Proof. by intros s. Qed.

Lemma quiet_bind (m : M (NeuralNetMaster elt * filesystem) unit)
    (f : unit -> M (NeuralNetMaster elt * filesystem) unit) :
  quiet m -> (forall u, quiet (f u)) -> quiet (bind m f).
Proof.
  intros Hm Hf s. unfold bind. destruct (Hm s) as (Hc & Hn & Hfile).
  destruct (m s) as [s1 [u|e]]; simpl in *; [|done].
  destruct (Hf u s1) as (Hc' & Hn' & Hfile').
  split; [congruence|]. split; [congruence|]. auto.
Qed.

Lemma quiet_plot_model : quiet (plot_model keras_plot_model).
Proof.
  intros s. rewrite plot_model_run. simpl. apply plot_quiet.
Qed.

(** What [save] does after the hyperparameter file is written. *)
Lemma quiet_after_writing (model_plot : bool) :
  quiet ((if model_plot then plot_model keras_plot_model else ret tt) ;;;
         post_training_checklist_child ;;;
         s <- get ;;
         virtual_cvslogger_savefile (default "" (folder_name (fst s)))).
Proof.
  apply quiet_bind; [destruct model_plot; [apply quiet_plot_model | apply quiet_ret]|].
  intros _. apply quiet_bind; [apply child_quiet|]. intros _.
  intros s. unfold bind, get. apply logger_quiet.
Qed.

Lemma cwd_kept_bind {A B} (m : M (NeuralNetMaster elt * filesystem) A)
    (f : A -> M (NeuralNetMaster elt * filesystem) B) :
  cwd_kept m -> (forall a, cwd_kept (f a)) -> cwd_kept (bind m f).
Proof.
  intros Hm Hf s. unfold bind. specialize (Hm s).
  destruct (m s) as [s1 [a|e]]; simpl in *; [|done].
  by rewrite Hf.
Qed.

Lemma cwd_kept_on_self (f : NeuralNetMaster elt -> NeuralNetMaster elt) :
  (forall x, currentdir (f x) = currentdir x) -> cwd_kept (on_self f).
Proof. intros Hf s. simpl. apply Hf. Qed.

Lemma cwd_kept_on_fs (f : filesystem -> filesystem) : cwd_kept (elt:=elt) (on_fs f).
Proof. by intros s. Qed.

Lemma cwd_kept_try_fs (f : filesystem -> result filesystem) :
  cwd_kept (elt:=elt) (try_fs f).
Proof. intros s. unfold try_fs. by destruct (f (snd s)). Qed.

Lemma cwd_kept_for_each {A} (l : list A)
    (body : A -> M (NeuralNetMaster elt * filesystem) unit) :
  (forall a, cwd_kept (body a)) -> cwd_kept (for_each l body).
Proof.
  intros Hbody. induction l as [|a l IH]; simpl; [by intros s|].
  apply cwd_kept_bind; [apply Hbody | intros _; apply IH].
Qed.

(** Lines 141-176 never change the working directory of the instance. *)
Lemma save_hyperparameters_cwd (name : option string) :
  cwd_kept (save_hyperparameters fmt folder_runnum name).
Proof.
  unfold save_hyperparameters.
  apply cwd_kept_bind; [by intros s|]. intros s0.
  apply cwd_kept_bind; [by apply cwd_kept_on_self|]. intros _.
  apply cwd_kept_bind.
  { destruct (os_path_exists _ _); [by intros s | apply cwd_kept_on_fs]. }
  intros _. apply cwd_kept_bind; [by apply cwd_kept_on_self|]. intros _.
  apply cwd_kept_bind; [by intros s|]. intros s1.
  apply cwd_kept_bind.
  { destruct (os_path_isfile _ _).
    - apply cwd_kept_bind; [apply cwd_kept_try_fs|]. intros _.
      apply cwd_kept_bind; [by apply cwd_kept_on_self|]. intros _.
      apply cwd_kept_bind; [apply cwd_kept_on_fs|]. intros _. apply cwd_kept_on_fs.
    - apply cwd_kept_bind; [apply cwd_kept_try_fs|]. intros _.
      by apply cwd_kept_on_self. }
  intros _. apply cwd_kept_for_each. intros kf. unfold write_hyper_line.
  apply cwd_kept_bind; [by intros s|]. intros s2. apply cwd_kept_on_fs.
Qed.

(** A completed run of lines 141-176 leaves a file at the path it resolved,
    and the working directory as it was. *)
Lemma save_hyperparameters_leaves_file (self self' : NeuralNetMaster elt)
    (fs fs' : filesystem) (name : option string) :
  let fname := resolve_folder folder_runnum self fs name in
  save_hyperparameters fmt folder_runnum name (self, fs) = ((self', fs'), Ok tt) ->
  currentdir self' = currentdir self /\ folder_name self' = Some fname /\
  exists c, read_file fs' (hyper_file self fname) = Some c.
Proof.
  intros fname Hrun. subst fname. split.
  { pose proof (save_hyperparameters_cwd name (self, fs)) as Hc.
    by rewrite Hrun in Hc. }
  assert (Hnode : exists node,
    fs !! hyper_file self (resolve_folder folder_runnum self fs name) = node) by eauto.
  destruct Hnode as [[[|c]|] Hnode].
  - pose proof (open_on_directory_run fmt folder_runnum self fs name Hnode) as Hd.
    cbv zeta in Hd. rewrite Hd in Hrun. discriminate.
  - destruct (save_hyperparameters_appends fmt folder_runnum self fs name c)
      as (self2 & fs2 & Hrun2 & Hn & Hc).
    { cbv zeta. unfold read_file. by rewrite Hnode. }
    rewrite Hrun in Hrun2. injection Hrun2 as <- <-. eauto.
  - destruct (first_save_run fmt folder_runnum self fs name Hnode)
      as (fs2 & Hrun2 & Hc & _).
    rewrite Hrun in Hrun2. injection Hrun2 as -> <-. eauto.
Qed.

(** X13. Two consecutive saves into the same folder, in general. When the
    plotter, the subclass hook and the logger keep out of the way, a save
    that completed leaves a hyperparameter file, and a following save into
    the same folder (no name given, or the same name) leaves as the text
    written to that file the text that was there, a line feed, the marker,
    and the key/value lines of the instance as the second call found it
    (with the folder attributes and the handle set by that call), whatever
    the second call's hooks then return. *)
Theorem save_twice_appends (n1 n2 : option string) (p1 p2 : bool)
    (s0 s1 s2 : NeuralNetMaster elt * filesystem) (r2 : result unit) :
  let save_ := save fmt folder_runnum keras_plot_model post_training_checklist_child
                    virtual_cvslogger_savefile in
  save_ n1 p1 s0 = (s1, Ok tt) ->
  n2 = None \/ n2 = folder_name (fst s1) ->
  save_ n2 p2 s1 = (s2, r2) ->
  exists fname c1,
    folder_name (fst s1) = Some fname /\
    read_file (snd s1) (hyper_file (fst s1) fname) = Some c1 /\
    read_file (snd s2) (hyper_file (fst s1) fname)
    = Some (c1 +:+ newline +:+ another_run
               +:+ hyper_text fmt (run_instance (fst s1) fname)).
Proof.
  intros save_ H1 Hn2 H2. unfold save_, save in *.
  (* the first save *)
  destruct s0 as [self0 fs0].
  unfold bind at 1 in H1.
  destruct (save_hyperparameters fmt folder_runnum n1 (self0, fs0))
    as [[selfa fsa] [[]|e]] eqn:Hsh1; [|discriminate].
  destruct (save_hyperparameters_leaves_file _ _ _ _ _ Hsh1) as (Hcwd & Hfn & c1 & Hc1).
  set (fname := resolve_folder folder_runnum self0 fs0 n1) in *.
  destruct (quiet_after_writing p1 (selfa, fsa)) as (Qc & Qn & Qf).
  rewrite H1 in Qc, Qn, Qf. simpl in Qc, Qn, Qf.
  assert (Hname1 : folder_name (fst s1) = Some fname) by congruence.
  assert (Hpath : hyper_file (fst s1) fname = hyper_file self0 fname).
  { unfold hyper_file. congruence. }
  exists fname, c1. rewrite Hpath.
  assert (Hfile1 : read_file (snd s1) (hyper_file self0 fname) = Some c1) by auto.
  (* the second save *)
  destruct s1 as [self1 fs1]. simpl in *.
  assert (Hres : resolve_folder folder_runnum self1 fs1 n2 = fname).
  { unfold resolve_folder. rewrite Hname1. destruct Hn2 as [->| ->]; [done|].
    by rewrite Hname1. }
  destruct (appending_save_run fmt folder_runnum self1 fs1 n2 c1)
    as (fs_mid & Hsh2 & Hc2).
  { rewrite Hres. unfold hyper_file in *. by rewrite Qc, Hcwd. }
  rewrite Hres in Hsh2, Hc2.
  assert (Hpath2 : hyper_file self1 fname = hyper_file self0 fname).
  { unfold hyper_file. congruence. }
  rewrite Hpath2 in Hc2.
  do 2 (split; [done|]).
  unfold bind at 1 in H2. rewrite Hsh2 in H2.
  destruct (quiet_after_writing p2 (run_instance self1 fname, fs_mid)) as (_ & _ & Qf2).
  rewrite H2 in Qf2. simpl in Qf2. by apply Qf2.
Qed.

End SaveTwice.

Lemma save_twice_appends_witness :
  save_with no_hook (Some "run") false (init "/work", ∅)
  = (fst (save_with no_hook (Some "run") false (init "/work", ∅)), Ok tt) /\
  exists fname c1,
    folder_name (fst (fst (save_with no_hook (Some "run") false (init "/work", ∅))))
    = Some fname /\
    read_file (snd (fst (save_with no_hook (Some "run") false (init "/work", ∅))))
              (hyper_file (fst (fst (save_with no_hook (Some "run") false
                                       (init "/work", ∅)))) fname)
    = Some c1 /\
    read_file (snd (fst (save_with no_hook None true
                           (fst (save_with no_hook (Some "run") false
                                   (init "/work", ∅))))))
              (hyper_file (fst (fst (save_with no_hook (Some "run") false
                                       (init "/work", ∅)))) fname)
    = Some (c1 +:+ newline +:+ another_run
               +:+ hyper_text plain_fmt
                     (run_instance
                        (fst (fst (save_with no_hook (Some "run") false
                                     (init "/work", ∅)))) fname)).
Proof.
  assert (Hrun : save_with no_hook (Some "run") false (init "/work", ∅)
                 = (fst (save_with no_hook (Some "run") false (init "/work", ∅)), Ok tt))
    by (vm_compute; reflexivity).
  split; [exact Hrun|].
  eapply (save_twice_appends plain_fmt (fun _ => "astroNN_run001")
            (fun _ => no_hook) no_hook (fun _ => no_hook)
            (fun _ => quiet_ret) quiet_ret (fun _ => quiet_ret)
            (Some "run") None false true (init "/work", ∅));
    [exact Hrun | left; reflexivity | apply surjective_pairing].
Defined.

(** ** More on [jacobian]: what it needs and what it leaves *)

Section JacobianMore.
Context {elt : Type} `{Scalar elt} `{Backend elt}.

(** X14. The array a call returns is a new one: its buffer was not in the store
    before the call, so it is neither the caller's [x] nor any other array
    the caller holds. *)
Theorem jacobian_result_is_fresh (self : NeuralNetMaster elt) (x : ndarray)
    (mean_output : bool) (w w' : world elt) (J : ndarray) :
  jacobian self (Some x) mean_output w = (w', Ok J) ->
  heap w !! buf J = None.
Proof.
  intros Hrun.
  destruct (sound_jacobian (length (heap w)) (fun _ => True) self x mean_output)
    with (w := w) as (_ & _ & Q); try done.
  rewrite Hrun in Q. destruct (Q J eq_refl) as [Hb _].
  by apply lookup_ge_None.
Qed.

(** X15. On an instance whose input normaliser was never fitted ([input_mean] is
    [None], as [__init__] leaves it), a call raises [TypeError] right after
    copying [x]: the copy is the only new buffer and the only event, and no
    layer is looked up. *)
Theorem jacobian_unfitted_normaliser (self : NeuralNetMaster elt) (x : ndarray)
    (mean_output : bool) (w : world elt) :
  input_mean self = OpNone ->
  jacobian self (Some x) mean_output w
  = (World (heap w ++ [default [] (heap w !! buf x)])
           (trace w ++ [EvArray (length (heap w))]),
     Raise TypeError).
Proof.
  intros Hm. unfold jacobian, jacobian_prepare, np_array, inplace.
  rewrite Hm. reflexivity.
Qed.

Lemma np_array_run (x : ndarray) (w : world elt) :
  np_array x w
  = (World (heap w ++ [default [] (heap w !! buf x)])
           (trace w ++ [EvArray (length (heap w))]),
     Ok (NDArray (length (heap w)) (shape x))).
Proof. reflexivity. Qed.

Lemma inplace_scalar_run (f : elt -> elt -> elt) (a : ndarray) (c : elt) (w : world elt) :
  inplace f a (OpScalar c) w
  = (World (<[buf a := map (fun v => f v c) (default [] (heap w !! buf a))]> (heap w))
           (trace w ++ [EvInplace (buf a)]),
     Ok tt).
Proof. reflexivity. Qed.

Lemma stable_lookup_input (self : NeuralNetMaster elt) : stable (lookup_input self).
Proof.
  intros w. rewrite lookup_input_eq.
  assert (Hin : forall m, stable (elt:=elt) (input_of m)).
  { intros m. unfold input_of.
    apply stable_bind; [apply stable_get_layer|]. intros l1.
    apply stable_bind; [apply stable_get_layer|]. intros l2. apply stable_ret. }
  destruct (keras_model_predict self); apply Hin.
Qed.

(** X16. With scalar statistics the copy that is evaluated holds
    (x - input_mean) / input_std, element by element, whether or not the
    lookup that follows succeeds. *)
Theorem jacobian_prepare_normalises (self : NeuralNetMaster elt) (x : ndarray)
    (w : world elt) (m sd : elt) (d : list elt) :
  input_mean self = OpScalar m -> input_std self = OpScalar sd ->
  heap w !! buf x = Some d ->
  heap (fst (jacobian_prepare self x w))
  = heap w ++ [map (fun v => ediv (esub v m) sd) d].
Proof.
  intros Hm Hsd Hd. unfold jacobian_prepare.
  rewrite (bind_Ok _ _ _ _ _ (np_array_run x w)). cbv beta.
  rewrite Hm, Hsd.
  rewrite (bind_Ok _ _ _ _ _ (inplace_scalar_run esub _ m _)). cbv beta.
  rewrite (bind_Ok _ _ _ _ _ (inplace_scalar_run ediv _ sd _)). cbv beta.
  match goal with |- heap (fst (bind ?l ?k ?w0)) = _ =>
    assert (Hst : stable (bind l k)) end.
  { apply stable_bind; [apply stable_lookup_input|]. intros r. apply stable_ret. }
  rewrite Hst. simpl. rewrite Hd. simpl.
  rewrite lookup_app_r by done. rewrite Nat.sub_diag. simpl.
  rewrite list_lookup_insert_eq by (rewrite length_app; simpl; lia). simpl.
  rewrite list_insert_insert_eq, insert_app_r_alt, Nat.sub_diag by done.
  simpl. by rewrite map_map.
Qed.

(** X17. The training model is a fallback only for a missing prediction model:
    when the prediction model is there but has no layer named "input", the
    call raises the lookup's value error, whatever the training model holds. *)
Theorem jacobian_no_fallback (self : NeuralNetMaster elt) (x : ndarray)
    (mean_output : bool) (w : world elt) (m sd : elt) (kp : Model) :
  input_mean self = OpScalar m -> input_std self = OpScalar sd ->
  keras_model_predict self = Some kp ->
  assoc "input" (layers kp) = None ->
  snd (jacobian self (Some x) mean_output w)
  = Raise (ValueError "No such layer: input").
Proof.
  intros Hm Hsd Hkp Hnone. unfold jacobian, jacobian_prepare.
  rewrite Hm, Hsd. unfold np_array, inplace, bind, load, alloc, store, log, modify, ret.
  simpl. rewrite lookup_input_eq, Hkp.
  unfold input_of, get_layer, bind, log, modify. simpl. by rewrite Hnone.
Qed.


End JacobianMore.

Lemma jacobian_result_is_fresh_witness :
  run_sequence [2; 3] false
  = (fst (run_sequence [2; 3] false), Ok (NDArray 2 [2; 3; 2])) /\
  heap (store_of 6) !! 2 = None.
Proof.
  assert (Hrun : run_sequence [2; 3] false
                 = (fst (run_sequence [2; 3] false), Ok (NDArray 2 [2; 3; 2])))
    by (vm_compute; reflexivity).
  split; [exact Hrun|].
  exact (jacobian_result_is_fresh _ _ _ _ _ _ Hrun).
Defined.

Lemma jacobian_unfitted_normaliser_witness :
  input_mean (init (elt:=Q) "/work") = OpNone /\
  jacobian (H := Q_scalar) (H0 := linear_backend 2 [3; 1]) (init "/work")
           (Some (NDArray 0 [2; 3])) false (store_of 6)
  = (World (heap (store_of 6) ++ [default [] (heap (store_of 6) !! 0)])
           (trace (store_of 6) ++ [EvArray (length (heap (store_of 6)))]),
     Raise TypeError).
Proof.
  split; [reflexivity|].
  apply (jacobian_unfitted_normaliser (H0 := linear_backend 2 [3; 1]) (init "/work")
           (NDArray 0 [2; 3]) false (store_of 6)).
  reflexivity.
Defined.

Lemma jacobian_prepare_normalises_witness :
  input_mean (linear_net [3; 1]) = OpScalar 0%Q /\
  input_std (linear_net [3; 1]) = OpScalar 1%Q /\
  heap (store_of 6) !! 0 = Some (map (fun k => inject_Z (Z.of_nat k)) (seq 1 6)) /\
  heap (fst (jacobian_prepare (H := Q_scalar) (linear_net [3; 1]) (NDArray 0 [2; 3])
                              (store_of 6)))
  = heap (store_of 6)
    ++ [map (fun v => ediv (esub v 0%Q) 1%Q)
            (map (fun k => inject_Z (Z.of_nat k)) (seq 1 6))].
Proof.
  split; [reflexivity|]. split; [reflexivity|]. split; [reflexivity|].
  apply (jacobian_prepare_normalises (linear_net [3; 1]) (NDArray 0 [2; 3]) (store_of 6));
    reflexivity.
Defined.

Lemma jacobian_no_fallback_witness :
  input_mean (headless_net [3; 1]) = OpScalar 0%Q /\
  input_std (headless_net [3; 1]) = OpScalar 1%Q /\
  keras_model_predict (headless_net [3; 1]) = Some (MkModel []) /\
  assoc "input" (layers (MkModel [])) = None /\
  snd (jacobian (H := Q_scalar) (H0 := linear_backend 2 [3; 1]) (headless_net [3; 1])
                (Some (NDArray 0 [2; 3])) false (store_of 6))
  = Raise (ValueError "No such layer: input").
Proof.
  split; [reflexivity|]. split; [reflexivity|]. split; [reflexivity|].
  split; [reflexivity|].
  apply (jacobian_no_fallback (H0 := linear_backend 2 [3; 1]) (headless_net [3; 1])
           (NDArray 0 [2; 3]) false (store_of 6) 0%Q 1%Q (MkModel []));
    reflexivity.
Defined.

Section ChecklistThenJacobian.
Context {elt : Type} `{Scalar elt} `{Backend elt}.
Variable fround : Q -> Q.


End ChecklistThenJacobian.


(** ** The evaluation loop: one evaluation and one slice per sample *)

Section Loop.
Context {elt : Type} `{Scalar elt} `{Backend elt}.

Lemma bind_inv {St A B} (m : M St A) (f : A -> M St B) (s s' : St) (b : B) :
  bind m f s = (s', Ok b) ->
  exists s1 a, m s = (s1, Ok a) /\ f a s1 = (s', Ok b).
Proof.
  unfold bind. destruct (m s) as [s1 [a|e]]; [|discriminate]. eauto.
Qed.

Lemma lift_inv {St A} (r : result A) (s s' : St) (a : A) :
  lift r s = (s', Ok a) -> s' = s /\ r = Ok a.
Proof. unfold lift. by intros [= <- ->]. Qed.

(** One iteration that completes: the session returned a value for the
    sample, the value was broadcast to the leading axes, and the result is
    the store with that slice written and the two events logged. *)
Lemma eval_sample_inv (x_data jac : ndarray) (fs t : tensor) (tl : list nat)
    (i r0 : nat) (rest : list nat) (w w' : world elt) (u : unit) :
  shape x_data = r0 :: rest ->
  eval_sample x_data jac fs t tl i w = (w', Ok u) ->
  exists vb,
    sample_gradient fs t rest (take (ndim jac - length tl) (shape jac))
                    (default [] (heap w !! buf x_data)) i = Some vb /\
    w' = World (<[buf jac := write_at jac tl vb (default [] (heap w !! buf jac))]> (heap w))
               (trace w ++ [EvRun (1 :: rest); EvSetitem (buf jac) tl]).
Proof.
  intros Hx. unfold eval_sample, getitem_row, sample_gradient, sample_feed.
  rewrite Hx. unfold bind at 1. unfold bind at 1. simpl.
  unfold bind at 1. simpl. unfold bind at 1. unfold lift at 1.
  destruct (session_run fs t _) as [g|e]; [|discriminate].
  unfold setitem_tail. destruct (forallb _ _); [|discriminate].
  destruct (broadcast_to _ _ _) as [vb|]; [|discriminate].
  simpl. intros [= <-]. exists vb. split; [done|].
  by rewrite <- app_assoc.
Qed.

Section OneLoop.
Variables (x_data jac : ndarray) (fs t : tensor) (idx : nat -> list nat).
Variables (r0 : nat) (rest lead : list nat) (T : nat).
Hypothesis Hx : shape x_data = r0 :: rest.
Hypothesis Hlead : forall i, take (ndim jac - length (idx i)) (shape jac) = lead.
Hypothesis Hwrite : forall i (vb d : list elt),
  write_at jac (idx i) vb d = write_tail T i vb d.
Hypothesis Hneq : buf x_data <> buf jac.

Lemma sample_loop (m a : nat) (w w' : world elt) (dx d : list elt) :
  for_each (seq a m) (fun i => eval_sample x_data jac fs t (idx i) i) w = (w', Ok tt) ->
  heap w !! buf x_data = Some dx -> heap w !! buf jac = Some d ->
  exists d',
    heap w' = <[buf jac := d']> (heap w) /\ length d' = length d /\
    trace w' = trace w ++ loop_events rest (buf jac) idx a m /\
    (forall p, ~ (a <= p mod T < a + m) -> d' !! p = d !! p) /\
    (forall p, a <= p mod T < a + m ->
       exists vb, sample_gradient fs t rest lead dx (p mod T) = Some vb /\
                  d' !! p = (fun old => default old (vb !! (p / T))) <$> d !! p).
Proof.
  revert a w d. induction m as [|m IH]; intros a w d Hrun Hdx Hd.
  - simpl in Hrun. injection Hrun as <-. exists d.
    split; [by rewrite list_insert_id|]. split; [done|].
    split; [unfold loop_events; simpl; by rewrite app_nil_r|].
    split; [done|]. intros p Hp. lia.
  - simpl in Hrun. apply bind_inv in Hrun as (w1 & u & Hstep & Hrest).
    apply (eval_sample_inv _ _ _ _ _ _ r0 rest) in Hstep as (vb & Hvb & ->); [|done].
    rewrite Hlead, Hdx in Hvb. rewrite Hd, Hwrite in Hrest. simpl in *.
    set (d1 := write_tail T a vb d) in *.
    assert (Hlt : buf jac < length (heap w)) by (by eapply lookup_lt_Some).
    destruct (IH (S a) _ d1 Hrest) as (d' & Hheap & Hlen & Htrace & Hout & Hin).
    { simpl. by rewrite list_lookup_insert_ne. }
    { simpl. by rewrite list_lookup_insert_eq. }
    simpl in *. exists d'.
    split; [by rewrite Hheap, list_insert_insert_eq|].
    split; [rewrite Hlen; apply length_write_tail|].
    split; [rewrite Htrace; unfold loop_events; simpl; by rewrite <- app_assoc|].
    assert (Hd1 : forall p, d1 !! p
      = (fun old => if p mod T =? a then default old (vb !! (p / T)) else old) <$> d !! p).
    { intros p. unfold d1, write_tail. apply list_lookup_imap. }
    split.
    + intros p Hp. rewrite Hout by lia. rewrite Hd1.
      destruct (Nat.eqb_spec (p mod T) a); [lia|]. by destruct (d !! p).
    + intros p Hp. destruct (decide (p mod T = a)) as [Heq|Hne].
      * exists vb. split; [by rewrite Heq|]. rewrite Hout by lia. rewrite Hd1.
        by rewrite <- Heq, Nat.eqb_refl.
      * destruct (Hin p) as (vb' & Hvb' & Hp'); [lia|]. exists vb'. split; [done|].
        rewrite Hp', Hd1. destruct (Nat.eqb_spec (p mod T) a); [done|].
        by destruct (d !! p).
Qed.

(** The loop over all samples, run on a result that holds ones: every
    slice of the result holds the gradient of its own sample. *)
Lemma filled_by_loop (w w' : world elt) (dx : list elt) :
  for_each (seq 0 T) (fun i => eval_sample x_data jac fs t (idx i) i) w = (w', Ok tt) ->
  heap w !! buf x_data = Some dx ->
  heap w !! buf jac = Some (replicate (product lead * T) eone) ->
  exists d,
    heap w' = <[buf jac := d]> (heap w) /\ length d = product lead * T /\
    trace w' = trace w ++ loop_events rest (buf jac) idx 0 T /\
    forall k i, k < product lead -> i < T ->
      exists vb, sample_gradient fs t rest lead dx i = Some vb /\
                 d !! (k * T + i) = Some (default eone (vb !! k)).
Proof.
  intros Hrun Hdx Hd.
  destruct (sample_loop T 0 w w' dx _ Hrun Hdx Hd) as (d & Hheap & Hlen & Htrace & _ & Hin).
  exists d. split; [done|]. split; [by rewrite Hlen, length_replicate|].
  split; [done|]. intros k i Hk Hi.
  assert (Hmod : (k * T + i) mod T = i).
  { rewrite Nat.add_comm, Nat.Div0.mod_add. by apply Nat.mod_small. }
  assert (Hdiv : (k * T + i) / T = k).
  { rewrite Nat.add_comm, Nat.div_add by lia. rewrite Nat.div_small by done. done. }
  destruct (Hin (k * T + i)) as (vb & Hvb & Hp); [lia|].
  rewrite Hmod in Hvb. exists vb. split; [done|].
  rewrite Hp, Hdiv. rewrite lookup_replicate_2 by nia. done.
Qed.

End OneLoop.

Lemma get_layer_inv (m : option Model) (name : string) (w w' : world elt) (l : Layer) :
  get_layer m name w = (w', Ok l) ->
  exists km, m = Some km /\ assoc name (layers km) = Some l /\
             w' = World (heap w) (trace w ++ [EvGetLayer name]).
Proof.
  unfold get_layer. destruct m as [km|]; [|discriminate].
  unfold bind, log, modify. simpl.
  destruct (assoc name (layers km)) as [l'|] eqn:Hl; [|discriminate].
  intros [= <- <-]. by exists km.
Qed.

Lemma build_grad_list_inv (self : NeuralNetMaster elt) (t : tensor) (js : list nat)
    (w w' : world elt) (gl : list tensor) :
  build_grad_list self t js w = (w', Ok gl) ->
  w' = World (heap w)
             (trace w ++ flat_map (fun j => [EvGetLayer "output"; EvGradients j]) js) /\
  Forall2 (unit_gradient self t) js gl.
Proof.
  revert w gl. induction js as [|j js IH]; intros w gl Hrun; simpl in Hrun.
  - injection Hrun as <- <-. split; [|constructor].
    destruct w. simpl. by rewrite app_nil_r.
  - apply bind_inv in Hrun as (w1 & out & Hget & Hrun).
    apply get_layer_inv in Hget as (km & Hkm & Hout & ->).
    apply bind_inv in Hrun as (w2 & g & Hg & Hrun).
    apply lift_inv in Hg as [-> Hg].
    apply bind_inv in Hrun as (w3 & u & Hlog & Hrun).
    injection Hlog as <-.
    apply bind_inv in Hrun as (w4 & rest & Hrest & Hret).
    injection Hret as <- <-.
    apply IH in Hrest as [-> Hall]. simpl. split.
    + by rewrite <- !app_assoc.
    + constructor; [|done]. by exists km, out.
Qed.

Lemma stacked_gradients_inv (self : NeuralNetMaster elt) (t : tensor)
    (w w' : world elt) (fs : tensor) :
  stacked_gradients self t w = (w', Ok fs) ->
  exists n, labels_shape self = Some (ShapeInt n) /\
    w' = World (heap w) (trace w ++ graph_events (Z.to_nat n)) /\
    stacked_of self t (Z.to_nat n) fs.
Proof.
  unfold stacked_gradients. intros Hrun.
  apply bind_inv in Hrun as (w1 & js & Hjs & Hrun).
  apply lift_inv in Hjs as [-> Hjs].
  apply bind_inv in Hrun as (w2 & gl & Hgl & Hrun).
  apply build_grad_list_inv in Hgl as [-> Hall].
  apply bind_inv in Hrun as (w3 & fs' & Hfs & Hrun).
  apply lift_inv in Hfs as [-> Hfs].
  apply bind_inv in Hrun as (w4 & u & Hlog & Hret).
  injection Hlog as <-. injection Hret as <- <-.
  unfold range_of in Hjs. destruct (labels_shape self) as [[n|tu]|]; try discriminate.
  injection Hjs as <-. exists n. split; [done|]. split.
  - simpl. unfold graph_events. by rewrite <- app_assoc.
  - by exists gl.
Qed.

Lemma np_ones_inv (dims : list Z) (w w' : world elt) (a : ndarray) :
  np_ones dims w = (w', Ok a) ->
  forallb (fun d => 0 <=? d)%Z dims = true /\
  a = NDArray (length (heap w)) (map Z.to_nat dims) /\
  w' = World (heap w ++ [replicate (product (map Z.to_nat dims)) eone])
             (trace w ++ [EvOnes (length (heap w)) (map Z.to_nat dims)]).
Proof.
  unfold np_ones. destruct (forallb _ dims); [|discriminate].
  unfold bind, alloc, log, modify, ret. simpl. by intros [= <- <-].
Qed.

Lemma shape_at_inv (a : ndarray) (k d : nat) {St} (s s' : St) :
  lift (shape_at a k) s = (s', Ok d) -> s' = s /\ shape a !! k = Some d.
Proof. intros Hl. apply lift_inv in Hl as [-> Hk]. split; [done|]. by apply shape_at_Ok. Qed.

(** What a completed loop leaves, put in terms of the store before the
    result was allocated. *)
Lemma loop_on_fresh_result (x_data : ndarray) (fs t : tensor) (idx : nat -> list nat)
    (r0 : nat) (rest lead js : list nat) (T : nat)
    (h : list (list elt)) (tr : list event) (w' : world elt) (dx : list elt) :
  let jac := NDArray (length h) js in
  shape x_data = r0 :: rest ->
  (forall i, take (ndim jac - length (idx i)) (shape jac) = lead) ->
  (forall i (vb d : list elt), write_at jac (idx i) vb d = write_tail T i vb d) ->
  product js = product lead * T ->
  h !! buf x_data = Some dx ->
  for_each (seq 0 T) (fun i => eval_sample x_data jac fs t (idx i) i)
           (World (h ++ [replicate (product js) eone]) tr) = (w', Ok tt) ->
  exists d,
    w' = World (h ++ [d]) (tr ++ loop_events rest (length h) idx 0 T) /\
    length d = product js /\
    forall k i, k < product lead -> i < T ->
      exists vb, sample_gradient fs t rest lead dx i = Some vb /\
                 d !! (k * T + i) = Some (default eone (vb !! k)).
Proof.
  intros jac Hx Hlead Hwrite Hprod Hdx Hrun.
  pose proof (lookup_lt_Some _ _ _ Hdx) as Hlt.
  assert (Hneq : buf x_data <> buf jac) by (simpl; lia).
  destruct (filled_by_loop x_data jac fs t idx r0 rest lead T Hx Hlead Hwrite Hneq)
    with (w := World (h ++ [replicate (product js) eone]) tr) (w' := w') (dx := dx)
    as (d & Hheap & Hlen & Htrace & Hfill).
  - exact Hrun.
  - simpl. by rewrite lookup_app_l.
  - simpl. rewrite lookup_app_r by done. rewrite Nat.sub_diag. simpl. by rewrite Hprod.
  - simpl in *. exists d. split; [|split; [lia | done]].
    destruct w' as [h' tr']. simpl in *. f_equal; [|done].
    rewrite Hheap, insert_app_r_alt, Nat.sub_diag by done. done.
Qed.

Lemma dims_nonneg_head (n : Z) (ds : list Z) :
  forallb (fun d => 0 <=? d)%Z (n :: ds) = true -> (0 <= n)%Z.
Proof. simpl. intros Hd. apply andb_prop in Hd as [Hd _]. lia. Qed.

Lemma jacobian_rank3_filled (self : NeuralNetMaster elt) (x_data : ndarray) (t : tensor)
    (h : list (list elt)) (tr : list event) (w' : world elt) (jac : ndarray)
    (dx : list elt) :
  jacobian_rank3 self x_data t (World h tr) = (w', Ok jac) ->
  h !! buf x_data = Some dx ->
  filled self t 3 (shape x_data) dx h tr w' jac.
Proof.
  unfold jacobian_rank3. intros Hrun Hdx.
  apply bind_inv in Hrun as (w1 & fs & Hfs & Hrun).
  apply stacked_gradients_inv in Hfs as (n & Hl & -> & Hstack).
  apply bind_inv in Hrun as (w2 & n' & Hn & Hrun).
  apply lift_inv in Hn as [-> Hn]. apply dim_of_Ok in Hn.
  assert (n' = n) as -> by congruence.
  apply bind_inv in Hrun as (w2 & s1 & Hs1 & Hrun). apply shape_at_inv in Hs1 as [-> Hs1].
  apply bind_inv in Hrun as (w2 & s0 & Hs0 & Hrun). apply shape_at_inv in Hs0 as [-> Hs0].
  apply bind_inv in Hrun as (w2 & jac' & Hones & Hrun).
  apply np_ones_inv in Hones as (Hnn & -> & ->). apply dims_nonneg_head in Hnn.
  apply bind_inv in Hrun as (w3 & u & Hloop & Hret). injection Hret as <- <-.
  simpl in *. rewrite !Nat2Z.id in *. destruct u.
  revert Hs0 Hs1.
  destruct (atleast_3d_shape (shape x_data)) as [|s0' [|s1' rest']] eqn:Hx3;
    intros Hs0 Hs1; simplify_eq/=.
  eapply (loop_on_fresh_result (np_atleast_3d x_data) fs t (fun i => [i]) s0
            (s1 :: rest') [Z.to_nat n; s1] [Z.to_nat n; s1; s0] s0) in Hloop
    as (d & -> & Hlen & Hfill); try done.
  - exists n, fs, [Z.to_nat n; s1; s0], (1 :: s1 :: rest'), s0, d.
    cbn zeta. unfold jacobian_shape, feed_shape, lead_axes. rewrite Hx3.
    repeat split; try done.
    + simpl. by rewrite <- !app_assoc.
    + simpl. lia.
  - intros i vb d. unfold write_at. simpl. by rewrite Nat.mul_1_r.
  - simpl. lia.
Qed.

Lemma jacobian_rank4_filled (self : NeuralNetMaster elt) (x_data : ndarray) (t : tensor)
    (h : list (list elt)) (tr : list event) (w' : world elt) (jac : ndarray)
    (dx : list elt) :
  jacobian_rank4 self x_data t (World h tr) = (w', Ok jac) ->
  h !! buf x_data = Some dx ->
  filled self t 4 (shape x_data) dx h tr w' jac.
Proof.
  unfold jacobian_rank4. intros Hrun Hdx. cbv zeta in Hrun.
  apply bind_inv in Hrun as (w1 & x4 & Hx4 & Hrun).
  apply bind_inv in Hrun as (w2 & n & Hn & Hrun).
  apply lift_inv in Hn as [-> Hn]. apply dim_of_Ok in Hn.
  apply bind_inv in Hrun as (w2 & s1 & Hs1 & Hrun). apply shape_at_inv in Hs1 as [-> Hs1].
  apply bind_inv in Hrun as (w2 & s2 & Hs2 & Hrun). apply shape_at_inv in Hs2 as [-> Hs2].
  apply bind_inv in Hrun as (w2 & s3 & Hs3 & Hrun). apply shape_at_inv in Hs3 as [-> Hs3].
  apply bind_inv in Hrun as (w2 & s0 & Hs0 & Hrun). apply shape_at_inv in Hs0 as [-> Hs0].
  apply bind_inv in Hrun as (w2 & jac' & Hones & Hrun).
  apply np_ones_inv in Hones as (Hnn & -> & ->). apply dims_nonneg_head in Hnn.
  apply bind_inv in Hrun as (w3 & fs & Hfs & Hrun).
  apply stacked_gradients_inv in Hfs as (n' & Hl & -> & Hstack).
  assert (n' = n) as -> by congruence.
  apply bind_inv in Hrun as (w4 & u & Hloop & Hret). injection Hret as <- <-.
  destruct u. destruct x_data as [bx xs].
  destruct xs as [|a [|b [|c [|e xs]]]];
    unfold getitem_newaxis3, ndim in Hx4; simpl in Hx4; try discriminate.
  - apply lift_inv in Hx4 as [-> [= <-]].
    simpl in *. simplify_eq/=. rewrite !Nat2Z.id in *.
    eapply (loop_on_fresh_result (NDArray bx [s0; s1; s2; 1]) fs t (fun i => [0; i]) s0
              [s1; s2; 1] [Z.to_nat n; s1; s2] [Z.to_nat n; s1; s2; 1; s0] s0) in Hloop
      as (d & -> & Hlen & Hfill); try done.
    + exists n, fs, [Z.to_nat n; s1; s2; 1; s0], [1; s1; s2; 1], s0, d.
      cbn zeta. repeat split; try done.
      * simpl. by rewrite <- !app_assoc.
      * simpl. lia.
    + intros i vb d. unfold write_at. simpl. by rewrite Nat.add_0_r, Nat.mul_1_r.
    + simpl. lia.
  - injection Hx4 as <- <-.
    simpl in *. simplify_eq/=. rewrite !Nat2Z.id in *.
    eapply (loop_on_fresh_result (NDArray bx (s0 :: s1 :: s2 :: s3 :: xs)) fs t
              (fun i => [i]) s0 (s1 :: s2 :: s3 :: xs)
              [Z.to_nat n; s1; s2; s3] [Z.to_nat n; s1; s2; s3; s0] s0) in Hloop
      as (d & -> & Hlen & Hfill); try done.
    + exists n, fs, [Z.to_nat n; s1; s2; s3; s0], (1 :: s1 :: s2 :: s3 :: xs), s0, d.
      cbn zeta. repeat split; try done.
      * simpl. by rewrite <- !app_assoc.
      * simpl. lia.
    + intros i vb d. unfold write_at. simpl. by rewrite Nat.mul_1_r.
    + simpl. lia.
Qed.

Lemma np_array_inv (x a : ndarray) (w w' : world elt) :
  np_array x w = (w', Ok a) ->
  a = NDArray (length (heap w)) (shape x) /\
  w' = World (heap w ++ [default [] (heap w !! buf x)])
             (trace w ++ [EvArray (length (heap w))]).
Proof. rewrite np_array_run. by intros [= <- <-]. Qed.

Lemma inplace_inv (f : elt -> elt -> elt) (a : ndarray) (m : operand elt)
    (w w' : world elt) (u : unit) :
  inplace f a m w = (w', Ok u) ->
  exists d, w' = World (<[buf a := d]> (heap w)) (trace w ++ [EvInplace (buf a)]).
Proof.
  destruct m as [|c|r].
  - discriminate.
  - rewrite inplace_scalar_run. intros [= <-]. eauto.
  - unfold inplace, bind, load, store, log, modify, raise.
    destruct (broadcast_to _ _ _); [|discriminate]. simpl. intros [= <-]. eauto.
Qed.

Lemma input_of_inv (m : option Model) (w w' : world elt) (p : tensor * list (option nat)) :
  input_of m w = (w', Ok p) ->
  exists km, m = Some km /\ input_layer_of km = Some p /\
    w' = World (heap w) (trace w ++ [EvGetLayer "input"; EvGetLayer "input"]).
Proof.
  unfold input_of. intros Hrun.
  apply bind_inv in Hrun as (w1 & l1 & Hl1 & Hrun).
  apply get_layer_inv in Hl1 as (km & -> & Hl1 & ->).
  apply bind_inv in Hrun as (w2 & l2 & Hl2 & Hrun).
  apply get_layer_inv in Hl2 as (km' & [= <-] & Hl2 & ->).
  injection Hrun as <- <-. exists km. split; [done|].
  unfold input_layer_of. rewrite Hl1. simpl. split; [congruence|].
  by rewrite <- app_assoc.
Qed.

Lemma lookup_input_inv (self : NeuralNetMaster elt) (w w' : world elt)
    (p : tensor * list (option nat)) :
  lookup_input self w = (w', Ok p) ->
  declared_input self = Some p /\
  w' = World (heap w) (trace w ++ [EvGetLayer "input"; EvGetLayer "input"]).
Proof.
  rewrite lookup_input_eq. unfold declared_input.
  destruct (keras_model_predict self) as [kp|]; intros Hrun;
    apply input_of_inv in Hrun as (km & Hkm & Hin & ->).
  - by injection Hkm as <-.
  - by rewrite Hkm.
Qed.

Lemma insert_last (A : Type) (h : list A) (d0 d : A) :
  <[length h := d]> (h ++ [d0]) = h ++ [d].
Proof. by rewrite insert_app_r_alt, Nat.sub_diag by done. Qed.

(** Lines 212-221 when they complete: the copy is the one new buffer, and
    the log grew by the copy, the two updates and the two lookups. *)
Lemma jacobian_prepare_inv (self : NeuralNetMaster elt) (x x_data : ndarray)
    (w w1 : world elt) (looked : tensor * list (option nat)) :
  jacobian_prepare self x w = (w1, Ok (x_data, looked)) ->
  x_data = NDArray (length (heap w)) (shape x) /\
  declared_input self = Some looked /\
  exists dx, w1 = World (heap w ++ [dx]) (trace w ++ prepare_events (length (heap w))).
Proof.
  unfold jacobian_prepare. intros Hrun.
  apply bind_inv in Hrun as (w2 & a & Ha & Hrun).
  apply np_array_inv in Ha as [-> ->].
  apply bind_inv in Hrun as (w2 & u1 & Hsub & Hrun).
  apply inplace_inv in Hsub as (d1 & ->).
  apply bind_inv in Hrun as (w2 & u2 & Hdiv & Hrun).
  apply inplace_inv in Hdiv as (d2 & ->).
  apply bind_inv in Hrun as (w2 & p & Hp & Hrun).
  apply lookup_input_inv in Hp as [Hdecl ->].
  injection Hrun as <- <- <-. simpl.
  split; [done|]. split; [done|]. exists d2.
  rewrite !insert_last. unfold prepare_events. by rewrite <- !app_assoc.
Qed.

Lemma jacobian_dispatch_filled (self : NeuralNetMaster elt) (x_data : ndarray)
    (t : tensor) (ishape : list (option nat))
    (h : list (list elt)) (tr : list event) (w' : world elt) (jac : ndarray)
    (dx : list elt) :
  jacobian_dispatch self x_data t ishape (World h tr) = (w', Ok jac) ->
  h !! buf x_data = Some dx ->
  filled self t (length ishape) (shape x_data) dx h tr w' jac.
Proof.
  unfold jacobian_dispatch.
  destruct (length ishape) as [|[|[|[|[|r]]]]]; try discriminate.
  - apply jacobian_rank3_filled.
  - apply jacobian_rank4_filled.
Qed.

(** A call that returns: the input layer is declared, lines 225-262 ran on
    the normalised copy [dx], and the mean and the report followed. *)
Lemma jacobian_inv (self : NeuralNetMaster elt) (x : ndarray) (mean_output : bool)
    (w w' : world elt) (J : ndarray) :
  jacobian self (Some x) mean_output w = (w', Ok J) ->
  exists t ishape dx w2 w3 jac,
    declared_input self = Some (t, ishape) /\
    filled self t (length ishape) (shape x) dx (heap w ++ [dx])
           (trace w ++ prepare_events (length (heap w))) w2 jac /\
    (if mean_output then np_mean_last jac else ret jac) w2 = (w3, Ok J) /\
    w' = World (heap w3) (trace w3 ++ [EvPrint]).
Proof.
  unfold jacobian. intros Hrun.
  apply bind_inv in Hrun as (w1 & [x_data [t ishape]] & Hprep & Hrun).
  apply jacobian_prepare_inv in Hprep as (-> & Hdecl & dx & ->).
  apply bind_inv in Hrun as (w2 & jac & Hdisp & Hrun).
  apply bind_inv in Hrun as (w3 & J' & Hmean & Hrun).
  injection Hrun as <- <-.
  exists t, ishape, dx, w2, w3, jac. split; [done|]. split; [|done].
  apply (jacobian_dispatch_filled _ _ _ _ _ _ _ _ dx) in Hdisp; [done|].
  simpl. by rewrite lookup_app_r, Nat.sub_diag by done.
Qed.

Lemma np_mean_last_inv (a J : ndarray) (w w' : world elt) :
  np_mean_last a w = (w', Ok J) ->
  buf J = length (heap w) /\ shape J = removelast (shape a) /\
  exists d, w' = World (heap w ++ [d]) (trace w ++ [EvMean (length (heap w))]).
Proof.
  unfold np_mean_last. destruct (last (shape a)); [|discriminate].
  unfold bind, load, alloc, log, modify, ret. simpl. intros [= <- <-]. eauto.
Qed.

(** X19. A call that returns built the graph once and evaluated it once per
    sample, in the order of the samples, writing each result before the next
    evaluation; nothing else was logged. *)
Theorem jacobian_schedule (self : NeuralNetMaster elt) (x : ndarray)
    (mean_output : bool) (w w' : world elt) (J : ndarray) :
  jacobian self (Some x) mean_output w = (w', Ok J) ->
  exists n rank js fshape samples,
    let b := length (heap w) in
    labels_shape self = Some (ShapeInt n) /\
    declared_rank self = Some rank /\
    jacobian_shape rank (Z.to_nat n) (shape x) = Some js /\
    feed_shape rank (shape x) = Some fshape /\
    last js = Some samples /\
    trace w' =
      trace w ++ prepare_events b
        ++ (if rank =? 3 then graph_events (Z.to_nat n) ++ [EvOnes (S b) js]
            else EvOnes (S b) js :: graph_events (Z.to_nat n))
        ++ loop_events (tail fshape) (S b) (write_index rank (shape x)) 0 samples
        ++ (if mean_output then [EvMean (S (S b))] else [])
        ++ [EvPrint].
Proof.
  intros Hrun.
  apply jacobian_inv in Hrun as (t & ishape & dx & w2 & w3 & jac & Hdecl & Hfill & Hmean & ->).
  destruct Hfill as (n & fs & js & fshape & samples & d & Hl & Hn & Hst & Hjs & Hfs
                     & Hlast & -> & -> & Hlen & Hprod & Hslice).
  exists n, (length ishape), js, fshape, samples. cbn zeta.
  split; [done|]. split; [unfold declared_rank; by rewrite Hdecl|].
  split; [done|]. split; [done|]. split; [done|].
  rewrite length_app, Nat.add_1_r in *.
  destruct mean_output.
  - apply np_mean_last_inv in Hmean as (_ & _ & dm & ->). simpl.
    rewrite length_app, length_app, !Nat.add_1_r. by rewrite <- !app_assoc.
  - injection Hmean as <- <-. simpl. by rewrite <- !app_assoc.
Qed.

(** X20. Without the mean, the returned array is the buffer allocated after the
    normalised copy, and for every sample [i] its slice at [i] holds the
    gradient the session gave for row [i] of that copy, broadcast to the
    leading axes; the other samples' rows play no part in it. *)
Theorem jacobian_slices (self : NeuralNetMaster elt) (x : ndarray)
    (w w' : world elt) (J : ndarray) :
  jacobian self (Some x) false w = (w', Ok J) ->
  exists n t ishape fs js fshape samples dx d,
    let rank := length ishape in
    let lead := lead_axes rank (shape x) js in
    labels_shape self = Some (ShapeInt n) /\
    declared_input self = Some (t, ishape) /\
    stacked_of self t (Z.to_nat n) fs /\
    jacobian_shape rank (Z.to_nat n) (shape x) = Some js /\
    feed_shape rank (shape x) = Some fshape /\
    last js = Some samples /\
    J = NDArray (S (length (heap w))) js /\
    heap w' = heap w ++ [dx; d] /\
    length d = product lead * samples /\
    forall k i, k < product lead -> i < samples ->
      exists vb,
        sample_gradient fs t (tail fshape) lead dx i = Some vb /\
        d !! (k * samples + i) = Some (default eone (vb !! k)).
Proof.
  intros Hrun.
  apply jacobian_inv in Hrun as (t & ishape & dx & w2 & w3 & jac & Hdecl & Hfill & Hmean & ->).
  destruct Hfill as (n & fs & js & fshape & samples & d & Hl & Hn & Hst & Hjs & Hfs
                     & Hlast & -> & -> & Hlen & Hprod & Hslice).
  injection Hmean as <- <-.
  exists n, t, ishape, fs, js, fshape, samples, dx, d. cbn zeta.
  rewrite length_app, Nat.add_1_r. simpl.
  repeat split; try done.
  - by rewrite <- app_assoc.
  - congruence.
Qed.

End Loop.

Lemma jacobian_schedule_witness :
  run_sequence [2; 3] true
  = (fst (run_sequence [2; 3] true), Ok (NDArray 3 [2; 3])) /\
  exists n rank js fshape samples,
    labels_shape (linear_net [3; 1]) = Some (ShapeInt n) /\
    declared_rank (linear_net [3; 1]) = Some rank /\
    jacobian_shape rank (Z.to_nat n) [2; 3] = Some js /\
    feed_shape rank [2; 3] = Some fshape /\
    last js = Some samples /\
    trace (fst (run_sequence [2; 3] true)) =
      trace (store_of 6) ++ prepare_events 1
        ++ (if rank =? 3 then graph_events (Z.to_nat n) ++ [EvOnes 2 js]
            else EvOnes 2 js :: graph_events (Z.to_nat n))
        ++ loop_events (tail fshape) 2 (write_index rank [2; 3]) 0 samples
        ++ [EvMean 3] ++ [EvPrint].
Proof.
  assert (Hrun : run_sequence [2; 3] true
                 = (fst (run_sequence [2; 3] true), Ok (NDArray 3 [2; 3])))
    by (vm_compute; reflexivity).
  split; [exact Hrun|].
  exact (jacobian_schedule _ _ _ _ _ _ Hrun).
Defined.

Lemma jacobian_slices_witness :
  run_image [2; 2; 2] false
  = (fst (run_image [2; 2; 2] false), Ok (NDArray 2 [2; 2; 2; 1; 2])) /\
  exists n t ishape fs js fshape samples dx d,
    labels_shape (linear_net [2; 2; 1]) = Some (ShapeInt n) /\
    declared_input (linear_net [2; 2; 1]) = Some (t, ishape) /\
    stacked_of (H := linear_backend 2 [2; 2; 1]) (linear_net [2; 2; 1]) t (Z.to_nat n) fs /\
    jacobian_shape (length ishape) (Z.to_nat n) [2; 2; 2] = Some js /\
    feed_shape (length ishape) [2; 2; 2] = Some fshape /\
    last js = Some samples /\
    NDArray 2 [2; 2; 2; 1; 2] = NDArray 2 js /\
    heap (fst (run_image [2; 2; 2] false)) = heap (store_of 8) ++ [dx; d] /\
    length d = product (lead_axes (length ishape) [2; 2; 2] js) * samples /\
    forall k i, k < product (lead_axes (length ishape) [2; 2; 2] js) -> i < samples ->
      exists vb,
        sample_gradient (H := linear_backend 2 [2; 2; 1]) fs t (tail fshape)
          (lead_axes (length ishape) [2; 2; 2] js) dx i = Some vb /\
        d !! (k * samples + i) = Some (default eone (vb !! k)).
Proof.
  assert (Hrun : run_image [2; 2; 2] false
                 = (fst (run_image [2; 2; 2] false), Ok (NDArray 2 [2; 2; 2; 1; 2])))
    by (vm_compute; reflexivity).
  split; [exact Hrun|].
  exact (jacobian_slices _ _ _ _ _ Hrun).
Defined.
